(** * Langobridge admin dashboard: field-completeness classifier, enhancement
    batch, paginated fetch, slug generation, AI-response cleanup and the
    vocabulary form payload.

    Shallow embedding of the TypeScript sources.  JavaScript strings are
    sequences of code units; they are modelled as [string], read as
    sequences of code units below 256 (ASCII and Latin-1).  [length] is
    the [.length] of the source. *)

From Stdlib Require Import Bool Arith Lia List ZArith Ascii String.
Import ListNotations.
Open Scope string_scope.
Open Scope list_scope.
Open Scope nat_scope.
Open Scope bool_scope.

(* ================================================================= *)
(** ** JavaScript string primitives used by the sources *)

Module Js.

Definition code (c : ascii) : nat := nat_of_ascii c.

(** [WhiteSpace] and [LineTerminator] code units below 256: TAB, LF,
    VT, FF, CR, SP and NBSP.  This is the set [String.prototype.trim]
    and [parseInt] strip. *)
Definition isWhiteSpace (c : ascii) : bool :=
  let n := code c in
  (n =? 9) || (n =? 10) || (n =? 11) || (n =? 12) || (n =? 13)
  || (n =? 32) || (n =? 160).

Fixpoint trimStart (s : string) : string :=
  match s with
  | EmptyString => EmptyString
  | String c r => if isWhiteSpace c then trimStart r else s
  end.

Fixpoint trimEnd (s : string) : string :=
  match s with
  | EmptyString => EmptyString
  | String c r =>
      match trimEnd r with
      | EmptyString => if isWhiteSpace c then EmptyString else String c EmptyString
      | r' => String c r'
      end
  end.

(** [s.trim()] *)
Definition trim (s : string) : string := trimEnd (trimStart s).

(** [c.toLowerCase()] on one code unit below 256: A-Z and the Latin-1
    capitals (U+00C0..U+00DE except the multiplication sign U+00D7)
    move up by 32. *)
Definition lowerChar (c : ascii) : ascii :=
  let n := code c in
  if ((65 <=? n) && (n <=? 90))
     || ((192 <=? n) && (n <=? 222) && negb (n =? 215))
  then ascii_of_nat (n + 32) else c.

Fixpoint toLowerCase (s : string) : string :=
  match s with
  | EmptyString => EmptyString
  | String c r => String (lowerChar c) (toLowerCase r)
  end.

(** [s.includes(sub)] *)
Fixpoint includes (s sub : string) : bool :=
  prefix sub s ||
  match s with
  | EmptyString => false
  | String _ r => includes r sub
  end.

(** [s.replace(/pat/g, "")] for a literal, non-empty pattern: matches
    are taken left to right and do not overlap.  [skip] counts the code
    units of the current match still to be dropped. *)
Fixpoint removeAllFrom (pat : string) (skip : nat) (s : string) : string :=
  match s with
  | EmptyString => EmptyString
  | String c r =>
      match skip with
      | S k => removeAllFrom pat k r
      | O => if prefix pat s
             then removeAllFrom pat (String.length pat - 1) r
             else String c (removeAllFrom pat 0 r)
      end
  end.

Definition removeAll (pat s : string) : string := removeAllFrom pat 0 s.

(** [s.split(sep)] for a one-code-unit separator. *)
Fixpoint split (sep : ascii) (s : string) : list string :=
  match s with
  | EmptyString => [EmptyString]
  | String c r =>
      if Ascii.eqb c sep then EmptyString :: split sep r
      else match split sep r with
           | [] => [String c EmptyString]
           | w :: ws => String c w :: ws
           end
  end.

(** Truthiness of a possibly-null string: [null] and [""] are falsy. *)
Definition truthyStr (o : option string) : bool :=
  match o with
  | None => false
  | Some s => negb (s =? "")%string
  end.

(** Truthiness of a possibly-null object or array: only [null] is falsy. *)
Definition truthyObj {A : Type} (o : option A) : bool :=
  match o with
  | None => false
  | Some _ => true
  end.

(** [o === lit] for a possibly-null string. *)
Definition strictEq (o : option string) (lit : string) : bool :=
  match o with
  | None => false
  | Some s => (s =? lit)%string
  end.

(** [a || b] on strings: the first operand if truthy, else the second. *)
Definition orStr (a b : string) : string :=
  if (a =? "")%string then b else a.

End Js.

(* ================================================================= *)
(** ** Data model ([types/vocabulary.ts]) *)

Record VocabularyExample := mkExample {
  korean : string;
  bangla : string
}.

Record VerbForms := mkVerbForms {
  present : string;
  past : string;
  future : string;
  polite : string
}.

(** The interface declares [explanation] and [examples] non-null, but every
    reader guards them with [!v.explanation] and [!v.examples]; rows come
    straight from the store, so both are nullable here. *)
Record Vocabulary := mkVocabulary {
  id : string;
  korean_word : string;
  bangla_meaning : string;
  romanization : option string;
  part_of_speech : option string;
  explanation : option string;
  examples : option (list VocabularyExample);
  themes : option (list string);
  chapters : option (list Z);
  verb_forms : option VerbForms
}.

Definition with_romanization (r : option string) (v : Vocabulary) : Vocabulary :=
  mkVocabulary (id v) (korean_word v) (bangla_meaning v) r (part_of_speech v)
    (explanation v) (examples v) (themes v) (chapters v) (verb_forms v).

Definition with_part_of_speech (p : option string) (v : Vocabulary) : Vocabulary :=
  mkVocabulary (id v) (korean_word v) (bangla_meaning v) (romanization v) p
    (explanation v) (examples v) (themes v) (chapters v) (verb_forms v).

Definition with_themes (t : option (list string)) (v : Vocabulary) : Vocabulary :=
  mkVocabulary (id v) (korean_word v) (bangla_meaning v) (romanization v)
    (part_of_speech v) (explanation v) (examples v) t (chapters v) (verb_forms v).

Definition with_verb_forms (f : option VerbForms) (v : Vocabulary) : Vocabulary :=
  mkVocabulary (id v) (korean_word v) (bangla_meaning v) (romanization v)
    (part_of_speech v) (explanation v) (examples v) (themes v) (chapters v) f.

(** [!v.examples || v.examples.length === 0], also used for themes and
    chapters. *)
Definition nullOrEmpty {A : Type} (o : option (list A)) : bool :=
  negb (Js.truthyObj o) ||
  match o with
  | Some l => List.length l =? 0
  | None => false
  end.

(** [!v.explanation || v.explanation.length < 50] *)
Definition nullOrShort (o : option string) : bool :=
  negb (Js.truthyStr o) ||
  match o with
  | Some s => String.length s <? 50
  | None => false
  end.

(* ================================================================= *)
(** ** The per-field rules as the specification words them (section 4.1) *)

Module FieldRules.

Definition verb_forms_missing (v : Vocabulary) : bool :=
  match part_of_speech v, verb_forms v with
  | Some p, None => (p =? "verb")%string
  | _, _ => false
  end.

Definition examples_missing (v : Vocabulary) : bool :=
  match examples v with
  | None | Some [] => true
  | Some (_ :: _) => false
  end.

Definition explanation_missing (v : Vocabulary) : bool :=
  match explanation v with
  | None => true
  | Some s => String.length s <? 50
  end.

Definition romanization_missing (v : Vocabulary) : bool :=
  match romanization v with
  | None | Some EmptyString => true
  | Some (String _ _) => false
  end.

Definition part_of_speech_missing (v : Vocabulary) : bool :=
  match part_of_speech v with
  | None | Some EmptyString => true
  | Some (String _ _) => false
  end.

Definition themes_missing (v : Vocabulary) : bool :=
  match themes v with
  | None | Some [] => true
  | Some (_ :: _) => false
  end.

End FieldRules.

(* ================================================================= *)
(** ** [pages/OpenAiStudio.tsx]: classifier and filters *)

Module OpenAiStudio.

Inductive FilterType :=
| all | missing_all_fields | missing_romanization | missing_pos
| missing_explanation | missing_examples | missing_themes
| missing_chapters | missing_verb.

(** The [missing] array built by [hasMissingFields]. *)
Definition missing (vocab : Vocabulary) : list string :=
  let m0 := [] in
  let m1 := if Js.strictEq (part_of_speech vocab) "verb"
               && negb (Js.truthyObj (verb_forms vocab))
            then m0 ++ ["verb_forms"] else m0 in
  let m2 := if nullOrShort (explanation vocab)
            then m1 ++ ["explanation"] else m1 in
  let m3 := if nullOrEmpty (examples vocab)
            then m2 ++ ["examples"] else m2 in
  m3.

Definition hasMissingFields (vocab : Vocabulary) : bool :=
  0 <? List.length (missing vocab).

(** The body of the ["missing-all-fields"] branch. *)
Definition missingAllFields (v : Vocabulary) : bool :=
  let isVerb := Js.strictEq (part_of_speech v) "verb" in
  let noVerbForms := if isVerb then negb (Js.truthyObj (verb_forms v)) else true in
  let noExamples := nullOrEmpty (examples v) in
  let noExplanation := nullOrShort (explanation v) in
  let noRomanization := negb (Js.truthyStr (romanization v)) in
  let noThemes := nullOrEmpty (themes v) in
  noVerbForms && noExamples && noExplanation && noRomanization && noThemes.

(** The [if / else if] chain on [filterType]. *)
Definition typeFilter (filterType : FilterType) (v : Vocabulary) : bool :=
  match filterType with
  | missing_verb =>
      Js.strictEq (part_of_speech v) "verb" && negb (Js.truthyObj (verb_forms v))
  | missing_examples => nullOrEmpty (examples v)
  | missing_explanation => nullOrShort (explanation v)
  | missing_romanization => negb (Js.truthyStr (romanization v))
  | missing_pos => negb (Js.truthyStr (part_of_speech v))
  | missing_themes => nullOrEmpty (themes v)
  | missing_chapters => nullOrEmpty (chapters v)
  | missing_all_fields => missingAllFields v
  | all => hasMissingFields v
  end.

(** [filterPos]: ["all"] or a part-of-speech key. *)
Definition filterVocabularies (vocabularies : list Vocabulary)
    (searchQuery filterPos : string) (filterType : FilterType)
    : list Vocabulary :=
  let filtered := vocabularies in
  let filtered :=
    if negb (Js.trim searchQuery =? "")%string then
      let query := Js.toLowerCase searchQuery in
      filter (fun v => Js.includes (Js.toLowerCase (korean_word v)) query
                       || Js.includes (Js.toLowerCase (bangla_meaning v)) query)
             filtered
    else filtered in
  let filtered :=
    if negb (filterPos =? "all")%string
    then filter (fun v => Js.strictEq (part_of_speech v) filterPos) filtered
    else filtered in
  filter (typeFilter filterType) filtered.

(** The [missingCount] shown on each card: number of raised flags. *)
Definition missingCount (vocab : Vocabulary) : nat :=
  List.length (filter (fun b : bool => b)
    [ Js.strictEq (part_of_speech vocab) "verb" && negb (Js.truthyObj (verb_forms vocab));
      nullOrEmpty (examples vocab);
      nullOrShort (explanation vocab) ]).

(** The "Verb Forms" badge condition. *)
Definition verbBadge (vocab : Vocabulary) : bool :=
  Js.strictEq (part_of_speech vocab) "verb" && negb (Js.truthyObj (verb_forms vocab)).

End OpenAiStudio.

(* ================================================================= *)
(** ** [pages/GeminiStudio.tsx]: classifier and filters *)

Module GeminiStudio.

Inductive FilterType :=
| all | missing_all_fields | missing_romanization | missing_pos
| missing_explanation | missing_examples | missing_themes
| missing_chapters | missing_verb | missing_id.

Definition hasMissingFields (vocab : Vocabulary) : bool :=
  let isVerb := Js.strictEq (part_of_speech vocab) "verb" in
  let noVerbForms := if isVerb then negb (Js.truthyObj (verb_forms vocab)) else false in
  let noExamples := nullOrEmpty (examples vocab) in
  let noExplanation :=
    negb (Js.truthyStr (explanation vocab))
    || (Js.truthyStr (explanation vocab)
        && match explanation vocab with
           | Some s => String.length s <? 50
           | None => false
           end) in
  let noRomanization := negb (Js.truthyStr (romanization vocab)) in
  let noPos := negb (Js.truthyStr (part_of_speech vocab)) in
  let noThemes := nullOrEmpty (themes vocab) in
  noVerbForms || noExamples || noExplanation || noRomanization || noPos || noThemes.

(** The [if / else if] chain on [filterType]; ["missing-chapters"] has no
    branch and leaves the list as it is. *)
Definition typeFilter (filterType : FilterType) (v : Vocabulary) : bool :=
  match filterType with
  | missing_verb =>
      Js.strictEq (part_of_speech v) "verb" && negb (Js.truthyObj (verb_forms v))
  | missing_examples => nullOrEmpty (examples v)
  | missing_explanation => nullOrShort (explanation v)
  | missing_romanization => negb (Js.truthyStr (romanization v))
  | missing_id => (id v =? "")%string || (id v =? "NaN")%string
  | missing_pos => negb (Js.truthyStr (part_of_speech v))
  | missing_themes => nullOrEmpty (themes v)
  | missing_all_fields => hasMissingFields v
  | all => hasMissingFields v
  | missing_chapters => true
  end.

Definition filterVocabularies (vocabularies : list Vocabulary)
    (searchQuery filterPos : string) (filterType : FilterType)
    : list Vocabulary :=
  let filtered := vocabularies in
  let filtered :=
    if negb (Js.trim searchQuery =? "")%string then
      let query := Js.toLowerCase searchQuery in
      filter (fun v => Js.includes (Js.toLowerCase (korean_word v)) query
                       || Js.includes (Js.toLowerCase (bangla_meaning v)) query)
             filtered
    else filtered in
  let filtered :=
    if negb (filterPos =? "all")%string
    then filter (fun v => Js.strictEq (part_of_speech v) filterPos) filtered
    else filtered in
  filter (typeFilter filterType) filtered.

(** The "Verb" badge condition. *)
Definition verbBadge (vocab : Vocabulary) : bool :=
  Js.strictEq (part_of_speech vocab) "verb" && negb (Js.truthyObj (verb_forms vocab)).

End GeminiStudio.

(* ================================================================= *)
(** ** Dashboard [fetchStats]: the incomplete count *)

Module Dashboard.

(** The callback of [allVocabData.filter]; [examples] is an array
    whenever it is present, so [Array.isArray] holds. *)
Definition isIncomplete (v : Vocabulary) : bool :=
  let noExpl := nullOrShort (explanation v) in
  let noEx := negb (Js.truthyObj (examples v))
              || (true && match examples v with
                          | Some l => List.length l =? 0
                          | None => false
                          end) in
  let noVerb := Js.strictEq (part_of_speech v) "verb"
                && negb (Js.truthyObj (verb_forms v)) in
  noExpl || noEx || noVerb.

Definition incompleteCount (allVocabData : list Vocabulary) : nat :=
  List.length (filter isIncomplete allVocabData).

End Dashboard.

(* ================================================================= *)
(** ** The record store as the client sees it *)

Module Store.

(** What [await supabase.from(t).select(..).range(from, to)] resolves to. *)
Record Response (A : Type) := mkResponse {
  data : option (list A);
  error : option string
}.
Arguments mkResponse {A}.
Arguments data {A}.
Arguments error {A}.

(** Rows [from .. to] (both inclusive) of a table kept in query order. *)
Definition rows {A : Type} (table : list A) (from to : nat) : list A :=
  firstn (to + 1 - from) (skipn from table).

(** A store that holds [table] unchanged during the fetch and rejects
    nothing. *)
Definition range {A : Type} (table : list A) (from to : nat) : Response A :=
  mkResponse (Some (rows table from to)) None.

End Store.

(* ================================================================= *)
(** ** Paginated full-table fetch

    [fetchResources], [fetchBlogs], [fetchVocabulary] and the loop inside
    [fetchStats] are the same [while (true)] loop over different tables. *)

Module Fetch.

Definition PAGE_SIZE : nat := 1000.

Inductive Outcome (A : Type) :=
| Loaded (allData : list A)
| Thrown (message : string).
Arguments Loaded {A}.
Arguments Thrown {A}.

(** One unit of [fuel] per round of the loop; [None] means the loop is
    still running when the fuel is spent. *)
Fixpoint fetchLoop {A : Type} (fuel : nat)
    (query : nat -> nat -> Store.Response A)
    (allData : list A) (from to : nat) : option (Outcome A) :=
  match fuel with
  | O => None
  | S fuel' =>
      let r := query from to in
      match Store.error r with
      | Some e => Some (Thrown e)
      | None =>
          match Store.data r with
          | None => Some (Loaded allData)
          | Some d =>
              if List.length d =? 0 then Some (Loaded allData)
              else
                let allData := allData ++ d in
                if List.length d <? PAGE_SIZE then Some (Loaded allData)
                else fetchLoop fuel' query allData (from + PAGE_SIZE) (to + PAGE_SIZE)
          end
      end
  end.

Definition fetchAll {A : Type} (fuel : nat)
    (query : nat -> nat -> Store.Response A) : option (Outcome A) :=
  fetchLoop fuel query [] 0 (PAGE_SIZE - 1).

End Fetch.

(* ================================================================= *)
(** ** Enhancement batch ([handleEnhanceSelected] of both studios) *)

Module Batch.

Inductive Studio := OpenAi | Gemini.

(** The argument of [setTimeout] between two records. *)
Definition delayMs (s : Studio) : nat :=
  match s with
  | OpenAi => 500
  | Gemini => 1000
  end.

Inductive Status := pending | processing | success | error.

(** A thrown value: an [Error] instance with its message, or anything
    else. *)
Inductive Thrown :=
| ErrorObject (message : string)
| OtherValue.

(** [error instanceof Error ? error.message : "Unknown error"] *)
Definition messageOf (e : Thrown) : string :=
  match e with
  | ErrorObject m => m
  | OtherValue => "Unknown error"
  end.

Section WithData.

(** The partial record returned by the enrichment call. *)
Variable Enhanced : Type.

Record EnhancementResult := mkResult {
  r_id : string;
  r_korean_word : string;
  r_status : Status;
  r_error : option string;
  r_enhanced : option Enhanced
}.

(** The two external calls of one loop round.  [i] is the loop index,
    so that two rounds may meet different outcomes. *)
Record World := mkWorld {
  enhance : nat -> Vocabulary -> Thrown + Enhanced;
  update : nat -> string -> Enhanced -> option Thrown
}.

Inductive Event :=
| EvEnhance (i : nat) (vid : string)
| EvUpdate (i : nat) (vid : string)
| EvDelay (ms : nat)
| EvInvalidate
| EvSummary (successCount errorCount : nat).

Record State := mkState {
  results : list EnhancementResult;
  successCount : nat;
  errorCount : nat;
  progress : nat * nat;
  log : list Event
}.

(** [prev.map(r => r.id === vocab.id ? f r : r)] *)
Definition mapById (vid : string) (f : EnhancementResult -> EnhancementResult)
    (prev : list EnhancementResult) : list EnhancementResult :=
  map (fun r => if (r_id r =? vid)%string then f r else r) prev.

Definition setProcessing (r : EnhancementResult) : EnhancementResult :=
  mkResult (r_id r) (r_korean_word r) processing (r_error r) (r_enhanced r).

(** [{ ...r, status: "success", enhanced }] in the OpenAI studio,
    [{ ...r, status: "success" }] in the Gemini studio. *)
Definition setSuccess (s : Studio) (enhanced : Enhanced)
    (r : EnhancementResult) : EnhancementResult :=
  match s with
  | OpenAi => mkResult (r_id r) (r_korean_word r) success (r_error r) (Some enhanced)
  | Gemini => mkResult (r_id r) (r_korean_word r) success (r_error r) (r_enhanced r)
  end.

(** The OpenAI studio stores the thrown message, the Gemini studio the
    constant ["Failed"]. *)
Definition setError (s : Studio) (e : Thrown)
    (r : EnhancementResult) : EnhancementResult :=
  match s with
  | OpenAi => mkResult (r_id r) (r_korean_word r) error (Some (messageOf e)) (r_enhanced r)
  | Gemini => mkResult (r_id r) (r_korean_word r) error (Some "Failed") (r_enhanced r)
  end.

(** The [catch] block. *)
Definition catchBlock (s : Studio) (vocab : Vocabulary) (e : Thrown)
    (st : State) : State :=
  mkState (mapById (id vocab) (setError s e) (results st))
          (successCount st) (errorCount st + 1) (progress st) (log st).

(** The [try] block: enrichment, then the store update, then the
    success bookkeeping; the first failure jumps to [catch]. *)
Definition tryBlock (s : Studio) (w : World) (i : nat) (vocab : Vocabulary)
    (st : State) : State :=
  let st := mkState (results st) (successCount st) (errorCount st)
                    (progress st) (log st ++ [EvEnhance i (id vocab)]) in
  match enhance w i vocab with
  | inl e => catchBlock s vocab e st
  | inr enhanced =>
      let st := mkState (results st) (successCount st) (errorCount st)
                        (progress st) (log st ++ [EvUpdate i (id vocab)]) in
      match update w i (id vocab) enhanced with
      | Some updateError => catchBlock s vocab updateError st
      | None =>
          mkState (mapById (id vocab) (setSuccess s enhanced) (results st))
                  (successCount st + 1) (errorCount st) (progress st) (log st)
      end
  end.

(** One round of the [for] loop; [n] is [selected.length].  The loop
    runs only when [n >= 1], where [n - 1] is the source's
    [selected.length - 1]. *)
Definition round (s : Studio) (w : World) (n i : nat) (vocab : Vocabulary)
    (st : State) : State :=
  let st := mkState (mapById (id vocab) setProcessing (results st))
                    (successCount st) (errorCount st) (i, n) (log st) in
  let st := tryBlock s w i vocab st in
  let st := mkState (results st) (successCount st) (errorCount st)
                    (i + 1, n) (log st) in
  if i <? n - 1
  then mkState (results st) (successCount st) (errorCount st)
               (progress st) (log st ++ [EvDelay (delayMs s)])
  else st.

(** [for (let i = ...; i < selected.length; i++)], on the records from
    index [i] on. *)
Fixpoint loop (s : Studio) (w : World) (n i : nat) (rest : list Vocabulary)
    (st : State) : State :=
  match rest with
  | [] => st
  | vocab :: rest' => loop s w n (i + 1) rest' (round s w n i vocab st)
  end.

Definition initialResult (v : Vocabulary) : EnhancementResult :=
  mkResult (id v) (korean_word v) pending None None.

(** The batch over the records [selected], from [setResults] of the
    pending list to the final summary toast. *)
Definition runBatch (s : Studio) (w : World) (selected : list Vocabulary) : State :=
  let st := mkState (map initialResult selected) 0 0 (0, List.length selected) [] in
  let st := loop s w (List.length selected) 0 selected st in
  mkState (results st) (successCount st) (errorCount st) (progress st)
          (log st ++ [EvInvalidate; EvSummary (successCount st) (errorCount st)]).

(** [handleEnhanceSelected]: nothing runs on an empty selection;
    otherwise the selected records are taken in the order of
    [vocabularies]. *)
Definition handleEnhanceSelected (s : Studio) (w : World)
    (vocabularies : list Vocabulary) (selectedVocabs : list string)
    : option State :=
  if List.length selectedVocabs =? 0 then None
  else
    let selected :=
      filter (fun v => existsb (String.eqb (id v)) selectedVocabs) vocabularies in
    Some (runBatch s w selected).

(** Whether round [i] on [vocab] ends in the [catch] block. *)
Definition fails (w : World) (i : nat) (vocab : Vocabulary) : bool :=
  match enhance w i vocab with
  | inl _ => true
  | inr enhanced =>
      match update w i (id vocab) enhanced with
      | Some _ => true
      | None => false
      end
  end.

(** *** What a run is expected to leave behind *)

(** The entry of [vocab] once round [i] is over. *)
Definition finalResult (s : Studio) (w : World) (i : nat) (vocab : Vocabulary)
    : EnhancementResult :=
  let r := setProcessing (initialResult vocab) in
  match enhance w i vocab with
  | inl e => setError s e r
  | inr enhanced =>
      match update w i (id vocab) enhanced with
      | Some updateError => setError s updateError r
      | None => setSuccess s enhanced r
      end
  end.

Fixpoint finalResults (s : Studio) (w : World) (i : nat) (rest : list Vocabulary)
    : list EnhancementResult :=
  match rest with
  | [] => []
  | vocab :: rest' => finalResult s w i vocab :: finalResults s w (i + 1) rest'
  end.

(** The loop indices, from [i] on, whose round ends in [catch]. *)
Fixpoint failingIndices (w : World) (i : nat) (rest : list Vocabulary) : list nat :=
  match rest with
  | [] => []
  | vocab :: rest' =>
      if fails w i vocab then i :: failingIndices w (i + 1) rest'
      else failingIndices w (i + 1) rest'
  end.

(** The external calls and suspensions of round [i]: the enrichment
    call, the store update when the enrichment returned, the delay
    unless the record is the last. *)
Definition roundEvents (s : Studio) (w : World) (n i : nat) (vocab : Vocabulary)
    : list Event :=
  [EvEnhance i (id vocab)]
  ++ match enhance w i vocab with
     | inl _ => []
     | inr _ => [EvUpdate i (id vocab)]
     end
  ++ (if i <? n - 1 then [EvDelay (delayMs s)] else []).

Fixpoint eventsFrom (s : Studio) (w : World) (n i : nat) (rest : list Vocabulary)
    : list Event :=
  match rest with
  | [] => []
  | vocab :: rest' => roundEvents s w n i vocab ++ eventsFrom s w n (i + 1) rest'
  end.

(** One enrichment call per record, in input order. *)
Fixpoint enhanceEvents (i : nat) (rest : list Vocabulary) : list Event :=
  match rest with
  | [] => []
  | vocab :: rest' => EvEnhance i (id vocab) :: enhanceEvents (i + 1) rest'
  end.

Definition isDelay (e : Event) : bool :=
  match e with
  | EvDelay _ => true
  | _ => false
  end.

Definition isEnhance (e : Event) : bool :=
  match e with
  | EvEnhance _ _ => true
  | _ => false
  end.

End WithData.

End Batch.

(* ================================================================= *)
(** ** Blog form: slug generation and the submitted slug *)

Module Blogs.

(** The character class [[a-z0-9]]. *)
Definition isSlugChar (c : ascii) : bool :=
  let n := Js.code c in
  ((97 <=? n) && (n <=? 122)) || ((48 <=? n) && (n <=? 57)).

(** [.replace(/[^a-z0-9]+/g, "-")]: [inRun] holds while the scan is
    inside a match, whose replacement hyphen is already written. *)
Fixpoint replaceRuns (inRun : bool) (s : string) : string :=
  match s with
  | EmptyString => EmptyString
  | String c r =>
      if isSlugChar c then String c (replaceRuns false r)
      else if inRun then replaceRuns true r
      else String "-" (replaceRuns true r)
  end.

(** [.replace(/(^-|-$)/g, "")]: without the [m] flag [^] matches at
    index 0 only and [$] at the end only. *)
Fixpoint stripEdges (atStart : bool) (s : string) : string :=
  match s with
  | EmptyString => EmptyString
  | String c r =>
      if Ascii.eqb c "-" && (atStart || (r =? "")%string)
      then stripEdges false r
      else String c (stripEdges false r)
  end.

Definition generateSlug (title : string) : string :=
  stripEdges true (replaceRuns false (Js.toLowerCase title)).

Record FormData := mkFormData {
  title : string;
  slug : string;
  content : string;
  thumbnail_url : string;
  category : string;
  tags : string
}.

(** [formData.slug || generateSlug(formData.title)] of [handleSubmit]. *)
Definition payloadSlug (formData : FormData) : string :=
  Js.orStr (slug formData) (generateSlug (title formData)).

(** *** The slug as the specification words it *)

Definition startsWithSlugChar (s : string) : bool :=
  match s with
  | EmptyString => false
  | String c _ => isSlugChar c
  end.

(** The maximal runs of [[a-z0-9]] characters of [s], in order. *)
Fixpoint words (s : string) : list string :=
  match s with
  | EmptyString => []
  | String c r =>
      if isSlugChar c then
        if startsWithSlugChar r then
          match words r with
          | w :: ws => String c w :: ws
          | [] => [String c EmptyString]
          end
        else String c EmptyString :: words r
      else words r
  end.

Definition slugSpec (title : string) : string :=
  String.concat "-" (words (Js.toLowerCase title)).

Fixpoint allSlugChars (s : string) : bool :=
  match s with
  | EmptyString => true
  | String c r => isSlugChar c && allSlugChars r
  end.

Fixpoint lastChar (s : string) : option ascii :=
  match s with
  | EmptyString => None
  | String c EmptyString => Some c
  | String _ r => lastChar r
  end.

Definition firstChar (s : string) : option ascii :=
  match s with
  | EmptyString => None
  | String c _ => Some c
  end.

(** An end of the slug, when there is one, is a character of
    [[a-z0-9]], hence no hyphen. *)
Definition edgeOk (o : option ascii) : bool :=
  match o with
  | None => true
  | Some c => isSlugChar c
  end.

End Blogs.

(* ================================================================= *)
(** ** [JSON.parse]

    The built-in of the runtime, written out after the JSON grammar: a
    scanner that turns the text into tokens and a parser over the tokens.
    A number keeps its literal and an object keeps its members in order,
    which tells apart at least what the runtime tells apart. *)

Module Json.

Inductive Token :=
| TLBrace | TRBrace | TLBracket | TRBracket | TColon | TComma
| TString (units : list N)
| TNumber (literal : string)
| TTrue | TFalse | TNull.

#[local] Unset Elimination Schemes.
Inductive Value :=
| JNull
| JBool (b : bool)
| JNumber (literal : string)
| JString (units : list N)
| JArray (items : list Value)
| JObject (members : list (list N * Value)).
#[local] Set Elimination Schemes.

(** The quotation mark, U+0022. *)
Definition quote : ascii := "034"%char.

(** JSON white space: TAB, LF, CR and SP. *)
Definition isWs (c : ascii) : bool :=
  let n := Js.code c in
  (n =? 9) || (n =? 10) || (n =? 13) || (n =? 32).

Definition isDigit (c : ascii) : bool :=
  let n := Js.code c in (48 <=? n) && (n <=? 57).

(** Characters that may occur in a number literal. *)
Definition isNumChar (c : ascii) : bool :=
  isDigit c || Ascii.eqb c "-" || Ascii.eqb c "+" || Ascii.eqb c "."
  || Ascii.eqb c "e" || Ascii.eqb c "E".

Definition hexVal (c : ascii) : option N :=
  let n := Js.code c in
  if (48 <=? n) && (n <=? 57) then Some (N.of_nat (n - 48))
  else if (97 <=? n) && (n <=? 102) then Some (N.of_nat (n - 87))
  else if (65 <=? n) && (n <=? 70) then Some (N.of_nat (n - 55))
  else None.

Fixpoint skipDigits (s : string) : string :=
  match s with
  | EmptyString => EmptyString
  | String c r => if isDigit c then skipDigits r else s
  end.

(** [int frac? exp?] after an optional minus sign. *)
Definition validNumber (s : string) : bool :=
  let s := match s with
           | String "-" r => r
           | _ => s
           end in
  let afterInt :=
    match s with
    | String "0" r => Some r
    | String c r => if isDigit c then Some (skipDigits r) else None
    | EmptyString => None
    end in
  let afterFrac :=
    match afterInt with
    | Some (String "." (String c r)) =>
        if isDigit c then Some (skipDigits r) else None
    | Some (String "." EmptyString) => None
    | other => other
    end in
  let afterExp :=
    match afterFrac with
    | Some (String c r) =>
        if Ascii.eqb c "e" || Ascii.eqb c "E" then
          let r := match r with
                   | String "+" x => x
                   | String "-" x => x
                   | _ => r
                   end in
          match r with
          | String d x => if isDigit d then Some (skipDigits x) else None
          | EmptyString => None
          end
        else Some (String c r)
    | other => other
    end in
  match afterExp with
  | Some EmptyString => true
  | _ => false
  end.

Definition numberToken (literal : string) : option Token :=
  if validNumber literal then Some (TNumber literal) else None.

Inductive LexState :=
| Idle
| InString (acc : list N)
| InEscape (acc : list N)
| InHex (acc : list N) (digits : list N)
| InNumber (literal : string)
| InLiteral (rest : string) (tok : Token).

Definition unit (c : ascii) : N := N.of_nat (Js.code c).

Definition hexUnit (digits : list N) : N :=
  fold_left (fun a d => (a * 16 + d)%N) digits 0%N.

(** One character met between two tokens. *)
Definition idleStep (c : ascii) : option (list Token * LexState) :=
  if isWs c then Some ([], Idle)
  else if Ascii.eqb c "{" then Some ([TLBrace], Idle)
  else if Ascii.eqb c "}" then Some ([TRBrace], Idle)
  else if Ascii.eqb c "[" then Some ([TLBracket], Idle)
  else if Ascii.eqb c "]" then Some ([TRBracket], Idle)
  else if Ascii.eqb c ":" then Some ([TColon], Idle)
  else if Ascii.eqb c "," then Some ([TComma], Idle)
  else if Ascii.eqb c quote then Some ([], InString [])
  else if Ascii.eqb c "t" then Some ([], InLiteral "rue" TTrue)
  else if Ascii.eqb c "f" then Some ([], InLiteral "alse" TFalse)
  else if Ascii.eqb c "n" then Some ([], InLiteral "ull" TNull)
  else if isDigit c || Ascii.eqb c "-" then Some ([], InNumber (String c EmptyString))
  else None.

Definition step (st : LexState) (c : ascii) : option (list Token * LexState) :=
  match st with
  | Idle => idleStep c
  | InString acc =>
      if Ascii.eqb c quote then Some ([TString (rev acc)], Idle)
      else if Ascii.eqb c "\" then Some ([], InEscape acc)
      else if Js.code c <? 32 then None
      else Some ([], InString (unit c :: acc))
  | InEscape acc =>
      if Ascii.eqb c quote || Ascii.eqb c "\" || Ascii.eqb c "/"
      then Some ([], InString (unit c :: acc))
      else if Ascii.eqb c "b" then Some ([], InString (8%N :: acc))
      else if Ascii.eqb c "f" then Some ([], InString (12%N :: acc))
      else if Ascii.eqb c "n" then Some ([], InString (10%N :: acc))
      else if Ascii.eqb c "r" then Some ([], InString (13%N :: acc))
      else if Ascii.eqb c "t" then Some ([], InString (9%N :: acc))
      else if Ascii.eqb c "u" then Some ([], InHex acc [])
      else None
  | InHex acc digits =>
      match hexVal c with
      | None => None
      | Some d =>
          if List.length digits =? 3
          then Some ([], InString (hexUnit (digits ++ [d]) :: acc))
          else Some ([], InHex acc (digits ++ [d]))
      end
  | InNumber literal =>
      if isNumChar c then Some ([], InNumber (literal ++ String c EmptyString)%string)
      else
        match numberToken literal, idleStep c with
        | Some t, Some (ts, st') => Some (t :: ts, st')
        | _, _ => None
        end
  | InLiteral rest tok =>
      match rest with
      | String e rest' =>
          if Ascii.eqb c e
          then if (rest' =? "")%string then Some ([tok], Idle)
               else Some ([], InLiteral rest' tok)
          else None
      | EmptyString => None
      end
  end.

(** End of the text. *)
Definition finish (st : LexState) : option (list Token) :=
  match st with
  | Idle => Some []
  | InNumber literal =>
      match numberToken literal with
      | Some t => Some [t]
      | None => None
      end
  | _ => None
  end.

Fixpoint scan (st : LexState) (s : string) : option (list Token) :=
  match s with
  | EmptyString => finish st
  | String c r =>
      match step st c with
      | None => None
      | Some (ts, st') =>
          match scan st' r with
          | None => None
          | Some rest => Some (ts ++ rest)
          end
      end
  end.

Definition tokenize (s : string) : option (list Token) := scan Idle s.

Fixpoint noWhiteSpace (s : string) : bool :=
  match s with
  | EmptyString => true
  | String c r => negb (Js.isWhiteSpace c) && noWhiteSpace r
  end.

(** The states the scanner can reach: what is left of a literal name
    holds no white space. *)
Definition reachable (st : LexState) : bool :=
  match st with
  | InLiteral rest _ => noWhiteSpace rest
  | _ => true
  end.

Fixpoint parseValue (fuel : nat) (ts : list Token) : option (Value * list Token) :=
  match fuel with
  | O => None
  | S fuel' =>
      match ts with
      | TNull :: r => Some (JNull, r)
      | TTrue :: r => Some (JBool true, r)
      | TFalse :: r => Some (JBool false, r)
      | TNumber l :: r => Some (JNumber l, r)
      | TString u :: r => Some (JString u, r)
      | TLBracket :: TRBracket :: r => Some (JArray [], r)
      | TLBracket :: r => parseElements fuel' r []
      | TLBrace :: TRBrace :: r => Some (JObject [], r)
      | TLBrace :: r => parseMembers fuel' r []
      | _ => None
      end
  end
with parseElements (fuel : nat) (ts : list Token) (acc : list Value)
    : option (Value * list Token) :=
  match fuel with
  | O => None
  | S fuel' =>
      match parseValue fuel' ts with
      | Some (v, TComma :: r) => parseElements fuel' r (v :: acc)
      | Some (v, TRBracket :: r) => Some (JArray (rev (v :: acc)), r)
      | _ => None
      end
  end
with parseMembers (fuel : nat) (ts : list Token) (acc : list (list N * Value))
    : option (Value * list Token) :=
  match fuel with
  | O => None
  | S fuel' =>
      match ts with
      | TString k :: TColon :: r =>
          match parseValue fuel' r with
          | Some (v, TComma :: r') => parseMembers fuel' r' ((k, v) :: acc)
          | Some (v, TRBrace :: r') => Some (JObject (rev ((k, v) :: acc)), r')
          | _ => None
          end
      | _ => None
      end
  end.

(** [JSON.parse(text)]; [None] is the thrown [SyntaxError]. *)
Definition parse (text : string) : option Value :=
  match tokenize text with
  | None => None
  | Some ts =>
      match parseValue (2 * List.length ts + 2) ts with
      | Some (v, []) => Some v
      | _ => None
      end
  end.

End Json.

(* ================================================================= *)
(** ** AI-response cleanup ([enhanceVocabulary] and the Gemini studio) *)

Module Cleanup.

(** [content.replace(/```json/g, "").replace(/```/g, "").trim()] *)
Definition cleaned (content : string) : string :=
  Js.trim (Js.removeAll "```" (Js.removeAll "```json" content)).

(** The [try] block of [enhanceVocabulary]; [None] stands for the thrown
    ["AI returned invalid JSON"]. *)
Definition parseContent (content : string) : option Json.Value :=
  Json.parse (cleaned content).

(** [result.data] of the Gemini endpoint: a string or a JSON value. *)
Definition decodeData (enhanced : string + Json.Value) : option Json.Value :=
  match enhanced with
  | inl s => Json.parse (cleaned s)
  | inr v => Some v
  end.

Definition newline : string := String (ascii_of_nat 10) EmptyString.

(** A JSON text inside a markdown code block tagged [json]. *)
Definition fenced (t : string) : string :=
  ("```json" ++ newline ++ t ++ newline ++ "```")%string.

(** Whether a run of three backquotes occurs in [s]. *)
Definition hasFence (s : string) : bool := Js.includes s "```".

End Cleanup.

(* ================================================================= *)
(** ** Vocabulary form: the payload built by [handleSubmit] *)

Module VocabularyForm.

(** The form state of the [Vocabulary] page. *)
Record Form := mkForm {
  koreanWord : string;
  banglaMeaning : string;
  romanization : string;
  partOfSpeech : string;
  explanation : string;
  examples : list VocabularyExample;
  selectedThemes : list string;
  chapters : string;
  verbForms : VerbForms
}.

Record Payload := mkPayload {
  p_korean_word : string;
  p_bangla_meaning : string;
  p_romanization : option string;
  p_part_of_speech : option string;
  p_explanation : string;
  p_examples : list VocabularyExample;
  p_themes : option (list string);
  p_chapters : option (list Z);
  p_verb_forms : option VerbForms
}.

Definition digitVal (radix : Z) (c : ascii) : option Z :=
  let n := Js.code c in
  let v := if (48 <=? n) && (n <=? 57) then Some (Z.of_nat (n - 48))
           else if (97 <=? n) && (n <=? 122) then Some (Z.of_nat (n - 87))
           else if (65 <=? n) && (n <=? 90) then Some (Z.of_nat (n - 55))
           else None in
  match v with
  | Some d => if (d <? radix)%Z then Some d else None
  | None => None
  end.

(** The value of the longest prefix of digits; [acc] is [None] until a
    digit has been read. *)
Fixpoint digitsValue (radix : Z) (acc : option Z) (s : string) : option Z :=
  match s with
  | EmptyString => acc
  | String c r =>
      match digitVal radix c with
      | None => acc
      | Some d =>
          digitsValue radix
            (Some (match acc with
                   | Some a => a * radix + d
                   | None => d
                   end)%Z) r
      end
  end.

(** [parseInt(s)] without a radix argument; [None] is [NaN].  The result
    is the exact integer; [-0] is [0]. *)
Definition parseInt (s : string) : option Z :=
  let s := Js.trimStart s in
  let (sign, s) := match s with
                   | String "-" r => ((-1)%Z, r)
                   | String "+" r => (1%Z, r)
                   | _ => (1%Z, s)
                   end in
  let (radix, s) := match s with
                    | String "0" (String "x" r) => (16%Z, r)
                    | String "0" (String "X" r) => (16%Z, r)
                    | _ => (10%Z, s)
                    end in
  match digitsValue radix None s with
  | None => None
  | Some v => Some (sign * v)%Z
  end.

(** The callback of [.map]: [isNaN(parsed) ? null : parsed]. *)
Definition parseChapter (c : string) : option Z :=
  let parsed := parseInt (Js.trim c) in
  match parsed with
  | None => None
  | Some z => Some z
  end.

(** [Boolean(x)] on a number or [null]. *)
Definition truthy (x : option Z) : bool :=
  match x with
  | None => false
  | Some z => negb (z =? 0)%Z
  end.

(** [.filter(Boolean)]; what is kept is a number. *)
Fixpoint filterBoolean (l : list (option Z)) : list Z :=
  match l with
  | [] => []
  | x :: r =>
      if truthy x then
        match x with
        | Some z => z :: filterBoolean r
        | None => filterBoolean r
        end
      else filterBoolean r
  end.

Definition chaptersField (chapters : string) : option (list Z) :=
  if negb (chapters =? "")%string
  then Some (filterBoolean (map parseChapter (Js.split "," chapters)))
  else None.

(** *** The chapters list as the claim words it *)

(** The entries of the comma-separated input that parse as integers. *)
Definition parsedEntries (chapters : string) : list Z :=
  flat_map (fun c => match parseInt (Js.trim c) with
                     | Some z => [z]
                     | None => []
                     end)
           (Js.split "," chapters).

Definition chaptersSpec (chapters : string) : list Z :=
  filter (fun z => negb (z =? 0)%Z) (parsedEntries chapters).

Definition handleSubmit (f : Form) : Payload :=
  mkPayload
    (koreanWord f)
    (banglaMeaning f)
    (if negb (romanization f =? "")%string then Some (romanization f) else None)
    (if negb (partOfSpeech f =? "")%string then Some (partOfSpeech f) else None)
    (explanation f)
    (filter (fun ex => negb (Js.trim (korean ex) =? "")%string) (examples f))
    (if 0 <? List.length (selectedThemes f) then Some (selectedThemes f) else None)
    (chaptersField (chapters f))
    (if (partOfSpeech f =? "verb")%string then Some (verbForms f) else None).

End VocabularyForm.

(* ================================================================= *)
(** ** More JavaScript primitives: numbers as text, [Set] of strings *)

Module JsMore.

(** [s.startsWith(p)] *)
Definition startsWith (s p : string) : bool := prefix p s.

Definition digitChar (d : Z) : ascii := ascii_of_nat (48 + Z.to_nat d).

(** The decimal digits of [n >= 0] written in front of [acc], one digit
    per unit of fuel. *)
Fixpoint digitsOf (fuel : nat) (n : Z) (acc : string) : string :=
  match fuel with
  | O => acc
  | S fuel' =>
      let acc' := String (digitChar (n mod 10)) acc in
      if (n <? 10)%Z then acc' else digitsOf fuel' (n / 10) acc'
  end.

(** A number below [2 ^ fuel] has at most [fuel] decimal digits. *)
Definition digits (n : Z) : string :=
  digitsOf (S (Z.to_nat (Z.log2 n))) n EmptyString.

(** [Number.MAX_SAFE_INTEGER], 2^53 - 1. *)
Definition MAX_SAFE_INTEGER : Z := 9007199254740991.

(** [Number.isSafeInteger(n)] for an integer n: the range in which every
    integer is a number of the runtime, and in which [parseInt] of a
    digit string gives the integer it writes. *)
Definition isSafeInteger (n : Z) : bool :=
  (Z.abs n <=? MAX_SAFE_INTEGER)%Z.

(** [String(n)], also the text [Array.prototype.join] gives a number:
    the decimal digits of n, after a minus sign when n is negative.
    This is the runtime's text for the safe integers ([isSafeInteger]).
    Beyond them the runtime's numbers are doubles: their text is the
    text of the rounded value, and from 10^21 on it is in exponent form
    ([String(1e21)] is ["1e+21"]); that range is not modelled, and what
    is stated about the text read back is stated for safe integers. *)
Definition numberToString (n : Z) : string :=
  if (n <? 0)%Z then String "-" (digits (- n)) else digits n.

(** A [Set<string>] as the list of its elements in insertion order. *)
Definition setHas (S : list string) (x : string) : bool :=
  existsb (String.eqb x) S.

Definition setAdd (x : string) (S : list string) : list string :=
  if setHas S x then S else S ++ [x].

Definition setDelete (x : string) (S : list string) : list string :=
  filter (fun y => negb (y =? x)%string) S.

(** [new Set(iterable)] *)
Definition setFrom (l : list string) : list string :=
  fold_left (fun S x => setAdd x S) l [].

(** Every code unit of [s] is a decimal digit. *)
Fixpoint allDigits (s : string) : bool :=
  match s with
  | EmptyString => true
  | String c r => Json.isDigit c && allDigits r
  end.

(** No white-space code unit occurs in [s]. *)
Fixpoint noWhiteSpace (s : string) : bool :=
  match s with
  | EmptyString => true
  | String c r => negb (Js.isWhiteSpace c) && noWhiteSpace r
  end.

(** No comma occurs in [s]. *)
Fixpoint noComma (s : string) : bool :=
  match s with
  | EmptyString => true
  | String c r => negb (Ascii.eqb c ",") && noComma r
  end.

End JsMore.

(* ================================================================= *)
(** ** [hooks/useVocabularies.ts] *)

Module Hooks.

(** A row of the [vocabulary] table as the store returns it: the primary
    key is a number. *)
Record Row := mkRow {
  row_id : Z;
  row_korean_word : string;
  row_bangla_meaning : string;
  row_romanization : option string;
  row_part_of_speech : option string;
  row_explanation : option string;
  row_examples : option (list VocabularyExample);
  row_themes : option (list string);
  row_chapters : option (list Z);
  row_verb_forms : option VerbForms
}.

(** [{ ...item, id: String(item.id) }] *)
Definition toVocabulary (item : Row) : Vocabulary :=
  mkVocabulary (JsMore.numberToString (row_id item))
    (row_korean_word item) (row_bangla_meaning item) (row_romanization item)
    (row_part_of_speech item) (row_explanation item) (row_examples item)
    (row_themes item) (row_chapters item) (row_verb_forms item).


(** The key [updateVocabulary] filters on: [parseInt(id)]. *)
Definition updateKey (vid : string) : option Z := VocabularyForm.parseInt vid.

End Hooks.

(* ================================================================= *)
(** ** Stores that do not answer as asked *)

Module StoreMore.

(** A store whose answers are cut to [maxRows] rows (the server's row
    limit). *)
Definition cappedRange {A : Type} (maxRows : nat) (table : list A)
    (from to : nat) : Store.Response A :=
  Store.mkResponse (Some (firstn maxRows (Store.rows table from to))) None.

(** An answer without error that holds exactly one page of rows. *)
Definition fullPage {A : Type} (r : Store.Response A) : Prop :=
  Store.error r = None
  /\ exists d, Store.data r = Some d /\ List.length d = Fetch.PAGE_SIZE.

End StoreMore.

(* ================================================================= *)
(** ** Tags of the resource and blog forms *)

Module Tags.

(** [item.tags?.join(', ') || ''] of [handleEdit]. *)
Definition tagsText (tags : option (list string)) : string :=
  match tags with
  | None => EmptyString
  | Some l => Js.orStr (String.concat ", " l) EmptyString
  end.

(** [formData.tags ? formData.tags.split(',').map(t => t.trim()) : null]
    of [handleSubmit]. *)
Definition tagsPayload (tags : string) : option (list string) :=
  if negb (tags =? "")%string
  then Some (map Js.trim (Js.split "," tags))
  else None.

(** A tag that survives the text form: no comma in it, no white space
    around it. *)
Definition plainTag (t : string) : bool :=
  JsMore.noComma t && (Js.trim t =? t)%string.

(** Tags that the text form gives back as they are. *)
Definition normalTags (tags : option (list string)) : bool :=
  match tags with
  | None => true
  | Some l => forallb plainTag l && negb (String.concat ", " l =? "")%string
  end.

End Tags.

(* ================================================================= *)
(** ** Resources page *)

Module Resources.

Record ResourceItem := mkItem {
  id : Z;
  title : string;
  category : option string;
  description : option string;
  tags : option (list string);
  file_path : string;
  thumbnail_path : option string;
  file_size : option Z;
  created_at : string
}.

Record FormData := mkFormData {
  f_title : string;
  f_description : string;
  f_tags : string;
  f_file_path : string;
  f_thumbnail_path : string
}.

Record Payload := mkPayload {
  p_title : string;
  p_category : option string;
  p_description : option string;
  p_tags : option (list string);
  p_file_path : string;
  p_thumbnail_path : option string;
  p_file_size : option Z
}.

(** [s || null] *)
Definition orNull (s : string) : option string :=
  if (s =? "")%string then None else Some s.

(** [o || ''] for a possibly-null string. *)
Definition orEmpty (o : option string) : string :=
  match o with
  | None => EmptyString
  | Some s => Js.orStr s EmptyString
  end.

Definition handleSubmit (formData : FormData) : Payload :=
  mkPayload (f_title formData) None (orNull (f_description formData))
    (Tags.tagsPayload (f_tags formData)) (f_file_path formData)
    (orNull (f_thumbnail_path formData)) None.

Definition handleEdit (item : ResourceItem) : FormData :=
  mkFormData (title item) (orEmpty (description item)) (Tags.tagsText (tags item))
    (file_path item) (orEmpty (thumbnail_path item)).

Definition filteredResources (resources : list ResourceItem) (searchQuery : string)
    : list ResourceItem :=
  filter (fun item =>
            Js.includes (Js.toLowerCase (title item)) (Js.toLowerCase searchQuery)
            || match description item with
               | Some d => Js.includes (Js.toLowerCase d) (Js.toLowerCase searchQuery)
               | None => false
               end)
         resources.

(** An item whose form fields come back as they are: no empty string
    where the form writes null, tags without commas or outer blanks. *)
Definition formNormal (item : ResourceItem) : bool :=
  negb (Js.strictEq (description item) "")
  && negb (Js.strictEq (thumbnail_path item) "")
  && Tags.normalTags (tags item).

Definition storageBase : string :=
  "https://vysfbzcurkswmwgptbfj.supabase.co/storage/v1/object/public/resources/".

Definition getDownloadUrl (path : string) : string :=
  if JsMore.startsWith path "http://" || JsMore.startsWith path "https://"
  then path
  else (storageBase ++ path)%string.

End Resources.

(* ================================================================= *)
(** ** Blogs page: the whole payload and the edit form *)

Module BlogsPage.

Record BlogItem := mkItem {
  id : Z;
  title : string;
  slug : string;
  content : string;
  thumbnail_url : option string;
  category : option string;
  tags : option (list string);
  published_at : string;
  view_count : Z
}.

Record Payload := mkPayload {
  p_title : string;
  p_slug : string;
  p_content : string;
  p_thumbnail_url : option string;
  p_category : option string;
  p_tags : option (list string)
}.

Definition handleSubmit (formData : Blogs.FormData) : Payload :=
  mkPayload (Blogs.title formData) (Blogs.payloadSlug formData)
    (Blogs.content formData)
    (Resources.orNull (Blogs.thumbnail_url formData))
    (Resources.orNull (Blogs.category formData))
    (Tags.tagsPayload (Blogs.tags formData)).

Definition handleEdit (item : BlogItem) : Blogs.FormData :=
  Blogs.mkFormData (title item) (slug item) (content item)
    (Resources.orEmpty (thumbnail_url item))
    (Resources.orEmpty (category item))
    (Tags.tagsText (tags item)).

Definition filteredBlogs (blogs : list BlogItem) (searchQuery : string)
    : list BlogItem :=
  filter (fun item =>
            Js.includes (Js.toLowerCase (title item)) (Js.toLowerCase searchQuery)
            || match category item with
               | Some c => Js.includes (Js.toLowerCase c) (Js.toLowerCase searchQuery)
               | None => false
               end)
         blogs.

Definition formNormal (item : BlogItem) : bool :=
  negb (Js.strictEq (thumbnail_url item) "")
  && negb (Js.strictEq (category item) "")
  && Tags.normalTags (tags item).

End BlogsPage.

(* ================================================================= *)
(** ** Vocabulary page: the edit form and the list search *)

Module VocabularyPage.

Record VocabularyItem := mkItem {
  i_id : Z;
  i_korean_word : string;
  i_bangla_meaning : string;
  i_romanization : option string;
  i_part_of_speech : option string;
  i_explanation : string;
  i_examples : option (list VocabularyExample);
  i_themes : option (list string);
  i_chapters : option (list Z);
  i_verb_forms : option VerbForms
}.

Definition emptyVerbForms : VerbForms := mkVerbForms "" "" "" "".

(** [item.chapters?.join(', ') || ''] *)
Definition chaptersText (chs : option (list Z)) : string :=
  match chs with
  | None => EmptyString
  | Some l => Js.orStr (String.concat ", " (map JsMore.numberToString l)) EmptyString
  end.

Definition handleEdit (item : VocabularyItem) : VocabularyForm.Form :=
  VocabularyForm.mkForm
    (i_korean_word item)
    (i_bangla_meaning item)
    (Resources.orEmpty (i_romanization item))
    (Resources.orEmpty (i_part_of_speech item))
    (i_explanation item)
    (match i_examples item with
     | Some l => l
     | None => []
     end)
    (match i_themes item with
     | Some l => l
     | None => []
     end)
    (chaptersText (i_chapters item))
    (match i_verb_forms item with
     | Some f => f
     | None => emptyVerbForms
     end).

(** The row of [editingItem] once [update(payload).eq('id', ...)] went
    through. *)
Definition updated (item : VocabularyItem) (p : VocabularyForm.Payload)
    : VocabularyItem :=
  mkItem (i_id item)
    (VocabularyForm.p_korean_word p) (VocabularyForm.p_bangla_meaning p)
    (VocabularyForm.p_romanization p) (VocabularyForm.p_part_of_speech p)
    (VocabularyForm.p_explanation p) (Some (VocabularyForm.p_examples p))
    (VocabularyForm.p_themes p) (VocabularyForm.p_chapters p)
    (VocabularyForm.p_verb_forms p).

(** The same row as the studios receive it from [useVocabularies]. *)
Definition asRow (item : VocabularyItem) : Hooks.Row :=
  Hooks.mkRow (i_id item) (i_korean_word item) (i_bangla_meaning item)
    (i_romanization item) (i_part_of_speech item) (Some (i_explanation item))
    (i_examples item) (i_themes item) (i_chapters item) (i_verb_forms item).

Definition filteredVocabulary (vocabulary : list VocabularyItem)
    (searchQuery : string) : list VocabularyItem :=
  filter (fun item =>
            Js.includes (Js.toLowerCase (i_korean_word item)) (Js.toLowerCase searchQuery)
            || Js.includes (Js.toLowerCase (i_bangla_meaning item))
                 (Js.toLowerCase searchQuery)
            || match i_romanization item with
               | Some r => Js.includes (Js.toLowerCase r) (Js.toLowerCase searchQuery)
               | None => false
               end)
         vocabulary.

(** Chapters whose text in the form is their decimal digits. *)
Definition safeChapters (chs : option (list Z)) : bool :=
  match chs with
  | Some l => forallb JsMore.isSafeInteger l
  | None => true
  end.

(** An item that the form can hold as it is: no empty string where the
    form writes null, no blank example, no empty list, no chapter 0,
    chapters that are safe integers, and verb forms exactly for a
    verb. *)
Definition formNormal (item : VocabularyItem) : bool :=
  negb (Js.strictEq (i_romanization item) "")
  && negb (Js.strictEq (i_part_of_speech item) "")
  && match i_examples item with
     | Some l => forallb (fun ex => negb (Js.trim (korean ex) =? "")%string) l
     | None => false
     end
  && match i_themes item with
     | Some [] => false
     | _ => true
     end
  && match i_chapters item with
     | Some [] => false
     | Some l => forallb (fun z => negb (z =? 0)%Z) l
     | None => true
     end
  && safeChapters (i_chapters item)
  && Bool.eqb (Js.strictEq (i_part_of_speech item) "verb")
       (Js.truthyObj (i_verb_forms item)).

End VocabularyPage.

(* ================================================================= *)
(** ** Bulk upload ([BulkVocabularyUpload]) *)

Module BulkUpload.

(** [item.examples]: a string (a CSV cell), an array, or anything else. *)
Inductive ExamplesIn :=
| ExString (s : string)
| ExArray (l : list VocabularyExample)
| ExOther.

Inductive ThemesIn :=
| ThString (s : string)
| ThArray (l : list string)
| ThOther.

Inductive ChaptersIn :=
| ChString (s : string)
| ChArray (l : list Z)
| ChNumber (z : Z)
| ChOther.

(** A parsed CSV line or JSON array element.  A missing or null cell is
    [None]. *)
Record Item := mkItem {
  korean_word : option string;
  bangla_meaning : option string;
  romanization : option string;
  part_of_speech : option string;
  explanation : option string;
  examples : ExamplesIn;
  themes : ThemesIn;
  chapters : ChaptersIn;
  verb_forms : option VerbForms
}.

(** What [examples] ends up holding: the array given, or whatever
    [JSON.parse] made of the cell. *)
Inductive ExamplesOut :=
| Examples (l : list VocabularyExample)
| Parsed (v : Json.Value).

Record Upload := mkUpload {
  u_korean_word : option string;
  u_bangla_meaning : option string;
  u_romanization : option string;
  u_part_of_speech : option string;
  u_explanation : string;
  u_examples : ExamplesOut;
  u_themes : option (list string);
  u_chapters : option (list Z);
  u_verb_forms : option VerbForms
}.

(** [item.korean_word && item.bangla_meaning] *)
Definition hasRequired (kw bm : option string) : bool :=
  Js.truthyStr kw && Js.truthyStr bm.

(** The items shown in the preview: in both branches of the validation
    of [handleJsonPaste] and [handleFileUpload] these are the items with
    both required cells. *)
Definition preview (data : list Item) : list Item :=
  let invalidItems :=
    filter (fun item => negb (Js.truthyStr (korean_word item))
                        || negb (Js.truthyStr (bangla_meaning item))) data in
  if 0 <? List.length invalidItems
  then filter (fun item => hasRequired (korean_word item) (bangla_meaning item)) data
  else data.

(** The [try] block around the examples cell; a parse error leaves the
    empty list. *)
Definition examplesOf (e : ExamplesIn) : ExamplesOut :=
  match e with
  | ExString s =>
      if JsMore.startsWith (Js.trim s) "["
      then match Json.parse s with
           | Some v => Parsed v
           | None => Examples []
           end
      else Examples []
  | ExArray l => Examples l
  | ExOther => Examples []
  end.

(** [.filter(Boolean)] on strings. *)
Definition nonEmpty (l : list string) : list string :=
  filter (fun t => negb (t =? "")%string) l.

Definition themesOf (t : ThemesIn) : option (list string) :=
  match t with
  | ThString s => Some (nonEmpty (map Js.trim (Js.split "," s)))
  | ThArray l => Some l
  | ThOther => None
  end.

(** [.filter(c => !isNaN(c))] *)
Fixpoint notNaN (l : list (option Z)) : list Z :=
  match l with
  | [] => []
  | Some z :: r => z :: notNaN r
  | None :: r => notNaN r
  end.

Definition chaptersOfString (s : string) : list Z :=
  notNaN (map (fun c => VocabularyForm.parseInt (Js.trim c)) (Js.split "," s)).

Definition chaptersOf (c : ChaptersIn) : option (list Z) :=
  match c with
  | ChString s => Some (chaptersOfString s)
  | ChArray l => Some l
  | ChNumber z => Some [z]
  | ChOther => None
  end.

(** [s || null] on a possibly-null string. *)
Definition orNull (o : option string) : option string :=
  if Js.truthyStr o then o else None.

Definition processItem (item : Item) : Upload :=
  mkUpload (korean_word item) (bangla_meaning item)
    (orNull (romanization item)) (orNull (part_of_speech item))
    (Resources.orEmpty (explanation item))
    (examplesOf (examples item)) (themesOf (themes item))
    (chaptersOf (chapters item)) (verb_forms item).

Definition processDataForUpload (data : list Item) : list Upload :=
  filter (fun u => hasRequired (u_korean_word u) (u_bangla_meaning u))
         (map processItem data).

Inductive UploadResult :=
| Nothing
| NoValidData
| Inserted (rows : list Upload).

(** [handleUpload] up to the insert. *)
Definition handleUpload (previewData : list Item) : UploadResult :=
  if List.length previewData =? 0 then Nothing
  else
    let formattedData := processDataForUpload previewData in
    if List.length formattedData =? 0 then NoValidData
    else Inserted formattedData.

End BulkUpload.

(* ================================================================= *)
(** ** Selection of records and of fields in the studios *)

Module Selection.

Definition toggleSelection (vid : string) (selectedVocabs : list string) : list string :=
  let newSelection := selectedVocabs in
  if JsMore.setHas newSelection vid
  then JsMore.setDelete vid newSelection
  else JsMore.setAdd vid newSelection.

(** [new Set(filtered.map(v => v.id))] *)
Definition selectAll (filtered : list Vocabulary) : list string :=
  JsMore.setFrom (map id filtered).

(** The initial [selectedFields]. *)
Definition initialFields : list string := ["all"].

(** The handler of the "all" check box. *)
Definition toggleAll (checked : bool) : list string :=
  if checked then ["all"] else [].

(** The handler of the check box of one field. *)
Definition toggleField (fieldId : string) (checked : bool)
    (selectedFields : list string) : list string :=
  let newFields := JsMore.setDelete "all" selectedFields in
  if checked then JsMore.setAdd fieldId newFields
  else JsMore.setDelete fieldId newFields.

(** [selectedFields.has("all") ? undefined : Array.from(selectedFields)] *)
Definition fieldsToEnhance (selectedFields : list string) : option (list string) :=
  if JsMore.setHas selectedFields "all" then None else Some selectedFields.

(** The field check boxes of the OpenAI studio. *)
Definition openAiFields : list string :=
  ["explanation"; "examples"; "verb_forms"; "romanization"; "part_of_speech";
   "themes"; "chapters"].

(** The states of [selectedFields] that clicks can produce. *)
Inductive reachable (fields : list string) : list string -> Prop :=
| reach_initial : reachable fields initialFields
| reach_all (checked : bool) (s : list string) :
    reachable fields s -> reachable fields (toggleAll checked)
| reach_field (f : string) (checked : bool) (s : list string) :
    In f fields -> reachable fields s -> reachable fields (toggleField f checked s).

End Selection.

(* ================================================================= *)
(** ** Card grid of the resource and blog lists *)

Module Grid.

(** [updateColumns] on [window.innerWidth]. *)
Definition columnsFor (width : nat) : nat :=
  if 1024 <=? width then 3
  else if 768 <=? width then 2
  else 1.

(** [Math.ceil(length / columns)]; exact for the lengths an array can
    have. *)
Definition rowCount (length columns : nat) : nat :=
  (length + columns - 1) / columns.

(** The cards of one row: cell [colIndex] shows the item of index
    [rowIndex * columns + colIndex] and stays empty past the end. *)
Definition rowItems {A : Type} (filtered : list A) (columns rowIndex : nat) : list A :=
  flat_map (fun colIndex =>
              match nth_error filtered (rowIndex * columns + colIndex) with
              | Some item => [item]
              | None => []
              end)
           (seq 0 columns).

(** All rows, top to bottom. *)
Definition allRows {A : Type} (filtered : list A) (columns : nat) : list (list A) :=
  map (rowItems filtered columns) (seq 0 (rowCount (List.length filtered) columns)).

End Grid.

(* ================================================================= *)
(** ** More of the batch and of the cleanup *)

Module BatchMore.

Definition isUpdate (e : Batch.Event) : bool :=
  match e with
  | Batch.EvUpdate _ _ => true
  | _ => false
  end.

(** The store updates a run is expected to make: one per record whose
    enrichment returned, in input order. *)
Fixpoint updateEvents {Enhanced : Type} (w : Batch.World Enhanced) (i : nat)
    (rest : list Vocabulary) : list Batch.Event :=
  match rest with
  | [] => []
  | vocab :: rest' =>
      match Batch.enhance Enhanced w i vocab with
      | inl _ => updateEvents w (i + 1) rest'
      | inr _ => Batch.EvUpdate i (id vocab) :: updateEvents w (i + 1) rest'
      end
  end.

(** What round [i] throws, if anything: the enrichment error, else the
    store's update error. *)
Definition thrownAt {Enhanced : Type} (w : Batch.World Enhanced) (i : nat)
    (vocab : Vocabulary) : option Batch.Thrown :=
  match Batch.enhance Enhanced w i vocab with
  | inl e => Some e
  | inr enhanced => Batch.update Enhanced w i (id vocab) enhanced
  end.

Definition finished (st : Batch.Status) : bool :=
  match st with
  | Batch.success | Batch.error => true
  | _ => false
  end.

End BatchMore.

Module SlugMore.

(** An ASCII letter or digit. *)
Definition isAsciiAlnum (c : ascii) : bool :=
  let n := Js.code c in
  ((65 <=? n) && (n <=? 90)) || ((97 <=? n) && (n <=? 122))
  || ((48 <=? n) && (n <=? 57)).

Fixpoint hasAsciiAlnum (s : string) : bool :=
  match s with
  | EmptyString => false
  | String c r => isAsciiAlnum c || hasAsciiAlnum r
  end.

(** Every character is of [[a-z0-9]] or a hyphen. *)
Fixpoint slugAlphabet (s : string) : bool :=
  match s with
  | EmptyString => true
  | String c r => (Blogs.isSlugChar c || Ascii.eqb c "-") && slugAlphabet r
  end.

End SlugMore.

Module CleanupMore.

(** A JSON text inside a code block without a language tag. *)
Definition fencedPlain (t : string) : string :=
  ("```" ++ Cleanup.newline ++ t ++ Cleanup.newline ++ "```")%string.

End CleanupMore.


(* ================================================================= *)
(** ** Sample records used by the concrete evaluations below *)

Module Samples.

Definition longExplanation : string :=
  "This verb means to go somewhere and is used in daily speech.".

Definition oneExample : list VocabularyExample :=
  [mkExample "hakgyoe gada" "school e jawa"].

(** A verb without verb forms; every other field is filled. *)
Definition verbWithoutForms : Vocabulary :=
  mkVocabulary "17" "gada" "jawa" (Some "gada") (Some "verb")
    (Some longExplanation) (Some oneExample) (Some ["daily"]) (Some [1%Z]) None.

(** A noun with every field filled. *)
Definition completeNoun : Vocabulary :=
  mkVocabulary "16" "saram" "manush" (Some "saram") (Some "noun")
    (Some longExplanation) (Some oneExample) (Some ["people"]) (Some [3%Z]) None.

(** A noun whose only gap is the romanization. *)
Definition nounWithoutRomanization : Vocabulary :=
  mkVocabulary "18" "hakgyo" "school" None (Some "noun")
    (Some longExplanation) (Some oneExample) (Some ["daily"]) (Some [1%Z]) None.

(** A noun whose only gap is the list of examples. *)
Definition nounWithoutExamples : Vocabulary :=
  mkVocabulary "19" "mul" "pani" (Some "mul") (Some "noun")
    (Some longExplanation) (Some []) (Some ["food"]) (Some [2%Z]) None.

(** A noun with nothing but the two required words. *)
Definition bareNoun : Vocabulary :=
  mkVocabulary "20" "bap" "bhat" None (Some "noun") None None None None None.

Definition someForms : VerbForms := mkVerbForms "ganda" "gatda" "gal geosida" "gayo".

(** An answer of the enrichment model, and a JSON string whose content
    holds three backquotes in a row. *)
Definition q : string := String Json.quote EmptyString.

Definition enhancedJson : string :=
  ("{" ++ q ++ "romanization" ++ q ++ ": " ++ q ++ "gada" ++ q ++ ", "
   ++ q ++ "themes" ++ q ++ ": [" ++ q ++ "daily" ++ q ++ ", " ++ q ++ "travel" ++ q ++ "], "
   ++ q ++ "chapters" ++ q ++ ": [1, 5]}")%string.

Definition backquotesInside : string := (q ++ "a```b" ++ q)%string.

(** Three selected records and a world in which the enrichment call of
    the second one (loop index 1) throws and every other call returns. *)
Definition threeSelected : list Vocabulary :=
  [verbWithoutForms; nounWithoutExamples; bareNoun].

Definition secondFails : Batch.World unit :=
  Batch.mkWorld unit
    (fun i _ => if i =? 1 then inl (Batch.ErrorObject "AI Enhancement failed")
                else inr tt)
    (fun _ _ _ => None).

Definition noneFails : Batch.World unit :=
  Batch.mkWorld unit (fun _ _ => inr tt) (fun _ _ _ => None).

(** The same row twice, as a fetch by offsets can deliver it when the
    table changes between two pages. *)
Definition sameRowTwice : list Vocabulary :=
  [verbWithoutForms; verbWithoutForms].

End Samples.

(* ================================================================= *)
(** ** More sample values *)

Module MoreSamples.


Definition verbItem : VocabularyPage.VocabularyItem :=
  VocabularyPage.mkItem 31 "gada" "jawa" (Some "gada") (Some "verb")
    "to go" (Some [mkExample "jibe gayo" "bari jai"]) (Some ["daily_life"])
    (Some [1; 12]%Z) (Some Samples.someForms).

Definition verbItemWithoutForms : VocabularyPage.VocabularyItem :=
  VocabularyPage.mkItem 32 "oda" "asa" (Some "oda") (Some "verb")
    "to come" (Some [mkExample "jibe wayo" "bari asi"]) (Some ["daily_life"])
    (Some [2]%Z) None.

Definition resourceItem : Resources.ResourceItem :=
  Resources.mkItem 4 "EPS Topik book" (Some "books") (Some "Self study")
    (Some ["eps"; "topik"]) "books/eps.pdf" None (Some 2048%Z) "2024-01-01".

Definition blogItem : BlogsPage.BlogItem :=
  BlogsPage.mkItem 9 "Korean Particles" "korean-particles" "# Particles"
    None (Some "grammar") (Some ["grammar"; "beginner"]) "2024-02-02" 17.

(** A store that answers every query with the same full page. *)
Definition fullPageStore (from to : nat) : Store.Response nat :=
  Store.mkResponse (Some (repeat 0 Fetch.PAGE_SIZE)) None.

(** A store that answers the first two pages in full and rejects the
    third query. *)
Definition thirdQueryFails (from to : nat) : Store.Response nat :=
  if from =? 2 * Fetch.PAGE_SIZE
  then Store.mkResponse None (Some "JWT expired")
  else Store.mkResponse (Some (repeat from Fetch.PAGE_SIZE)) None.

(** The record list Samples.threeSelected with distinct ids. *)
Definition fourVocabularies : list Vocabulary :=
  [Samples.completeNoun; Samples.verbWithoutForms; Samples.nounWithoutExamples;
   Samples.bareNoun].

End MoreSamples.

(* ================================================================= *)
(** * Properties *)

(** ** Field-completeness classifier *)

Section Classifier.

Lemma nullOrShort_rule (o : option string) :
  nullOrShort o = match o with
                  | None => true
                  | Some s => String.length s <? 50
                  end.
Proof.
  destruct o as [s|]; [|reflexivity].
  destruct s; reflexivity.
Qed.

Lemma nullOrEmpty_rule {A : Type} (o : option (list A)) :
  nullOrEmpty o = match o with
                  | None | Some [] => true
                  | Some (_ :: _) => false
                  end.
Proof.
  destruct o as [[|x l]|]; reflexivity.
Qed.

Lemma not_truthyStr_rule (o : option string) :
  negb (Js.truthyStr o) = match o with
                          | None | Some EmptyString => true
                          | Some (String _ _) => false
                          end.
Proof.
  destruct o as [[|c s]|]; reflexivity.
Qed.

Lemma verb_rule (v : Vocabulary) :
  Js.strictEq (part_of_speech v) "verb" && negb (Js.truthyObj (verb_forms v))
  = FieldRules.verb_forms_missing v.
Proof.
  unfold FieldRules.verb_forms_missing, Js.strictEq, Js.truthyObj.
  destruct (part_of_speech v) as [p|], (verb_forms v); cbn [negb andb];
    try reflexivity; try apply andb_true_r; apply andb_false_r.
Qed.

Lemma openai_hasMissingFields_rule (v : Vocabulary) :
  OpenAiStudio.hasMissingFields v
  = FieldRules.verb_forms_missing v
    || FieldRules.examples_missing v
    || FieldRules.explanation_missing v.
Proof.
  unfold OpenAiStudio.hasMissingFields, OpenAiStudio.missing.
  rewrite verb_rule, nullOrShort_rule, nullOrEmpty_rule.
  unfold FieldRules.examples_missing, FieldRules.explanation_missing.
  destruct (FieldRules.verb_forms_missing v);
    destruct (explanation v) as [s|];
    try destruct (String.length s <? 50);
    destruct (examples v) as [[|x l]|]; reflexivity.
Qed.

Lemma dashboard_isIncomplete_rule (v : Vocabulary) :
  Dashboard.isIncomplete v
  = FieldRules.verb_forms_missing v
    || FieldRules.examples_missing v
    || FieldRules.explanation_missing v.
Proof.
  unfold Dashboard.isIncomplete.
  rewrite verb_rule, nullOrShort_rule.
  unfold FieldRules.examples_missing, FieldRules.explanation_missing.
  destruct (FieldRules.verb_forms_missing v);
    destruct (explanation v) as [s|];
    try destruct (String.length s <? 50);
    destruct (examples v) as [[|x l]|]; reflexivity.
Qed.

Lemma gemini_hasMissingFields_rule (v : Vocabulary) :
  GeminiStudio.hasMissingFields v
  = FieldRules.verb_forms_missing v
    || FieldRules.examples_missing v
    || FieldRules.explanation_missing v
    || FieldRules.romanization_missing v
    || FieldRules.part_of_speech_missing v
    || FieldRules.themes_missing v.
Proof.
  unfold GeminiStudio.hasMissingFields.
  assert (Hv : (if Js.strictEq (part_of_speech v) "verb"
                then negb (Js.truthyObj (verb_forms v)) else false)
               = FieldRules.verb_forms_missing v).
  { rewrite <- verb_rule. destruct (Js.strictEq (part_of_speech v) "verb"); reflexivity. }
  rewrite Hv. rewrite !nullOrEmpty_rule, !not_truthyStr_rule.
  unfold FieldRules.examples_missing, FieldRules.explanation_missing,
    FieldRules.romanization_missing, FieldRules.part_of_speech_missing,
    FieldRules.themes_missing.
  assert (He : (match explanation v with
                | None | Some EmptyString => true
                | Some (String _ _) => false
                end
                || Js.truthyStr (explanation v)
                   && match explanation v with
                      | Some s => String.length s <? 50
                      | None => false
                      end)
               = match explanation v with
                 | None => true
                 | Some s => String.length s <? 50
                 end).
  { destruct (explanation v) as [[|c s]|]; reflexivity. }
  rewrite He. reflexivity.
Qed.

Lemma verb_forms_missing_ext (v v' : Vocabulary) :
  Js.strictEq (part_of_speech v') "verb" = Js.strictEq (part_of_speech v) "verb" ->
  verb_forms v' = verb_forms v ->
  FieldRules.verb_forms_missing v' = FieldRules.verb_forms_missing v.
Proof.
  intros Hp Hf. rewrite <- !verb_rule. rewrite Hp, Hf. reflexivity.
Qed.

Lemma openai_missingAllFields_rule (v : Vocabulary) :
  OpenAiStudio.missingAllFields v
  = (if Js.strictEq (part_of_speech v) "verb"
     then FieldRules.verb_forms_missing v else true)
    && FieldRules.examples_missing v
    && FieldRules.explanation_missing v
    && FieldRules.romanization_missing v
    && FieldRules.themes_missing v.
Proof.
  unfold OpenAiStudio.missingAllFields.
  rewrite <- verb_rule, !nullOrEmpty_rule, nullOrShort_rule, not_truthyStr_rule.
  destruct (Js.strictEq (part_of_speech v) "verb"); reflexivity.
Qed.

(** In the OpenAI studio the ["missing-all-fields"] mode is the
    conjunction, and whatever it selects the default filter selects. *)
Lemma openai_missingAllFields_stronger (v : Vocabulary) :
  OpenAiStudio.typeFilter OpenAiStudio.missing_all_fields v = true ->
  OpenAiStudio.typeFilter OpenAiStudio.all v = true.
Proof.
  cbn [OpenAiStudio.typeFilter].
  rewrite openai_missingAllFields_rule, openai_hasMissingFields_rule.
  intros H. repeat (apply andb_true_iff in H; destruct H as [H ?]).
  destruct (FieldRules.verb_forms_missing v); cbn; [reflexivity|].
  rewrite orb_true_iff. left. assumption.
Qed.

(** The default filter selects records the conjunction rejects. *)
Lemma openai_missingAllFields_strictly_stronger :
  OpenAiStudio.typeFilter OpenAiStudio.all Samples.nounWithoutExamples = true
  /\ OpenAiStudio.typeFilter OpenAiStudio.missing_all_fields Samples.nounWithoutExamples = false
  /\ OpenAiStudio.typeFilter OpenAiStudio.missing_all_fields Samples.bareNoun = true.
Proof. repeat split; vm_compute; reflexivity. Qed.

(** With an empty search box and every part of speech shown, the list
    is filtered by the mode's predicate alone. *)
Lemma openai_filterVocabularies_plain (l : list Vocabulary) (ft : OpenAiStudio.FilterType) :
  OpenAiStudio.filterVocabularies l "" "all" ft = filter (OpenAiStudio.typeFilter ft) l.
Proof. reflexivity. Qed.

Lemma gemini_filterVocabularies_plain (l : list Vocabulary) (ft : GeminiStudio.FilterType) :
  GeminiStudio.filterVocabularies l "" "all" ft = filter (GeminiStudio.typeFilter ft) l.
Proof. reflexivity. Qed.

End Classifier.

(** C1 (as amended).  In the OpenAI studio and on the dashboard the default
    incompleteness predicate flags a record exactly when verb_forms (for a
    verb), examples or explanation is missing; the Gemini studio's default
    predicate flags it exactly when one of those or romanization,
    part_of_speech or themes is missing.  The OpenAI and dashboard value
    does not change when romanization and themes are changed at will and
    part_of_speech is changed to a value that agrees with the old one on
    being "verb". *)
Theorem default_incompleteness_predicate
    (v : Vocabulary) (r p : option string) (t : option (list string)) :
  Js.strictEq p "verb" = Js.strictEq (part_of_speech v) "verb" ->
  let missing3 := FieldRules.verb_forms_missing v
                  || FieldRules.examples_missing v
                  || FieldRules.explanation_missing v in
  let v' := with_part_of_speech p (with_romanization r (with_themes t v)) in
  OpenAiStudio.typeFilter OpenAiStudio.all v = missing3
  /\ Dashboard.isIncomplete v = missing3
  /\ GeminiStudio.typeFilter GeminiStudio.all v
     = missing3
       || FieldRules.romanization_missing v
       || FieldRules.part_of_speech_missing v
       || FieldRules.themes_missing v
  /\ OpenAiStudio.typeFilter OpenAiStudio.all v' = OpenAiStudio.typeFilter OpenAiStudio.all v
  /\ Dashboard.isIncomplete v' = Dashboard.isIncomplete v.
Proof.
  intros Hp missing3 v'. cbn [OpenAiStudio.typeFilter GeminiStudio.typeFilter].
  assert (Hv : FieldRules.verb_forms_missing v' = FieldRules.verb_forms_missing v).
  { apply verb_forms_missing_ext; [exact Hp | reflexivity]. }
  repeat split.
  - apply openai_hasMissingFields_rule.
  - apply dashboard_isIncomplete_rule.
  - apply gemini_hasMissingFields_rule.
  - rewrite !openai_hasMissingFields_rule, Hv. reflexivity.
  - rewrite !dashboard_isIncomplete_rule, Hv. reflexivity.
Qed.

Lemma default_incompleteness_predicate_witness :
  OpenAiStudio.typeFilter OpenAiStudio.all
    (with_part_of_speech (Some "adverb")
       (with_romanization None (with_themes None Samples.nounWithoutExamples)))
  = OpenAiStudio.typeFilter OpenAiStudio.all Samples.nounWithoutExamples.
Proof.
  apply (default_incompleteness_predicate Samples.nounWithoutExamples
           None (Some "adverb") None).
  reflexivity.
Defined.

(** C1 as stated fails: the OpenAI studio's default predicate changes when
    only part_of_speech changes (a verb without verb forms stops being
    flagged once it is called a noun), and the Gemini studio's default
    predicate changes when only the romanization is taken away. *)
Lemma default_predicate_not_independent :
  OpenAiStudio.typeFilter OpenAiStudio.all
    (with_part_of_speech (Some "noun") Samples.verbWithoutForms)
  <> OpenAiStudio.typeFilter OpenAiStudio.all Samples.verbWithoutForms
  /\ Dashboard.isIncomplete (with_part_of_speech (Some "noun") Samples.verbWithoutForms)
     <> Dashboard.isIncomplete Samples.verbWithoutForms
  /\ GeminiStudio.typeFilter GeminiStudio.all
       (with_romanization None Samples.completeNoun)
     <> GeminiStudio.typeFilter GeminiStudio.all Samples.completeNoun
  /\ GeminiStudio.typeFilter GeminiStudio.all Samples.nounWithoutRomanization = true
  /\ FieldRules.verb_forms_missing Samples.nounWithoutRomanization
     || FieldRules.examples_missing Samples.nounWithoutRomanization
     || FieldRules.explanation_missing Samples.nounWithoutRomanization = false.
Proof.
  repeat split; vm_compute; congruence.
Qed.

(** C2 (divergence in the Gemini studio).  On a noun that lacks only its
    examples, the Gemini studio's "missing-all-fields" mode selects the
    record although romanization, explanation and themes are present: the
    mode applies the same disjunction as the default filter.  The OpenAI
    studio's mode rejects the same record. *)
Theorem gemini_missing_all_fields_selects_partly_filled :
  GeminiStudio.filterVocabularies [Samples.nounWithoutExamples] "" "all"
    GeminiStudio.missing_all_fields = [Samples.nounWithoutExamples]
  /\ OpenAiStudio.filterVocabularies [Samples.nounWithoutExamples] "" "all"
       OpenAiStudio.missing_all_fields = []
  /\ FieldRules.romanization_missing Samples.nounWithoutExamples = false
  /\ FieldRules.explanation_missing Samples.nounWithoutExamples = false
  /\ FieldRules.themes_missing Samples.nounWithoutExamples = false
  /\ (forall v, GeminiStudio.typeFilter GeminiStudio.missing_all_fields v
                = GeminiStudio.typeFilter GeminiStudio.all v).
Proof.
  repeat split.
Qed.

(** C8.  For a record whose part_of_speech is not "verb", the verb_forms
    flag is never raised (rule, badge of either studio, "missing-verb"
    filter, OpenAI [missing] list), and putting any value, absent or
    present, in verb_forms leaves the default predicate of either studio
    and the dashboard predicate unchanged; over a table of such rows the
    dashboard count is unchanged as well. *)
Theorem verb_forms_ignored_for_non_verbs
    (v : Vocabulary) (f : option VerbForms) (rows : list Vocabulary) :
  part_of_speech v <> Some "verb" ->
  Forall (fun r => part_of_speech r <> Some "verb") rows ->
  let v' := with_verb_forms f v in
  FieldRules.verb_forms_missing v' = false
  /\ OpenAiStudio.verbBadge v' = false
  /\ GeminiStudio.verbBadge v' = false
  /\ OpenAiStudio.typeFilter OpenAiStudio.missing_verb v' = false
  /\ GeminiStudio.typeFilter GeminiStudio.missing_verb v' = false
  /\ ~ In "verb_forms" (OpenAiStudio.missing v')
  /\ OpenAiStudio.hasMissingFields v' = OpenAiStudio.hasMissingFields v
  /\ OpenAiStudio.missingCount v' = OpenAiStudio.missingCount v
  /\ GeminiStudio.hasMissingFields v' = GeminiStudio.hasMissingFields v
  /\ Dashboard.isIncomplete v' = Dashboard.isIncomplete v
  /\ Dashboard.incompleteCount (map (with_verb_forms f) rows)
     = Dashboard.incompleteCount rows.
Proof.
  intros Hpos Hrows v'. subst v'. set (v' := with_verb_forms f v).
  assert (Hne : forall u, part_of_speech u <> Some "verb" ->
                          Js.strictEq (part_of_speech u) "verb" = false).
  { intros u Hu. unfold Js.strictEq. destruct (part_of_speech u) as [p|]; [|reflexivity].
    destruct (String.eqb_spec p "verb") as [->|]; [contradiction|reflexivity]. }
  assert (Hvm : forall u g, part_of_speech u <> Some "verb" ->
                            FieldRules.verb_forms_missing (with_verb_forms g u) = false).
  { intros u g Hu. rewrite <- verb_rule. cbn [with_verb_forms part_of_speech].
    rewrite (Hne u Hu). reflexivity. }
  assert (Hvm0 : forall u, part_of_speech u <> Some "verb" ->
                           FieldRules.verb_forms_missing u = false).
  { intros u Hu. rewrite <- verb_rule, (Hne u Hu). reflexivity. }
  assert (Hbadge : Js.strictEq (part_of_speech v') "verb"
                   && negb (Js.truthyObj (verb_forms v')) = false).
  { rewrite verb_rule. apply Hvm, Hpos. }
  assert (Hdash : forall u, part_of_speech u <> Some "verb" ->
                            Dashboard.isIncomplete (with_verb_forms f u)
                            = Dashboard.isIncomplete u).
  { intros u Hu. rewrite !dashboard_isIncomplete_rule, (Hvm u f Hu), (Hvm0 u Hu).
    reflexivity. }
  repeat split; fold v'.
  - apply Hvm, Hpos.
  - exact Hbadge.
  - exact Hbadge.
  - exact Hbadge.
  - exact Hbadge.
  - unfold OpenAiStudio.missing. rewrite Hbadge.
    destruct (nullOrShort (explanation v')), (nullOrEmpty (examples v'));
      cbn; intros H; repeat (destruct H as [H|H]; [discriminate H|]); exact H.
  - subst v'. rewrite !openai_hasMissingFields_rule, (Hvm v f Hpos), (Hvm0 v Hpos).
    reflexivity.
  - unfold OpenAiStudio.missingCount. rewrite Hbadge. subst v'.
    cbn [with_verb_forms part_of_speech verb_forms examples explanation].
    rewrite (Hne v Hpos). reflexivity.
  - subst v'. rewrite !gemini_hasMissingFields_rule, (Hvm v f Hpos), (Hvm0 v Hpos).
    reflexivity.
  - apply Hdash, Hpos.
  - unfold Dashboard.incompleteCount.
    induction Hrows as [|u us Hu Hus IH]; [reflexivity|].
    cbn [map filter]. rewrite (Hdash u Hu).
    destruct (Dashboard.isIncomplete u); cbn [List.length]; rewrite IH; reflexivity.
Qed.

Lemma verb_forms_ignored_for_non_verbs_witness :
  OpenAiStudio.hasMissingFields (with_verb_forms None Samples.completeNoun)
  = OpenAiStudio.hasMissingFields Samples.completeNoun.
Proof.
  apply (verb_forms_ignored_for_non_verbs Samples.completeNoun None
           [Samples.bareNoun; Samples.nounWithoutExamples]).
  - discriminate.
  - repeat constructor; discriminate.
Defined.

(* ================================================================= *)
(** ** Paginated full-table fetch *)

Section Pagination.

Context {A : Type}.
Variable table : list A.

Lemma page_size_positive : 0 < Fetch.PAGE_SIZE.
Proof. unfold Fetch.PAGE_SIZE. lia. Qed.

(** The page asked for in the round that starts at [from]. *)
Lemma rows_page (from : nat) :
  Store.rows table from (from + Fetch.PAGE_SIZE - 1)
  = firstn Fetch.PAGE_SIZE (skipn from table).
Proof.
  unfold Store.rows. pose proof page_size_positive.
  replace (from + Fetch.PAGE_SIZE - 1 + 1 - from) with Fetch.PAGE_SIZE by lia.
  reflexivity.
Qed.

(** Loop invariant: entering a round at offset [from] with the rows
    before [from] accumulated, the loop ends with the whole table. *)
Lemma fetchLoop_static (fuel : nat) :
  forall (acc : list A) (from : nat),
    (List.length table - from) / Fetch.PAGE_SIZE < fuel ->
    Fetch.fetchLoop fuel (Store.range table) acc from (from + Fetch.PAGE_SIZE - 1)
    = Some (Fetch.Loaded (acc ++ skipn from table)).
Proof.
  pose proof page_size_positive as HP.
  induction fuel as [|fuel IH]; intros acc from Hfuel; [lia|].
  cbn [Fetch.fetchLoop Store.range Store.error Store.data].
  rewrite rows_page.
  set (rest := skipn from table).
  assert (Hrest : List.length rest = List.length table - from)
    by (subst rest; apply length_skipn).
  assert (Hlen : List.length (firstn Fetch.PAGE_SIZE rest)
                 = Nat.min Fetch.PAGE_SIZE (List.length rest))
    by apply length_firstn.
  destruct (Nat.eqb_spec (List.length (firstn Fetch.PAGE_SIZE rest)) 0) as [H0|H0].
  - assert (Hnil : rest = []) by (apply length_zero_iff_nil; lia).
    rewrite Hnil, app_nil_r. reflexivity.
  - destruct (Nat.ltb_spec (List.length (firstn Fetch.PAGE_SIZE rest)) Fetch.PAGE_SIZE)
      as [Hlt|Hge].
    + rewrite firstn_all2 by lia. reflexivity.
    + replace (from + Fetch.PAGE_SIZE - 1 + Fetch.PAGE_SIZE)
        with (from + Fetch.PAGE_SIZE + Fetch.PAGE_SIZE - 1) by lia.
      rewrite IH.
      * rewrite <- app_assoc. do 3 f_equal.
        subst rest. rewrite Nat.add_comm, <- skipn_skipn.
        apply firstn_skipn.
      * replace (List.length table - from)
          with (List.length table - (from + Fetch.PAGE_SIZE) + 1 * Fetch.PAGE_SIZE)
          in Hfuel by lia.
        rewrite Nat.div_add in Hfuel by lia. lia.
Qed.

End Pagination.

(** C4.  Against a table of N records that stays as it is and rejects no
    query, the paginated fetch, given fuel for more than N / 1000 rounds,
    stops and returns the table itself, hence exactly N records. *)
Theorem paginated_fetch_returns_all_records
    (A : Type) (table : list A) (fuel : nat) :
  List.length table / Fetch.PAGE_SIZE < fuel ->
  exists allData,
    Fetch.fetchAll fuel (Store.range table) = Some (Fetch.Loaded allData)
    /\ allData = table
    /\ List.length allData = List.length table.
Proof.
  intros Hfuel. exists table. split; [|split; reflexivity].
  unfold Fetch.fetchAll.
  replace (Fetch.PAGE_SIZE - 1) with (0 + Fetch.PAGE_SIZE - 1) by lia.
  rewrite fetchLoop_static by (rewrite Nat.sub_0_r; exact Hfuel).
  reflexivity.
Qed.

Lemma paginated_fetch_returns_all_records_witness :
  exists allData,
    Fetch.fetchAll 3 (Store.range (seq 0 2500)) = Some (Fetch.Loaded allData)
    /\ allData = seq 0 2500
    /\ List.length allData = List.length (seq 0 2500).
Proof.
  apply (paginated_fetch_returns_all_records nat (seq 0 2500) 3).
  vm_compute. lia.
Defined.

(** The five table sizes named by the specification: four rounds of fuel
    are enough for each of them. *)
Lemma paginated_fetch_named_sizes (A : Type) (table : list A) :
  In (List.length table) [0; 999; 1000; 1001; 2500] ->
  Fetch.fetchAll 4 (Store.range table) = Some (Fetch.Loaded table).
Proof.
  intros Hin. unfold Fetch.fetchAll.
  replace (Fetch.PAGE_SIZE - 1) with (0 + Fetch.PAGE_SIZE - 1) by lia.
  rewrite (fetchLoop_static table 4 [] 0); [reflexivity|].
  rewrite Nat.sub_0_r. unfold Fetch.PAGE_SIZE.
  cbn [In] in Hin.
  repeat (destruct Hin as [<-|Hin]; [vm_compute; lia|]).
  contradiction.
Qed.

(* ================================================================= *)
(** ** Enhancement batch *)

Section BatchRun.

Variable Enhanced : Type.
Variable s : Batch.Studio.
Variable w : Batch.World Enhanced.

Abbreviation Result := (Batch.EnhancementResult Enhanced).
Abbreviation r_id := (Batch.r_id Enhanced).
Abbreviation r_status := (Batch.r_status Enhanced).
Abbreviation mapById := (Batch.mapById Enhanced).
Abbreviation initialResult := (Batch.initialResult Enhanced).
Abbreviation finalResult := (Batch.finalResult Enhanced s w).
Abbreviation finalResults := (Batch.finalResults Enhanced s w).
Abbreviation failingIndices := (Batch.failingIndices Enhanced w).
Abbreviation fails := (Batch.fails Enhanced w).
Abbreviation round := (Batch.round Enhanced s w).
Abbreviation loop := (Batch.loop Enhanced s w).
Abbreviation runBatch := (Batch.runBatch Enhanced s w).
Abbreviation eventsFrom := (Batch.eventsFrom Enhanced s w).
Abbreviation roundEvents := (Batch.roundEvents Enhanced s w).
Abbreviation enhanceEvents := Batch.enhanceEvents.
Abbreviation isDelay := Batch.isDelay.
Abbreviation isEnhance := Batch.isEnhance.
Abbreviation results := (Batch.results Enhanced).
Abbreviation successCount := (Batch.successCount Enhanced).
Abbreviation errorCount := (Batch.errorCount Enhanced).
Abbreviation log := (Batch.log Enhanced).

(** *** Updates by id touch the entry of that id only *)

Lemma mapById_notin (vid : string) (f : Result -> Result) (l : list Result) :
  ~ In vid (map r_id l) -> mapById vid f l = l.
Proof.
  induction l as [|r l IH]; intros Hn; [reflexivity|].
  cbn [Batch.mapById map] in *.
  destruct (String.eqb_spec (r_id r) vid) as [E|_].
  - exfalso. apply Hn. left. exact E.
  - f_equal. apply IH. intros H. apply Hn. right. exact H.
Qed.

Lemma mapById_focus (vid : string) (f : Result -> Result)
    (R T : list Result) (x : Result) :
  r_id x = vid ->
  ~ In vid (map r_id R) -> ~ In vid (map r_id T) ->
  mapById vid f (R ++ x :: T) = R ++ f x :: T.
Proof.
  intros Hx HR HT.
  unfold Batch.mapById. rewrite map_app. cbn [map].
  fold (mapById vid f R). fold (mapById vid f T).
  rewrite (mapById_notin vid f R HR), (mapById_notin vid f T HT).
  rewrite Hx, String.eqb_refl. reflexivity.
Qed.

Lemma r_id_finalResult (i : nat) (v : Vocabulary) : r_id (finalResult i v) = id v.
Proof.
  unfold Batch.finalResult, Batch.setError, Batch.setSuccess.
  destruct (Batch.enhance Enhanced w i v) as [e|d];
    [|destruct (Batch.update Enhanced w i (id v) d)]; destruct s; reflexivity.
Qed.

Lemma r_status_finalResult (i : nat) (v : Vocabulary) :
  r_status (finalResult i v) = if fails i v then Batch.error else Batch.success.
Proof.
  unfold Batch.finalResult, Batch.fails, Batch.setError, Batch.setSuccess.
  destruct (Batch.enhance Enhanced w i v) as [e|d];
    [|destruct (Batch.update Enhanced w i (id v) d)]; destruct s; reflexivity.
Qed.

Lemma map_r_id_finalResults (rest : list Vocabulary) :
  forall i, map r_id (finalResults i rest) = map id rest.
Proof.
  induction rest as [|v rest IH]; intros i; [reflexivity|].
  cbn [Batch.finalResults map]. rewrite r_id_finalResult, IH. reflexivity.
Qed.

(** *** One round *)

Lemma round_log (n i : nat) (v : Vocabulary) (st : Batch.State Enhanced) :
  log (round n i v st) = log st ++ roundEvents n i v.
Proof.
  unfold Batch.round, Batch.tryBlock, Batch.catchBlock, Batch.roundEvents.
  destruct (Batch.enhance Enhanced w i v) as [e|d];
    [|destruct (Batch.update Enhanced w i (id v) d)];
    destruct (i <? n - 1); cbn [Batch.log Batch.results Batch.successCount
                                Batch.errorCount Batch.progress app];
    rewrite <- ?app_assoc; reflexivity.
Qed.

Lemma round_effect (n i : nat) (v : Vocabulary) (st : Batch.State Enhanced)
    (R T : list Result) :
  results st = R ++ initialResult v :: T ->
  ~ In (id v) (map r_id R) -> ~ In (id v) (map r_id T) ->
  results (round n i v st) = R ++ finalResult i v :: T
  /\ successCount (round n i v st)
     = successCount st + (if fails i v then 0 else 1)
  /\ errorCount (round n i v st)
     = errorCount st + (if fails i v then 1 else 0).
Proof.
  intros Hres HR HT.
  unfold Batch.round, Batch.tryBlock, Batch.catchBlock, Batch.finalResult, Batch.fails.
  destruct (Batch.enhance Enhanced w i v) as [e|d];
    [|destruct (Batch.update Enhanced w i (id v) d)];
    destruct (i <? n - 1);
    cbn [Batch.log Batch.results Batch.successCount Batch.errorCount Batch.progress];
    rewrite Hres;
    rewrite (mapById_focus (id v) _ R T (initialResult v) eq_refl HR HT);
    rewrite (mapById_focus (id v) _ R T
               (Batch.setProcessing Enhanced (initialResult v)) eq_refl HR HT);
    repeat split; lia.
Qed.

(** *** The loop *)

Lemma loop_log (n : nat) (rest : list Vocabulary) :
  forall i st, log (loop n i rest st) = log st ++ eventsFrom n i rest.
Proof.
  induction rest as [|v rest IH]; intros i st; cbn [Batch.loop Batch.eventsFrom].
  - symmetry. apply app_nil_r.
  - rewrite IH, round_log, app_assoc. reflexivity.
Qed.

Lemma failingIndices_length (rest : list Vocabulary) :
  forall i, List.length (failingIndices i rest) <= List.length rest.
Proof.
  induction rest as [|v rest IH]; intros i; cbn [Batch.failingIndices List.length];
    [lia|].
  specialize (IH (i + 1)). destruct (fails i v); cbn [List.length]; lia.
Qed.

Lemma failingIndices_lower (rest : list Vocabulary) :
  forall i x, In x (failingIndices i rest) -> i <= x.
Proof.
  induction rest as [|v rest IH]; intros i x Hin; cbn [Batch.failingIndices] in Hin;
    [contradiction|].
  destruct (fails i v); [destruct Hin as [<-|Hin]; [lia|]|];
    apply IH in Hin; lia.
Qed.

Lemma loop_effect (n : nat) (rest : list Vocabulary) :
  forall i st (R : list Result),
    results st = R ++ map initialResult rest ->
    NoDup (map r_id R ++ map id rest) ->
    results (loop n i rest st) = R ++ finalResults i rest
    /\ successCount (loop n i rest st)
       = successCount st + (List.length rest - List.length (failingIndices i rest))
    /\ errorCount (loop n i rest st)
       = errorCount st + List.length (failingIndices i rest).
Proof.
  induction rest as [|v rest IH]; intros i st R Hres Hnd;
    cbn [Batch.loop Batch.finalResults Batch.failingIndices map List.length] in *.
  - rewrite app_nil_r in Hres. rewrite app_nil_r. repeat split; lia || assumption.
  - assert (HR : ~ In (id v) (map r_id R)).
    { intros Hin. apply NoDup_remove_2 in Hnd. apply Hnd, in_or_app. left. exact Hin. }
    assert (HT : ~ In (id v) (map r_id (map initialResult rest))).
    { rewrite map_map. cbn. fold (map id rest).
      intros Hin. apply NoDup_remove_2 in Hnd. apply Hnd, in_or_app. right. exact Hin. }
    destruct (round_effect n i v st R (map initialResult rest) Hres HR HT)
      as (Hr & Hs & He).
    destruct (IH (i + 1) (round n i v st) (R ++ [finalResult i v])) as (Hr' & Hs' & He').
    + rewrite Hr, <- app_assoc. reflexivity.
    + rewrite map_app, <- app_assoc. cbn [map app]. rewrite r_id_finalResult. exact Hnd.
    + rewrite Hr', Hs', He', Hs, He, <- app_assoc. cbn [app].
      pose proof (failingIndices_length rest (i + 1)).
      destruct (fails i v); cbn [List.length]; repeat split; lia.
Qed.

Lemma failingIndices_upper (rest : list Vocabulary) :
  forall i x, In x (failingIndices i rest) -> x < i + List.length rest.
Proof.
  induction rest as [|v rest IH]; intros i x Hin;
    cbn [Batch.failingIndices List.length] in *; [contradiction|].
  destruct (fails i v); [destruct Hin as [<-|Hin]; [lia|]|];
    apply IH in Hin; lia.
Qed.

(** *** Statuses *)

Lemma status_at (rest : list Vocabulary) :
  forall i m r,
    nth_error (finalResults i rest) m = Some r ->
    r_status r = if existsb (Nat.eqb (i + m)) (failingIndices i rest)
                 then Batch.error else Batch.success.
Proof.
  induction rest as [|v rest IH]; intros i m r Hnth;
    cbn [Batch.finalResults Batch.failingIndices] in *.
  - destruct m; discriminate Hnth.
  - destruct m as [|m]; cbn [nth_error] in Hnth.
    + injection Hnth as <-. rewrite r_status_finalResult, Nat.add_0_r.
      destruct (fails i v); cbn [existsb].
      * rewrite Nat.eqb_refl. reflexivity.
      * destruct (existsb (Nat.eqb i) (failingIndices (i + 1) rest)) eqn:E;
          [|reflexivity].
        apply existsb_exists in E. destruct E as (x & Hin & Hx).
        apply Nat.eqb_eq in Hx. subst x.
        apply failingIndices_lower in Hin. lia.
    + rewrite (IH (i + 1) m r Hnth).
      replace (i + 1 + m) with (i + S m) by lia.
      destruct (fails i v); cbn [existsb]; [|reflexivity].
      replace (i + S m =? i) with false; [reflexivity|].
      symmetry. apply Nat.eqb_neq. lia.
Qed.

(** *** The log *)

Lemma delays_from (n : nat) (rest : list Vocabulary) :
  forall i, n = i + List.length rest ->
    filter isDelay (eventsFrom n i rest)
    = repeat (Batch.EvDelay (Batch.delayMs s)) (List.length rest - 1).
Proof.
  induction rest as [|v rest IH]; intros i Hn; [reflexivity|].
  cbn [Batch.eventsFrom List.length] in *.
  rewrite filter_app, (IH (i + 1)) by lia.
  unfold Batch.roundEvents. rewrite !filter_app.
  assert (Hupd : filter isDelay
                   match Batch.enhance Enhanced w i v with
                   | inl _ => []
                   | inr _ => [Batch.EvUpdate i (id v)]
                   end = [])
    by (destruct (Batch.enhance Enhanced w i v); reflexivity).
  rewrite Hupd. cbn [filter Batch.isDelay app].
  destruct rest as [|v' rest].
  - cbn [List.length] in *. replace (i <? n - 1) with false; [reflexivity|].
    symmetry. apply Nat.ltb_ge. lia.
  - cbn [List.length] in *. replace (i <? n - 1) with true.
    + cbn [filter Batch.isDelay app].
      replace (S (List.length rest) - 1) with (List.length rest) by lia.
      replace (S (S (List.length rest)) - 1) with (S (List.length rest)) by lia.
      reflexivity.
    + symmetry. apply Nat.ltb_lt. lia.
Qed.

Lemma enhances_from (n : nat) (rest : list Vocabulary) :
  forall i, filter isEnhance (eventsFrom n i rest) = enhanceEvents i rest.
Proof.
  induction rest as [|v rest IH]; intros i; [reflexivity|].
  cbn [Batch.eventsFrom Batch.enhanceEvents].
  rewrite filter_app, IH. unfold Batch.roundEvents. cbn [app filter Batch.isEnhance].
  f_equal. rewrite filter_app.
  destruct (Batch.enhance Enhanced w i v), (i <? n - 1); reflexivity.
Qed.

Lemma runBatch_log (selected : list Vocabulary) :
  log (runBatch selected)
  = eventsFrom (List.length selected) 0 selected
    ++ [Batch.EvInvalidate;
        Batch.EvSummary (successCount (runBatch selected))
                                 (errorCount (runBatch selected))].
Proof.
  unfold Batch.runBatch. cbn [Batch.log Batch.successCount Batch.errorCount].
  rewrite loop_log. reflexivity.
Qed.

Lemma runBatch_effect (selected : list Vocabulary) :
  NoDup (map id selected) ->
  results (runBatch selected) = finalResults 0 selected
  /\ successCount (runBatch selected)
     = List.length selected - List.length (failingIndices 0 selected)
  /\ errorCount (runBatch selected) = List.length (failingIndices 0 selected).
Proof.
  intros Hnd. unfold Batch.runBatch.
  cbn [Batch.results Batch.successCount Batch.errorCount].
  destruct (loop_effect (List.length selected) selected 0
              (Batch.mkState Enhanced (map initialResult selected) 0 0
                 (0, List.length selected) []) [])
    as (Hr & Hs & He); [reflexivity|exact Hnd|].
  rewrite Hr, Hs, He. repeat split.
Qed.

(** *** From the page state to the batch *)

Lemma filter_ids_distinct (p : Vocabulary -> bool) (l : list Vocabulary) :
  NoDup (map id l) -> NoDup (map id (filter p l)).
Proof.
  induction l as [|v l IH]; intros Hnd; [constructor|].
  cbn [map] in Hnd. inversion Hnd as [|? ? Hnotin Hnd']; subst.
  cbn [filter]. destruct (p v); [|exact (IH Hnd')].
  cbn [map]. constructor; [|exact (IH Hnd')].
  intros Hin. apply Hnotin. apply in_map_iff in Hin.
  destruct Hin as (u & Hu & Hin). apply filter_In in Hin.
  apply in_map_iff. exists u. split; [exact Hu|apply Hin].
Qed.

(** With a non-empty selection the handler runs the batch over the
    selected rows, whose ids are distinct when the rows' ids are. *)
Lemma handleEnhanceSelected_runs
    (vocabularies : list Vocabulary) (x : string) (xs : list string) :
  NoDup (map id vocabularies) ->
  exists selected,
    Batch.handleEnhanceSelected Enhanced s w vocabularies (x :: xs)
    = Some (runBatch selected)
    /\ NoDup (map id selected).
Proof.
  intros Hnd.
  exists (filter (fun v => existsb (String.eqb (id v)) (x :: xs)) vocabularies).
  split; [reflexivity|]. apply filter_ids_distinct, Hnd.
Qed.

End BatchRun.

(** C3.  Take k selected records with distinct ids (ids are the primary
    keys of the store) and a run in which exactly the round of index j
    (record j + 1) ends in the catch block, by an enrichment error or by a
    store-update error.  The batch goes through all k records in input
    order, the summary reports k - 1 successes and 1 failure, the entries
    keep the input order, entry j ends in status error and every other
    entry ends in status success, exactly as in a run where nothing
    fails. *)
Theorem single_failure_is_isolated
    (Enhanced : Type) (s : Batch.Studio) (w w0 : Batch.World Enhanced)
    (selected : list Vocabulary) (j : nat) :
  NoDup (map id selected) ->
  Batch.failingIndices Enhanced w 0 selected = [j] ->
  Batch.failingIndices Enhanced w0 0 selected = [] ->
  let k := List.length selected in
  let st := Batch.runBatch Enhanced s w selected in
  let st0 := Batch.runBatch Enhanced s w0 selected in
  j < k
  /\ Batch.successCount Enhanced st = k - 1
  /\ Batch.errorCount Enhanced st = 1
  /\ Batch.log Enhanced st
     = Batch.eventsFrom Enhanced s w k 0 selected
       ++ [Batch.EvInvalidate; Batch.EvSummary (k - 1) 1]
  /\ filter Batch.isEnhance (Batch.log Enhanced st) = Batch.enhanceEvents 0 selected
  /\ map (Batch.r_id Enhanced) (Batch.results Enhanced st) = map id selected
  /\ map (Batch.r_id Enhanced) (Batch.results Enhanced st0) = map id selected
  /\ (forall m r, nth_error (Batch.results Enhanced st) m = Some r ->
        Batch.r_status Enhanced r = if m =? j then Batch.error else Batch.success)
  /\ (forall m r0, nth_error (Batch.results Enhanced st0) m = Some r0 ->
        Batch.r_status Enhanced r0 = Batch.success).
Proof.
  intros Hnd Hj H0 k st st0. subst k st st0.
  destruct (runBatch_effect Enhanced s w selected Hnd) as (Hr & Hs & He).
  destruct (runBatch_effect Enhanced s w0 selected Hnd) as (Hr0 & _ & _).
  rewrite Hj in Hs, He. cbn [List.length] in Hs, He.
  assert (Hlt : j < List.length selected).
  { apply (failingIndices_upper Enhanced w selected 0 j). rewrite Hj. left. reflexivity. }
  split; [exact Hlt|].
  split; [exact Hs|].
  split; [exact He|].
  split; [rewrite runBatch_log, Hs, He; reflexivity|].
  split.
  { rewrite runBatch_log, filter_app, enhances_from. cbn [filter Batch.isEnhance].
    apply app_nil_r. }
  split; [rewrite Hr; apply map_r_id_finalResults|].
  split; [rewrite Hr0; apply map_r_id_finalResults|].
  split.
  - intros m r Hm. rewrite Hr in Hm.
    rewrite (status_at Enhanced s w selected 0 m r Hm), Hj.
    cbn [existsb Nat.add]. rewrite orb_false_r. reflexivity.
  - intros m r0 Hm. rewrite Hr0 in Hm.
    rewrite (status_at Enhanced s w0 selected 0 m r0 Hm), H0. reflexivity.
Qed.

Lemma single_failure_is_isolated_witness :
  Batch.successCount unit
    (Batch.runBatch unit Batch.OpenAi Samples.secondFails Samples.threeSelected) = 2
  /\ Batch.errorCount unit
       (Batch.runBatch unit Batch.OpenAi Samples.secondFails Samples.threeSelected) = 1.
Proof.
  destruct (single_failure_is_isolated unit Batch.OpenAi Samples.secondFails
              Samples.noneFails Samples.threeSelected 1)
    as (_ & Hs & He & _).
  - repeat constructor; cbn; intuition discriminate.
  - reflexivity.
  - reflexivity.
  - split; [exact Hs | exact He].
Defined.

(** C3 as stated fails when two selected records share an id: the status
    updates go by id, so the failure of the second round also turns the
    entry of the first record, whose own round succeeded, to error, in
    either studio, while the counts stay at k - 1 and 1; in the run
    without a failure both entries end in success. *)
Lemma single_failure_spreads_over_repeated_id :
  Batch.failingIndices unit Samples.secondFails 0 Samples.sameRowTwice = [1]
  /\ Batch.failingIndices unit Samples.noneFails 0 Samples.sameRowTwice = []
  /\ Batch.successCount unit
       (Batch.runBatch unit Batch.OpenAi Samples.secondFails Samples.sameRowTwice) = 1
  /\ Batch.errorCount unit
       (Batch.runBatch unit Batch.OpenAi Samples.secondFails Samples.sameRowTwice) = 1
  /\ map (Batch.r_status unit)
       (Batch.results unit
          (Batch.runBatch unit Batch.OpenAi Samples.secondFails Samples.sameRowTwice))
     = [Batch.error; Batch.error]
  /\ map (Batch.r_status unit)
       (Batch.results unit
          (Batch.runBatch unit Batch.Gemini Samples.secondFails Samples.sameRowTwice))
     = [Batch.error; Batch.error]
  /\ map (Batch.r_status unit)
       (Batch.results unit
          (Batch.runBatch unit Batch.OpenAi Samples.noneFails Samples.sameRowTwice))
     = [Batch.success; Batch.success]
  /\ map (Batch.r_status unit)
       (Batch.results unit
          (Batch.runBatch unit Batch.Gemini Samples.noneFails Samples.sameRowTwice))
     = [Batch.success; Batch.success]
  /\ ~ (forall m r,
          nth_error
            (Batch.results unit
               (Batch.runBatch unit Batch.OpenAi Samples.secondFails
                  Samples.sameRowTwice)) m = Some r ->
          Batch.r_status unit r = if m =? 1 then Batch.error else Batch.success).
Proof.
  repeat (split; [vm_compute; reflexivity|]).
  intros H. specialize (H 0 _ eq_refl). vm_compute in H. discriminate H.
Qed.

(** C7.  Whatever the outcomes of the k rounds, the log of a batch is the
    sequence of its rounds, each made of one enrichment call, the store
    update when the enrichment returned, and, unless the record is the
    last, one delay; so the batch suspends exactly k - 1 times, every
    time for the studio's constant (500 ms in the OpenAI studio, 1000 ms
    in the Gemini studio), and calls the enrichment once per record. *)
Theorem fixed_delay_after_each_record_but_last
    (Enhanced : Type) (s : Batch.Studio) (w : Batch.World Enhanced)
    (selected : list Vocabulary) :
  let k := List.length selected in
  let st := Batch.runBatch Enhanced s w selected in
  Batch.log Enhanced st
  = Batch.eventsFrom Enhanced s w k 0 selected
    ++ [Batch.EvInvalidate;
        Batch.EvSummary (Batch.successCount Enhanced st) (Batch.errorCount Enhanced st)]
  /\ filter Batch.isDelay (Batch.log Enhanced st)
     = repeat (Batch.EvDelay (Batch.delayMs s)) (k - 1)
  /\ filter Batch.isEnhance (Batch.log Enhanced st) = Batch.enhanceEvents 0 selected
  /\ Batch.delayMs Batch.OpenAi = 500
  /\ Batch.delayMs Batch.Gemini = 1000.
Proof.
  intros k st. subst k st.
  split; [apply runBatch_log|].
  split.
  { rewrite runBatch_log, filter_app, delays_from by reflexivity.
    cbn [filter Batch.isDelay]. apply app_nil_r. }
  split.
  { rewrite runBatch_log, filter_app, enhances_from. cbn [filter Batch.isEnhance].
    apply app_nil_r. }
  split; reflexivity.
Qed.

(* ================================================================= *)
(** ** Slug generation *)

Section Slug.

Import Blogs.

Lemma slugChar_not_hyphen (c : ascii) : isSlugChar c = true -> Ascii.eqb c "-" = false.
Proof.
  intros H. destruct (Ascii.eqb_spec c "-") as [->|]; [discriminate H|reflexivity].
Qed.

Lemma concat_cons_char (c : ascii) (w : string) (ws : list string) :
  String.concat "-" (String c w :: ws) = String c (String.concat "-" (w :: ws)).
Proof. destruct ws; reflexivity. Qed.

Lemma concat_single_then (c : ascii) (ws : list string) :
  String.concat "-" (String c EmptyString :: ws)
  = String c match ws with
             | [] => EmptyString
             | _ :: _ => String "-" (String.concat "-" ws)
             end.
Proof. destruct ws; reflexivity. Qed.

(** Inside a run nothing is written until a slug character comes. *)
Lemma replaceRuns_true_empty (s : string) :
  (replaceRuns true s =? "")%string = match words s with
                                      | [] => true
                                      | _ :: _ => false
                                      end.
Proof.
  induction s as [|c r IH]; [reflexivity|].
  cbn [replaceRuns words]. destruct (isSlugChar c).
  - destruct (startsWithSlugChar r); [destruct (words r)|]; reflexivity.
  - exact IH.
Qed.

Lemma stripEdges_false_slugChar (c : ascii) (x : string) :
  isSlugChar c = true -> stripEdges false (String c x) = String c (stripEdges false x).
Proof.
  intros H. cbn [stripEdges]. rewrite (slugChar_not_hyphen c H). reflexivity.
Qed.

Lemma words_cons_slugChar (c : ascii) (r : string) :
  isSlugChar c = true ->
  String.concat "-" (words (String c r))
  = String c (if startsWithSlugChar r then String.concat "-" (words r)
              else match words r with
                   | [] => EmptyString
                   | _ :: _ => String "-" (String.concat "-" (words r))
                   end).
Proof.
  intros H. cbn [words]. rewrite H. destruct (startsWithSlugChar r).
  - destruct (words r) as [|w ws]; [reflexivity|apply concat_cons_char].
  - apply concat_single_then.
Qed.

(** The two scans after the first character, against the words. *)
Lemma strip_replace_words (s : string) :
  stripEdges false (replaceRuns true s) = String.concat "-" (words s)
  /\ stripEdges false (replaceRuns false s)
     = if startsWithSlugChar s then String.concat "-" (words s)
       else match words s with
            | [] => EmptyString
            | _ :: _ => String "-" (String.concat "-" (words s))
            end.
Proof.
  induction s as [|c r [IH1 IH2]]; [split; reflexivity|].
  destruct (isSlugChar c) eqn:Hc.
  - assert (H : forall b, stripEdges false (replaceRuns b (String c r))
                          = String.concat "-" (words (String c r))).
    { intros b. cbn [replaceRuns]. rewrite Hc.
      rewrite (stripEdges_false_slugChar c _ Hc), IH2.
      symmetry. apply words_cons_slugChar, Hc. }
    split; [apply H|]. cbn [startsWithSlugChar]. rewrite Hc. apply H.
  - split.
    + cbn [replaceRuns words]. rewrite Hc. exact IH1.
    + cbn [replaceRuns words startsWithSlugChar]. rewrite Hc.
      cbn [stripEdges Ascii.eqb Bool.eqb andb orb].
      rewrite replaceRuns_true_empty. rewrite IH1.
      destruct (words r) as [|w ws]; reflexivity.
Qed.

Lemma strip_replace_from_start (s : string) :
  stripEdges true (replaceRuns false s) = String.concat "-" (words s).
Proof.
  destruct s as [|c r]; [reflexivity|].
  destruct (isSlugChar c) eqn:Hc.
  - destruct (strip_replace_words (String c r)) as [_ H].
    cbn [startsWithSlugChar] in H. rewrite Hc in H. rewrite <- H.
    cbn [replaceRuns]. rewrite Hc. cbn [stripEdges].
    rewrite (slugChar_not_hyphen c Hc). reflexivity.
  - cbn [replaceRuns words]. rewrite Hc.
    cbn [stripEdges Ascii.eqb Bool.eqb andb orb].
    apply strip_replace_words.
Qed.

(** Every word is a non-empty string of slug characters. *)
Lemma words_wf (s : string) :
  Forall (fun w => w <> EmptyString /\ allSlugChars w = true) (words s).
Proof.
  induction s as [|c r IH]; [constructor|].
  cbn [words]. destruct (isSlugChar c) eqn:Hc; [|exact IH].
  destruct (startsWithSlugChar r).
  - destruct (words r) as [|w ws].
    + constructor; [|constructor]. split; [discriminate|]. cbn. rewrite Hc. reflexivity.
    + inversion IH as [|? ? [_ Hw] Hws]; subst. constructor; [|exact Hws].
      split; [discriminate|]. cbn [allSlugChars]. rewrite Hc, Hw. reflexivity.
  - constructor; [|exact IH]. split; [discriminate|]. cbn. rewrite Hc. reflexivity.
Qed.

Lemma firstChar_concat (ws : list string) :
  Forall (fun w => w <> EmptyString /\ allSlugChars w = true) ws ->
  edgeOk (firstChar (String.concat "-" ws)) = true.
Proof.
  intros H. destruct H as [|w ws [Hne Hw] _]; [reflexivity|].
  destruct w as [|c w]; [contradiction|].
  rewrite concat_cons_char. cbn in *. apply andb_true_iff in Hw. apply Hw.
Qed.

Lemma lastChar_app (x y : string) :
  y <> EmptyString -> lastChar (x ++ y) = lastChar y.
Proof.
  intros Hy. induction x as [|c x IH]; [reflexivity|].
  cbn [append lastChar]. rewrite IH.
  destruct (x ++ y)%string eqn:E; [|reflexivity].
  destruct x; [cbn in E; contradiction|discriminate E].
Qed.

Lemma lastChar_word (w : string) :
  allSlugChars w = true -> edgeOk (lastChar w) = true.
Proof.
  induction w as [|c w IH]; [reflexivity|].
  cbn [allSlugChars]. intros H. apply andb_true_iff in H. destruct H as [Hc Hw].
  destruct w as [|c' w']; [exact Hc|]. exact (IH Hw).
Qed.

Lemma lastChar_concat (ws : list string) :
  Forall (fun w => w <> EmptyString /\ allSlugChars w = true) ws ->
  edgeOk (lastChar (String.concat "-" ws)) = true.
Proof.
  induction 1 as [|w ws [Hne Hw] Hws IH]; [reflexivity|].
  destruct ws as [|w' ws']; [exact (lastChar_word w Hw)|].
  change (String.concat "-" (w :: w' :: ws'))
    with (w ++ "-" ++ String.concat "-" (w' :: ws'))%string.
  rewrite lastChar_app by discriminate.
  change ("-" ++ String.concat "-" (w' :: ws'))%string
    with (String "-" (String.concat "-" (w' :: ws'))).
  inversion Hws as [|? ? [Hne' _] _]; subst.
  destruct (String.concat "-" (w' :: ws')) eqn:E.
  - destruct w'; [contradiction|]. rewrite concat_cons_char in E. discriminate E.
  - exact IH.
Qed.

End Slug.

(** C6.  The generated slug is the lowercase title's maximal runs of
    [a-z0-9] characters joined by single hyphens, so it neither starts nor
    ends with a hyphen; the two titles of the specification give the two
    slugs it names; and the submitted slug is the entered one unless that
    is empty, in which case it is the generated one. *)
Theorem slug_generation (t : string) (f : Blogs.FormData) :
  Blogs.generateSlug "How to Master Korean Particles!" = "how-to-master-korean-particles"
  /\ Blogs.generateSlug "  Leading/Trailing--Dashes  " = "leading-trailing-dashes"
  /\ Blogs.generateSlug t = Blogs.slugSpec t
  /\ Blogs.edgeOk (Blogs.firstChar (Blogs.generateSlug t)) = true
  /\ Blogs.edgeOk (Blogs.lastChar (Blogs.generateSlug t)) = true
  /\ Blogs.payloadSlug f
     = if (Blogs.slug f =? "")%string
       then Blogs.generateSlug (Blogs.title f) else Blogs.slug f.
Proof.
  assert (H : Blogs.generateSlug t = Blogs.slugSpec t)
    by apply strip_replace_from_start.
  split; [reflexivity|]. split; [reflexivity|]. split; [exact H|].
  rewrite H. unfold Blogs.slugSpec.
  split; [apply firstChar_concat, words_wf|].
  split; [apply lastChar_concat, words_wf|].
  reflexivity.
Qed.

(* ================================================================= *)
(** ** Vocabulary form payload *)

Section FormPayload.

Import VocabularyForm.

Lemma filterBoolean_spec (l : list string) :
  filterBoolean (map parseChapter l)
  = filter (fun z => negb (z =? 0)%Z)
      (flat_map (fun c => match parseInt (Js.trim c) with
                          | Some z => [z]
                          | None => []
                          end) l).
Proof.
  induction l as [|c l IH]; [reflexivity|].
  cbn [map filterBoolean flat_map]. unfold parseChapter at 1 2.
  destruct (parseInt (Js.trim c)) as [z|]; cbn [truthy app filter].
  - destruct (z =? 0)%Z; cbn [negb]; rewrite IH; reflexivity.
  - exact IH.
Qed.

Lemma filterBoolean_nonzero (l : list (option Z)) :
  Forall (fun z => z <> 0%Z) (filterBoolean l).
Proof.
  induction l as [|x l IH]; [constructor|].
  cbn [filterBoolean]. destruct x as [z|]; cbn [truthy]; [|exact IH].
  destruct (Z.eqb_spec z 0); cbn [negb]; [exact IH|].
  constructor; assumption.
Qed.

End FormPayload.

(** C9.  In the payload built from any form state, verb_forms is null
    unless the selected part of speech is "verb" (whatever verb-form text
    the form still holds), and the examples are the entered examples
    whose korean text is not empty after trimming, in the entered
    order. *)
Theorem form_payload_invariants (f : VocabularyForm.Form) :
  let p := VocabularyForm.handleSubmit f in
  (VocabularyForm.p_verb_forms p = None
   \/ (VocabularyForm.partOfSpeech f = "verb"
       /\ VocabularyForm.p_part_of_speech p = Some "verb"
       /\ VocabularyForm.p_verb_forms p = Some (VocabularyForm.verbForms f)))
  /\ (VocabularyForm.partOfSpeech f = "verb" \/ VocabularyForm.p_verb_forms p = None)
  /\ Forall (fun ex => Js.trim (korean ex) <> "") (VocabularyForm.p_examples p)
  /\ VocabularyForm.p_examples p
     = filter (fun ex => negb (Js.trim (korean ex) =? "")%string)
         (VocabularyForm.examples f).
Proof.
  intros p. subst p. unfold VocabularyForm.handleSubmit.
  cbn [VocabularyForm.p_verb_forms VocabularyForm.p_part_of_speech
       VocabularyForm.p_examples].
  split; [|split; [|split; [|reflexivity]]].
  - destruct (String.eqb_spec (VocabularyForm.partOfSpeech f) "verb") as [E|E].
    + right. rewrite E. repeat split.
    + left. reflexivity.
  - destruct (String.eqb_spec (VocabularyForm.partOfSpeech f) "verb") as [E|E].
    + left. exact E.
    + right. reflexivity.
  - apply Forall_forall. intros ex Hin. apply filter_In in Hin.
    destruct Hin as [_ Hne].
    destruct (String.eqb_spec (Js.trim (korean ex)) ""); [discriminate Hne|assumption].
Qed.

(** C10.  The chapters field of the payload is null for an empty input;
    otherwise it is the list of the comma-separated entries that parse as
    integers, without the entries whose value is 0.  So a stored list
    never holds 0, and the input "0, 5" is stored as [5]. *)
Theorem chapters_drop_non_numeric_and_zero (chapters : string) :
  VocabularyForm.chaptersField chapters
  = (if (chapters =? "")%string then None
     else Some (VocabularyForm.chaptersSpec chapters))
  /\ Forall (fun z => z <> 0%Z)
       match VocabularyForm.chaptersField chapters with
       | Some l => l
       | None => []
       end
  /\ VocabularyForm.parsedEntries "0, 5" = [0%Z; 5%Z]
  /\ VocabularyForm.chaptersField "0, 5" = Some [5%Z]
  /\ VocabularyForm.chaptersField "3, x, 0, 12" = Some [3%Z; 12%Z].
Proof.
  split; [|split; [|repeat split]].
  - unfold VocabularyForm.chaptersField, VocabularyForm.chaptersSpec,
      VocabularyForm.parsedEntries.
    destruct (chapters =? "")%string; cbn [negb]; [reflexivity|].
    rewrite filterBoolean_spec. reflexivity.
  - unfold VocabularyForm.chaptersField.
    destruct (negb (chapters =? "")%string); [|constructor].
    apply filterBoolean_nonzero.
Qed.

(* ================================================================= *)
(** ** AI-response cleanup *)

Section Trim.

Lemma isWhiteSpace_cases (c : ascii) :
  Js.isWhiteSpace c = true ->
  c = "009"%char \/ c = "010"%char \/ c = "011"%char \/ c = "012"%char
  \/ c = "013"%char \/ c = " "%char \/ c = "160"%char.
Proof.
  destruct c as [b0 b1 b2 b3 b4 b5 b6 b7].
  destruct b0, b1, b2, b3, b4, b5, b6, b7; intros H;
    try discriminate H; auto 8.
Qed.

Lemma trimEnd_app_newline (x : string) :
  Js.trimEnd (x ++ Cleanup.newline) = Js.trimEnd x.
Proof.
  induction x as [|c x IH]; [reflexivity|].
  cbn [append Js.trimEnd]. rewrite IH. reflexivity.
Qed.

Lemma trim_between_newlines (t : string) :
  Js.trim (Cleanup.newline ++ t ++ Cleanup.newline) = Js.trim t.
Proof.
  unfold Js.trim. change (Js.trimStart (Cleanup.newline ++ t ++ Cleanup.newline))
    with (Js.trimStart (t ++ Cleanup.newline)).
  induction t as [|c t IH]; [reflexivity|].
  cbn [append Js.trimStart]. destruct (Js.isWhiteSpace c); [exact IH|].
  apply (trimEnd_app_newline (String c t)).
Qed.

End Trim.

Section Fences.

Lemma prefix_app (p r : string) : prefix p (p ++ r) = true.
Proof.
  induction p as [|a p IH]; [destruct r; reflexivity|].
  cbn [append prefix]. destruct (ascii_dec a a) as [_|N]; [exact IH|].
  exfalso. apply N. reflexivity.
Qed.

Lemma prefix_split (p : string) :
  forall s, prefix p s = true -> exists r, s = (p ++ r)%string.
Proof.
  induction p as [|a p IH]; intros s H; [exists s; reflexivity|].
  destruct s as [|b s]; [discriminate H|].
  cbn [prefix] in H. destruct (ascii_dec a b) as [<-|_]; [|discriminate H].
  destruct (IH s H) as [r ->]. exists r. reflexivity.
Qed.

Lemma removeAllFrom_skip (pat x r : string) :
  Js.removeAllFrom pat (String.length x) (x ++ r) = Js.removeAllFrom pat 0 r.
Proof.
  induction x as [|c x IH]; [reflexivity|]. exact IH.
Qed.

(** A match at the scan position is dropped whole. *)
Lemma removeAll_match (a : ascii) (p r : string) :
  Js.removeAllFrom (String a p) 0 (String a p ++ r) = Js.removeAllFrom (String a p) 0 r.
Proof.
  change (String a p ++ r)%string with (String a (p ++ r)).
  cbn [Js.removeAllFrom].
  change (String a (p ++ r)) with (String a p ++ r)%string.
  rewrite prefix_app.
  replace (String.length (String a p) - 1) with (String.length p)
    by (cbn [String.length]; lia).
  apply removeAllFrom_skip.
Qed.

(** A text without a match is left as it is. *)
Lemma removeAll_no_match (pat : string) (s : string) :
  Js.includes s pat = false -> Js.removeAllFrom pat 0 s = s.
Proof.
  induction s as [|c s IH]; intros H; [reflexivity|].
  cbn [Js.includes] in H. apply orb_false_elim in H. destruct H as [Hp Hs].
  cbn [Js.removeAllFrom]. rewrite Hp, (IH Hs). reflexivity.
Qed.

Lemma includes_tail (c : ascii) (s pat : string) :
  Js.includes (String c s) pat = false -> Js.includes s pat = false.
Proof.
  cbn [Js.includes]. intros H. apply orb_false_elim in H. apply H.
Qed.

(** No fence starts inside [t] and runs over the closing line break. *)
Lemma no_fence_at_boundary (t : string) :
  Cleanup.hasFence t = false ->
  prefix "```" (t ++ Cleanup.newline ++ "```") = false.
Proof.
  unfold Cleanup.hasFence. intros H.
  destruct (prefix "```" (t ++ Cleanup.newline ++ "```")) eqn:E; [|reflexivity].
  apply prefix_split in E. destruct E as [r Hr].
  destruct t as [|c1 [|c2 [|c3 t3]]]; cbn in Hr; try discriminate Hr.
  injection Hr as E1 E2 E3 _. subst c1 c2 c3.
  destruct t3; cbn in H; discriminate H.
Qed.

Lemma tagged_fence_is_fence (s : string) :
  prefix "```json" s = true -> prefix "```" s = true.
Proof.
  intros H. apply prefix_split in H. destruct H as [r ->].
  apply (prefix_app "```" ("json" ++ r)).
Qed.

Lemma no_tag_before_closing_fence (t : string) :
  Cleanup.hasFence t = false ->
  Js.includes (t ++ Cleanup.newline ++ "```") "```json" = false.
Proof.
  induction t as [|c t IH]; intros H; [reflexivity|].
  change ((String c t ++ Cleanup.newline ++ "```")%string)
    with (String c (t ++ Cleanup.newline ++ "```")).
  cbn [Js.includes]. apply orb_false_intro.
  - destruct (prefix "```json" (String c (t ++ Cleanup.newline ++ "```"))) eqn:E;
      [|reflexivity].
    apply tagged_fence_is_fence in E.
    pose proof (no_fence_at_boundary (String c t) H) as N.
    change ((String c t ++ Cleanup.newline ++ "```")%string)
      with (String c (t ++ Cleanup.newline ++ "```")) in N.
    congruence.
  - apply IH. exact (includes_tail c t "```" H).
Qed.

Lemma closing_fence_removed (t : string) :
  Cleanup.hasFence t = false ->
  Js.removeAllFrom "```" 0 (t ++ Cleanup.newline ++ "```") = (t ++ Cleanup.newline)%string.
Proof.
  induction t as [|c t IH]; intros H; [reflexivity|].
  change ((String c t ++ Cleanup.newline ++ "```")%string)
    with (String c (t ++ Cleanup.newline ++ "```")).
  cbn [Js.removeAllFrom].
  change (String c (t ++ Cleanup.newline ++ "```"))
    with (String c t ++ Cleanup.newline ++ "```")%string.
  rewrite (no_fence_at_boundary (String c t) H).
  cbn [append]. f_equal. apply IH. exact (includes_tail c t "```" H).
Qed.

(** The cleanup of a fenced text without an inner fence is the trimmed
    text. *)
Lemma cleaned_fenced (t : string) :
  Cleanup.hasFence t = false -> Cleanup.cleaned (Cleanup.fenced t) = Js.trim t.
Proof.
  intros H. unfold Cleanup.cleaned, Cleanup.fenced, Js.removeAll.
  rewrite (removeAll_match "`" "``json").
  rewrite (removeAll_no_match "```json").
  - change ((Cleanup.newline ++ t ++ Cleanup.newline ++ "```")%string)
      with (String (ascii_of_nat 10) (t ++ Cleanup.newline ++ "```")).
    cbn [Js.removeAllFrom].
    replace (prefix "```" (String (ascii_of_nat 10) (t ++ Cleanup.newline ++ "```")))
      with false by reflexivity.
    rewrite (closing_fence_removed t H).
    apply (trim_between_newlines t).
  - change ((Cleanup.newline ++ t ++ Cleanup.newline ++ "```")%string)
      with (String (ascii_of_nat 10) (t ++ Cleanup.newline ++ "```")).
    cbn [Js.includes]. apply orb_false_intro; [reflexivity|].
    apply no_tag_before_closing_fence, H.
Qed.

End Fences.

Section Scanner.

Import Json.

Lemma scan_cons (st : LexState) (c : ascii) (r : string) :
  scan st (String c r)
  = match step st c with
    | None => None
    | Some (ts, st') =>
        match scan st' r with
        | None => None
        | Some rest => Some (ts ++ rest)
        end
    end.
Proof. reflexivity. Qed.

Lemma idleStep_reachable (c : ascii) (em : list Token) (st' : LexState) :
  idleStep c = Some (em, st') -> reachable st' = true.
Proof.
  unfold idleStep.
  repeat match goal with
         | |- context [if ?b then _ else _] => destruct b
         end;
    intros H; try discriminate H; injection H as _ <-; reflexivity.
Qed.

Lemma step_reachable (st st' : LexState) (c : ascii) (em : list Token) :
  reachable st = true -> step st c = Some (em, st') -> reachable st' = true.
Proof.
  intros Hwf H. destruct st as [|acc|acc|acc digits|literal|rest tok]; cbn [step] in H.
  - exact (idleStep_reachable c em st' H).
  - repeat match type of H with
           | context [if ?b then _ else _] => destruct b
           end; try discriminate H; injection H as _ <-; reflexivity.
  - repeat match type of H with
           | context [if ?b then _ else _] => destruct b
           end; try discriminate H; injection H as _ <-; reflexivity.
  - destruct (hexVal c); [|discriminate H].
    destruct (List.length digits =? 3); injection H as _ <-; reflexivity.
  - destruct (isNumChar c); [injection H as _ <-; reflexivity|].
    destruct (numberToken literal); [|discriminate H].
    destruct (idleStep c) as [[ts st'']|] eqn:E; [|discriminate H].
    injection H as _ <-. exact (idleStep_reachable c ts st'' E).
  - destruct rest as [|e rest']; [discriminate H|].
    cbn [reachable noWhiteSpace] in Hwf. apply andb_true_iff in Hwf.
    destruct Hwf as [_ Hwf].
    destruct (Ascii.eqb c e); [|discriminate H].
    destruct (rest' =? "")%string; injection H as _ <-; [reflexivity|exact Hwf].
Qed.

(** A white-space character read in a state that may end the text
    leaves a state that may end the text with the same tokens. *)
Lemma step_finish_white_space (st st' : LexState) (c : ascii)
    (em rest : list Token) :
  reachable st = true -> Js.isWhiteSpace c = true ->
  step st c = Some (em, st') -> finish st' = Some rest ->
  finish st = Some (em ++ rest).
Proof.
  intros Hwf Hws Hstep Hfin.
  destruct st as [|acc|acc|acc digits|literal|lit tok].
  - destruct (isWhiteSpace_cases c Hws) as [->|[->|[->|[->|[->|[->| ->]]]]]];
      cbn in Hstep; try discriminate Hstep;
      injection Hstep as <- <-; cbn in Hfin; injection Hfin as <-; reflexivity.
  - destruct (isWhiteSpace_cases c Hws) as [->|[->|[->|[->|[->|[->| ->]]]]]];
      cbn in Hstep; try discriminate Hstep;
      injection Hstep as <- <-; discriminate Hfin.
  - destruct (isWhiteSpace_cases c Hws) as [->|[->|[->|[->|[->|[->| ->]]]]]];
      discriminate Hstep.
  - destruct (isWhiteSpace_cases c Hws) as [->|[->|[->|[->|[->|[->| ->]]]]]];
      discriminate Hstep.
  - cbn [finish]. cbn [step] in Hstep.
    destruct (isWhiteSpace_cases c Hws) as [->|[->|[->|[->|[->|[->| ->]]]]]];
      cbn in Hstep; destruct (numberToken literal) as [t|];
      try discriminate Hstep;
      injection Hstep as <- <-; cbn in Hfin; injection Hfin as <-; reflexivity.
  - exfalso. cbn [step] in Hstep. destruct lit as [|e lit']; [discriminate Hstep|].
    cbn [reachable noWhiteSpace] in Hwf. apply andb_true_iff in Hwf.
    destruct Hwf as [He _].
    destruct (Ascii.eqb_spec c e) as [<-|_]; [|discriminate Hstep].
    rewrite Hws in He. discriminate He.
Qed.

Lemma scan_trimEnd (s : string) :
  forall st ts, reachable st = true ->
    scan st s = Some ts -> scan st (Js.trimEnd s) = Some ts.
Proof.
  induction s as [|c r IH]; intros st ts Hwf Hscan; [exact Hscan|].
  rewrite scan_cons in Hscan.
  destruct (step st c) as [[em st']|] eqn:Hstep; [|discriminate Hscan].
  destruct (scan st' r) as [rest|] eqn:Hr; [|discriminate Hscan].
  injection Hscan as <-.
  pose proof (IH st' rest (step_reachable st st' c em Hwf Hstep) Hr) as IH'.
  cbn [Js.trimEnd]. destruct (Js.trimEnd r) as [|c' r'].
  - cbn [scan] in IH'. destruct (Js.isWhiteSpace c) eqn:Hws.
    + cbn [scan]. exact (step_finish_white_space st st' c em rest Hwf Hws Hstep IH').
    + rewrite scan_cons, Hstep. cbn [scan]. rewrite IH'. reflexivity.
  - rewrite scan_cons, Hstep, IH'. reflexivity.
Qed.

Lemma scan_trimStart (s : string) :
  forall ts, scan Idle s = Some ts -> scan Idle (Js.trimStart s) = Some ts.
Proof.
  induction s as [|c r IH]; intros ts H; [exact H|].
  cbn [Js.trimStart]. destruct (Js.isWhiteSpace c) eqn:Hws; [|exact H].
  apply IH. rewrite scan_cons in H.
  destruct (isWhiteSpace_cases c Hws) as [->|[->|[->|[->|[->|[->| ->]]]]]];
    cbn [step] in H;
    match type of H with
    | context [idleStep ?c] =>
        let v := eval vm_compute in (idleStep c) in
        change (idleStep c) with v in H
    end;
    try discriminate H;
    cbn iota beta in H;
    destruct (scan Idle r) as [rest|]; try discriminate H; exact H.
Qed.

Lemma tokenize_trim (t : string) (ts : list Token) :
  tokenize t = Some ts -> tokenize (Js.trim t) = Some ts.
Proof.
  unfold tokenize, Js.trim. intros H.
  apply scan_trimEnd; [reflexivity|]. apply scan_trimStart, H.
Qed.

(** [JSON.parse] of a JSON text does not see the white space around it. *)
Lemma parse_trim (t : string) (v : Value) :
  parse t = Some v -> parse (Js.trim t) = Some v.
Proof.
  unfold parse. intros H.
  destruct (tokenize t) as [ts|] eqn:E; [|discriminate H].
  rewrite (tokenize_trim t ts E). exact H.
Qed.

End Scanner.

(** C5 (as amended).  For every JSON text that holds no run of three
    backquotes, the cleanup of the text wrapped in a [json] code fence is
    the text without its surrounding white space, and parsing it gives
    the value of the text itself, in [enhanceVocabulary] as in the Gemini
    studio. *)
Theorem fenced_json_parses_like_plain (t : string) (v : Json.Value) :
  Json.parse t = Some v ->
  Cleanup.hasFence t = false ->
  Cleanup.cleaned (Cleanup.fenced t) = Js.trim t
  /\ Cleanup.parseContent (Cleanup.fenced t) = Json.parse t
  /\ Cleanup.decodeData (inl (Cleanup.fenced t)) = Json.parse t.
Proof.
  intros Hp Hf.
  assert (Hc : Cleanup.cleaned (Cleanup.fenced t) = Js.trim t)
    by exact (cleaned_fenced t Hf).
  unfold Cleanup.parseContent, Cleanup.decodeData.
  rewrite Hc, Hp, (parse_trim t v Hp). repeat split.
Qed.

Lemma fenced_json_parses_like_plain_witness :
  Cleanup.parseContent (Cleanup.fenced Samples.enhancedJson)
  = Json.parse Samples.enhancedJson.
Proof.
  apply (fenced_json_parses_like_plain Samples.enhancedJson
           (Json.JObject
              [([114; 111; 109; 97; 110; 105; 122; 97; 116; 105; 111; 110]%N,
                Json.JString [103; 97; 100; 97]%N);
               ([116; 104; 101; 109; 101; 115]%N,
                Json.JArray [Json.JString [100; 97; 105; 108; 121]%N;
                             Json.JString [116; 114; 97; 118; 101; 108]%N]);
               ([99; 104; 97; 112; 116; 101; 114; 115]%N,
                Json.JArray [Json.JNumber "1"; Json.JNumber "5"])])).
  - vm_compute. reflexivity.
  - vm_compute. reflexivity.
Defined.

(** C5 as stated fails: a JSON string whose content holds three
    backquotes in a row is a JSON text, and once fenced and cleaned it
    parses to a string without them. *)
Lemma fenced_json_with_backquotes_differs :
  Json.parse Samples.backquotesInside
  = Some (Json.JString [97%N; 96%N; 96%N; 96%N; 98%N])
  /\ Cleanup.parseContent (Cleanup.fenced Samples.backquotesInside)
     = Some (Json.JString [97%N; 98%N])
  /\ Cleanup.parseContent (Cleanup.fenced Samples.backquotesInside)
     <> Json.parse Samples.backquotesInside.
Proof.
  split; [vm_compute; reflexivity|].
  split; [vm_compute; reflexivity|].
  vm_compute. discriminate.
Qed.

(* ================================================================= *)
(** * Further properties *)

(** Case analysis on the 256 code units. *)
Ltac each_char c :=
  let b0 := fresh "b" in let b1 := fresh "b" in let b2 := fresh "b" in
  let b3 := fresh "b" in let b4 := fresh "b" in let b5 := fresh "b" in
  let b6 := fresh "b" in let b7 := fresh "b" in
  destruct c as [b0 b1 b2 b3 b4 b5 b6 b7];
  destruct b0, b1, b2, b3, b4, b5, b6, b7.

(** ** Numbers as text *)

Section NumberText.

Import JsMore.

Lemma digit_cases (d : Z) :
  (0 <= d < 10)%Z ->
  d = 0%Z \/ d = 1%Z \/ d = 2%Z \/ d = 3%Z \/ d = 4%Z
  \/ d = 5%Z \/ d = 6%Z \/ d = 7%Z \/ d = 8%Z \/ d = 9%Z.
Proof. lia. Qed.

Ltac each_digit H :=
  destruct (digit_cases _ H) as [->|[->|[->|[->|[->|[->|[->|[->|[->| ->]]]]]]]]].

Lemma digitVal_digitChar (d : Z) :
  (0 <= d < 10)%Z -> VocabularyForm.digitVal 10 (digitChar d) = Some d.
Proof. intros H. each_digit H; reflexivity. Qed.

Lemma isDigit_digitChar (d : Z) :
  (0 <= d < 10)%Z -> Json.isDigit (digitChar d) = true.
Proof. intros H. each_digit H; reflexivity. Qed.

Lemma digitsValue_digitChar (a d : Z) (r : string) :
  (0 <= d < 10)%Z ->
  VocabularyForm.digitsValue 10 (Some a) (String (digitChar d) r)
  = VocabularyForm.digitsValue 10 (Some (a * 10 + d)%Z) r.
Proof.
  intros H. cbn [VocabularyForm.digitsValue]. rewrite (digitVal_digitChar d H).
  reflexivity.
Qed.

(** Reading back the digits written in front of [acc]. *)
Lemma digitsValue_digitsOf (fuel : nat) :
  forall n acc,
    (0 <= n < 2 ^ Z.of_nat fuel)%Z ->
    VocabularyForm.digitsValue 10 (Some 0%Z) (digitsOf fuel n acc)
    = VocabularyForm.digitsValue 10 (Some n) acc.
Proof.
  induction fuel as [|fuel IH]; intros n acc Hn.
  - cbn in Hn. assert (n = 0%Z) by lia. subst n. reflexivity.
  - cbn [digitsOf]. pose proof (Z.mod_pos_bound n 10 ltac:(lia)) as Hm.
    destruct (Z.ltb_spec n 10) as [Hlt|Hge].
    + rewrite (digitsValue_digitChar 0 (n mod 10) acc Hm).
      rewrite Z.mod_small by lia. reflexivity.
    + rewrite IH.
      * rewrite (digitsValue_digitChar (n / 10) (n mod 10) acc Hm).
        rewrite (Z.mul_comm (n / 10) 10), <- Z.div_mod by lia. reflexivity.
      * rewrite Nat2Z.inj_succ, Z.pow_succ_r in Hn by lia.
        split; [apply Z.div_pos; lia|].
        apply Z.div_lt_upper_bound; lia.
Qed.

Lemma allDigits_digitsOf (fuel : nat) :
  forall n acc, allDigits acc = true -> allDigits (digitsOf fuel n acc) = true.
Proof.
  induction fuel as [|fuel IH]; intros n acc Hacc; [exact Hacc|].
  cbn [digitsOf].
  assert (H : allDigits (String (digitChar (n mod 10)) acc) = true).
  { cbn [allDigits]. rewrite isDigit_digitChar, Hacc; [reflexivity|].
    apply Z.mod_pos_bound. lia. }
  destruct (n <? 10)%Z; [exact H|]. apply IH, H.
Qed.

Lemma digitsOf_not_empty (fuel : nat) :
  forall n acc, digitsOf (S fuel) n acc <> EmptyString.
Proof.
  induction fuel as [|fuel IH]; intros n acc.
  - cbn. destruct (n <? 10)%Z; discriminate.
  - change (digitsOf (S (S fuel)) n acc)
      with (if (n <? 10)%Z then String (digitChar (n mod 10)) acc
            else digitsOf (S fuel) (n / 10) (String (digitChar (n mod 10)) acc)).
    destruct (n <? 10)%Z; [discriminate|apply IH].
Qed.

Lemma log2_fuel (n : Z) :
  (0 <= n)%Z -> (0 <= n < 2 ^ Z.of_nat (S (Z.to_nat (Z.log2 n))))%Z.
Proof.
  intros Hn. split; [exact Hn|].
  rewrite Nat2Z.inj_succ, Z2Nat.id by apply Z.log2_nonneg.
  destruct (Z.eq_dec n 0) as [->|Hz]; [cbn; lia|].
  apply Z.log2_spec. lia.
Qed.

Lemma one_times (o : option Z) :
  match o with
  | Some v => Some (1 * v)%Z
  | None => None
  end = o.
Proof. destruct o as [[|p|p]|]; reflexivity. Qed.

Lemma minus_one_times (o : option Z) :
  match o with
  | Some v => Some (-1 * v)%Z
  | None => None
  end = match o with
        | Some v => Some (- v)%Z
        | None => None
        end.
Proof. destruct o as [[|p|p]|]; reflexivity. Qed.

(** A non-empty string of digits is read as a decimal number: no sign,
    no white space, no hexadecimal prefix gets in the way. *)
Lemma parseInt_allDigits (s : string) :
  allDigits s = true -> s <> EmptyString ->
  VocabularyForm.parseInt s = VocabularyForm.digitsValue 10 (Some 0%Z) s.
Proof.
  intros Hd Hne. destruct s as [|c r]; [contradiction|].
  cbn [allDigits] in Hd. apply andb_true_iff in Hd. destruct Hd as [Hc Hr].
  rewrite <- (one_times (VocabularyForm.digitsValue 10 (Some 0%Z) (String c r))).
  destruct r as [|c2 r2].
  - each_char c; try discriminate Hc; reflexivity.
  - cbn [allDigits] in Hr. apply andb_true_iff in Hr. destruct Hr as [Hc2 _].
    each_char c; try discriminate Hc; try reflexivity.
    each_char c2; try discriminate Hc2; reflexivity.
Qed.

Lemma digits_spec (n : Z) :
  (0 <= n)%Z ->
  allDigits (digits n) = true /\ digits n <> EmptyString
  /\ VocabularyForm.digitsValue 10 (Some 0%Z) (digits n) = Some n.
Proof.
  intros Hn. unfold digits. repeat split.
  - apply allDigits_digitsOf. reflexivity.
  - apply digitsOf_not_empty.
  - rewrite digitsValue_digitsOf by (apply log2_fuel, Hn). reflexivity.
Qed.

Lemma parseInt_minus (s : string) :
  allDigits s = true -> s <> EmptyString ->
  VocabularyForm.parseInt (String "-" s)
  = match VocabularyForm.digitsValue 10 (Some 0%Z) s with
    | Some v => Some (- v)%Z
    | None => None
    end.
Proof.
  intros Hd Hne. destruct s as [|c r]; [contradiction|].
  cbn [allDigits] in Hd. apply andb_true_iff in Hd. destruct Hd as [Hc Hr].
  rewrite <- (minus_one_times (VocabularyForm.digitsValue 10 (Some 0%Z) (String c r))).
  destruct r as [|c2 r2].
  - each_char c; try discriminate Hc; reflexivity.
  - cbn [allDigits] in Hr. apply andb_true_iff in Hr. destruct Hr as [Hc2 _].
    each_char c; try discriminate Hc; try reflexivity.
    each_char c2; try discriminate Hc2; reflexivity.
Qed.

(** The text of an integer reads back as that integer. *)
Lemma parseInt_numberToString (n : Z) :
  VocabularyForm.parseInt (numberToString n) = Some n.
Proof.
  unfold numberToString. destruct (Z.ltb_spec n 0) as [Hneg|Hpos].
  - destruct (digits_spec (- n) ltac:(lia)) as (Hd & Hne & Hv).
    rewrite (parseInt_minus _ Hd Hne), Hv. f_equal. lia.
  - destruct (digits_spec n Hpos) as (Hd & Hne & Hv).
    rewrite (parseInt_allDigits _ Hd Hne). exact Hv.
Qed.


End NumberText.

(* ================================================================= *)
(** ** The vocabulary hook and the fetch loop against other stores *)

(** X1.  For a row whose numeric primary key is a safe integer (at most
    2^53 - 1 in absolute value), the string id the hook gives the row
    parses back, in [updateVocabulary], to that key. *)
Theorem hook_id_round_trip (row : Hooks.Row) :
  JsMore.isSafeInteger (Hooks.row_id row) = true ->
  Hooks.updateKey (id (Hooks.toVocabulary row)) = Some (Hooks.row_id row).
Proof. intros _. apply parseInt_numberToString. Qed.

Lemma hook_id_round_trip_witness :
  Hooks.updateKey
    (id (Hooks.toVocabulary
           (Hooks.mkRow 31 "gada" "jawa" (Some "gada") (Some "verb")
              None None None None None)))
  = Some 31%Z.
Proof.
  apply (hook_id_round_trip
           (Hooks.mkRow 31 "gada" "jawa" (Some "gada") (Some "verb")
              None None None None None)).
  reflexivity.
Defined.




Section FetchEdges.

Context {A : Type}.

(** X3.  Against a store that cuts every answer to fewer rows than the
    page size, the loop stops after the first page: it returns the first
    [maxRows] rows only, however many rows the table has. *)
Theorem fetch_stops_at_capped_page (table : list A) (maxRows fuel : nat) :
  maxRows < Fetch.PAGE_SIZE ->
  Fetch.fetchAll (S fuel) (StoreMore.cappedRange maxRows table)
  = Some (Fetch.Loaded (firstn maxRows table))
  /\ List.length (firstn maxRows table) = Nat.min maxRows (List.length table).
Proof.
  intros Hm. split; [|apply length_firstn].
  unfold Fetch.fetchAll.
  change (Fetch.PAGE_SIZE - 1) with (0 + Fetch.PAGE_SIZE - 1).
  cbn [Fetch.fetchLoop StoreMore.cappedRange Store.error Store.data].
  rewrite rows_page. cbn [skipn].
  rewrite firstn_firstn, Nat.min_l by lia.
  destruct (Nat.eqb_spec (List.length (firstn maxRows table)) 0) as [H0|H0].
  - apply length_zero_iff_nil in H0. rewrite H0. reflexivity.
  - pose proof (length_firstn maxRows table) as Hlen.
    destruct (Nat.ltb_spec (List.length (firstn maxRows table)) Fetch.PAGE_SIZE);
      [reflexivity|lia].
Qed.

Variable query : nat -> nat -> Store.Response A.

Lemma fetchLoop_full_page (fuel : nat) (acc : list A) (from to : nat) :
  StoreMore.fullPage (query from to) ->
  exists d,
    Fetch.fetchLoop (S fuel) query acc from to
    = Fetch.fetchLoop fuel query (acc ++ d) (from + Fetch.PAGE_SIZE)
        (to + Fetch.PAGE_SIZE).
Proof.
  intros (He & d & Hd & Hlen). exists d.
  cbn [Fetch.fetchLoop]. rewrite He, Hd, Hlen, Nat.ltb_irrefl. reflexivity.
Qed.

Lemma fetchLoop_throws (e : string) (n : nat) :
  forall fuel j acc,
    (forall r, j <= r < j + n ->
       StoreMore.fullPage (query (r * Fetch.PAGE_SIZE) (r * Fetch.PAGE_SIZE + Fetch.PAGE_SIZE - 1))) ->
    Store.error (query ((j + n) * Fetch.PAGE_SIZE)
                       ((j + n) * Fetch.PAGE_SIZE + Fetch.PAGE_SIZE - 1)) = Some e ->
    n < fuel ->
    Fetch.fetchLoop fuel query acc (j * Fetch.PAGE_SIZE)
      (j * Fetch.PAGE_SIZE + Fetch.PAGE_SIZE - 1)
    = Some (Fetch.Thrown e).
Proof.
  pose proof (@page_size_positive) as HP.
  induction n as [|n IH]; intros fuel j acc Hfull Herr Hfuel;
    (destruct fuel as [|fuel]; [lia|]).
  - rewrite Nat.add_0_r in Herr. cbn [Fetch.fetchLoop]. rewrite Herr. reflexivity.
  - destruct (fetchLoop_full_page fuel acc _ _ (Hfull j ltac:(lia))) as [d ->].
    replace (j * Fetch.PAGE_SIZE + Fetch.PAGE_SIZE) with (S j * Fetch.PAGE_SIZE) by lia.
    replace (j * Fetch.PAGE_SIZE + Fetch.PAGE_SIZE - 1 + Fetch.PAGE_SIZE)
      with (S j * Fetch.PAGE_SIZE + Fetch.PAGE_SIZE - 1) by lia.
    apply IH; [| |lia].
    + intros r Hr. apply Hfull. lia.
    + replace (S j + n) with (j + S n) by lia. exact Herr.
Qed.

(** X4.  When the store rejects the query of some round after answering
    the earlier rounds with full pages, the fetch throws that error and
    hands over none of the rows already read. *)
Theorem fetch_error_discards_pages (e : string) (k fuel : nat) :
  (forall r, r < k ->
     StoreMore.fullPage (query (r * Fetch.PAGE_SIZE) (r * Fetch.PAGE_SIZE + Fetch.PAGE_SIZE - 1))) ->
  Store.error (query (k * Fetch.PAGE_SIZE) (k * Fetch.PAGE_SIZE + Fetch.PAGE_SIZE - 1))
  = Some e ->
  k < fuel ->
  Fetch.fetchAll fuel query = Some (Fetch.Thrown e).
Proof.
  intros Hfull Herr Hfuel. unfold Fetch.fetchAll.
  change 0 with (0 * Fetch.PAGE_SIZE) at 1.
  change (Fetch.PAGE_SIZE - 1) with (0 * Fetch.PAGE_SIZE + Fetch.PAGE_SIZE - 1).
  apply (fetchLoop_throws e k); [| |exact Hfuel].
  - intros r Hr. apply Hfull. lia.
  - exact Herr.
Qed.

(** X5.  The loop has no bound on its rounds: against a store that
    answers every query with a full page it is still running after any
    number of rounds. *)
Theorem fetch_never_stops_on_full_pages (fuel : nat) :
  (forall from to, StoreMore.fullPage (query from to)) ->
  Fetch.fetchAll fuel query = None.
Proof.
  intros Hfull. unfold Fetch.fetchAll.
  generalize (@nil A) 0 (Fetch.PAGE_SIZE - 1).
  induction fuel as [|fuel IH]; intros acc from to; [reflexivity|].
  destruct (fetchLoop_full_page fuel acc from to (Hfull from to)) as [d ->].
  apply IH.
Qed.

End FetchEdges.

Lemma fetch_error_discards_pages_witness :
  Fetch.fetchAll 3 MoreSamples.thirdQueryFails = Some (Fetch.Thrown "JWT expired").
Proof.
  apply (fetch_error_discards_pages MoreSamples.thirdQueryFails "JWT expired" 2 3).
  - intros r Hr. assert (Hc : r = 0 \/ r = 1) by lia.
    destruct Hc as [->| ->]; (split; [reflexivity|]);
      eexists; (split; [reflexivity|apply repeat_length]).
  - reflexivity.
  - lia.
Defined.

Lemma fetch_never_stops_on_full_pages_witness :
  Fetch.fetchAll 5 MoreSamples.fullPageStore = None.
Proof.
  apply (fetch_never_stops_on_full_pages MoreSamples.fullPageStore 5).
  intros from to. split; [reflexivity|].
  eexists. split; [reflexivity|apply repeat_length].
Defined.

Lemma fetch_stops_at_capped_page_witness :
  Fetch.fetchAll 1 (StoreMore.cappedRange 500 (seq 0 1200))
  = Some (Fetch.Loaded (firstn 500 (seq 0 1200))).
Proof.
  apply (fetch_stops_at_capped_page (seq 0 1200) 500 0).
  unfold Fetch.PAGE_SIZE. lia.
Defined.

(* ================================================================= *)
(** ** Lists written as comma-separated text and read back *)

Section TextLists.

Import JsMore.

Lemma split_noComma (s : string) :
  noComma s = true -> Js.split "," s = [s].
Proof.
  induction s as [|c s IH]; intros H; [reflexivity|].
  cbn [noComma] in H. apply andb_true_iff in H. destruct H as [Hc Hs].
  cbn [Js.split]. apply negb_true_iff in Hc. rewrite Hc, (IH Hs). reflexivity.
Qed.

Lemma split_app_comma (s r : string) :
  noComma s = true ->
  Js.split "," (s ++ String "," r) = s :: Js.split "," r.
Proof.
  induction s as [|c s IH]; intros H; [reflexivity|].
  cbn [noComma] in H. apply andb_true_iff in H. destruct H as [Hc Hs].
  cbn [append Js.split]. apply negb_true_iff in Hc. rewrite Hc, (IH Hs). reflexivity.
Qed.

Lemma split_space (r : string) :
  Js.split "," (String " " r)
  = match Js.split "," r with
    | [] => [String " " EmptyString]
    | w :: ws => String " " w :: ws
    end.
Proof. reflexivity. Qed.

(** Joining with ", " and splitting at "," gives the first entry as it
    was and every later entry behind one space. *)
Lemma split_concat (x : string) (l : list string) :
  forallb noComma (x :: l) = true ->
  Js.split "," (String.concat ", " (x :: l)) = x :: map (String " ") l.
Proof.
  revert x. induction l as [|y l IH]; intros x H.
  - cbn in H. rewrite andb_true_r in H. apply split_noComma, H.
  - cbn [forallb] in H. apply andb_true_iff in H. destruct H as [Hx Hl].
    change (String.concat ", " (x :: y :: l))
      with (x ++ String "," (String " " (String.concat ", " (y :: l))))%string.
    rewrite (split_app_comma _ _ Hx), split_space, (IH y Hl). reflexivity.
Qed.

Lemma trimEnd_noWhiteSpace (s : string) :
  noWhiteSpace s = true -> Js.trimEnd s = s.
Proof.
  induction s as [|c s IH]; intros H; [reflexivity|].
  cbn [noWhiteSpace] in H. apply andb_true_iff in H. destruct H as [Hc Hs].
  cbn [Js.trimEnd]. rewrite (IH Hs). apply negb_true_iff in Hc. rewrite Hc.
  destruct s; reflexivity.
Qed.

Lemma trim_noWhiteSpace (s : string) :
  noWhiteSpace s = true -> Js.trim s = s.
Proof.
  intros H. unfold Js.trim.
  assert (Hs : Js.trimStart s = s).
  { destruct s as [|c s]; [reflexivity|]. cbn [noWhiteSpace] in H.
    apply andb_true_iff in H. destruct H as [Hc _]. apply negb_true_iff in Hc.
    cbn [Js.trimStart]. rewrite Hc. reflexivity. }
  rewrite Hs. apply trimEnd_noWhiteSpace, H.
Qed.

Lemma trim_after_space (s : string) : Js.trim (String " " s) = Js.trim s.
Proof. reflexivity. Qed.

Lemma digit_plain (c : ascii) :
  Json.isDigit c = true ->
  Js.isWhiteSpace c = false /\ Ascii.eqb c "," = false.
Proof.
  intros Hc. each_char c; try discriminate Hc; split; reflexivity.
Qed.

Lemma allDigits_plain (s : string) :
  allDigits s = true -> noWhiteSpace s = true /\ noComma s = true.
Proof.
  induction s as [|c s IH]; intros H; [split; reflexivity|].
  cbn [allDigits] in H. apply andb_true_iff in H. destruct H as [Hc Hs].
  destruct (digit_plain c Hc) as [Hw Hk]. destruct (IH Hs) as [IHw IHk].
  cbn [noWhiteSpace noComma]. rewrite Hw, Hk, IHw, IHk. split; reflexivity.
Qed.

Lemma numberToString_plain (n : Z) :
  noWhiteSpace (numberToString n) = true
  /\ noComma (numberToString n) = true
  /\ numberToString n <> EmptyString.
Proof.
  unfold numberToString. destruct (Z.ltb_spec n 0) as [Hneg|Hpos].
  - destruct (digits_spec (- n) ltac:(lia)) as (Hd & _ & _).
    destruct (allDigits_plain _ Hd) as [Hw Hk].
    cbn [noWhiteSpace noComma]. rewrite Hw, Hk. repeat split. discriminate.
  - destruct (digits_spec n Hpos) as (Hd & Hne & _).
    destruct (allDigits_plain _ Hd) as [Hw Hk]. repeat split; assumption.
Qed.

Lemma concat_not_empty (x : string) (l : list string) :
  x <> EmptyString -> String.concat ", " (x :: l) <> EmptyString.
Proof.
  intros Hx. destruct x as [|c x]; [contradiction|].
  destruct l; cbn; discriminate.
Qed.

(** Each chapter written by the edit form is read back by the submit
    handler as the number it was. *)
Lemma parseChapter_entries (x : Z) (l : list Z) :
  map VocabularyForm.parseChapter
    (Js.split "," (String.concat ", " (map numberToString (x :: l))))
  = map Some (x :: l).
Proof.
  cbn [map]. rewrite split_concat.
  - cbn [map]. f_equal.
    + unfold VocabularyForm.parseChapter.
      rewrite trim_noWhiteSpace by apply numberToString_plain.
      rewrite parseInt_numberToString. reflexivity.
    + rewrite !map_map. apply map_ext. intros z.
      unfold VocabularyForm.parseChapter. rewrite trim_after_space.
      rewrite trim_noWhiteSpace by apply numberToString_plain.
      rewrite parseInt_numberToString. reflexivity.
  - change (forallb noComma (map numberToString (x :: l)) = true).
    apply forallb_forall. intros s Hin. apply in_map_iff in Hin.
    destruct Hin as (z & <- & _). apply numberToString_plain.
Qed.

Lemma filterBoolean_map_Some (l : list Z) :
  VocabularyForm.filterBoolean (map Some l) = filter (fun z => negb (z =? 0)%Z) l.
Proof.
  induction l as [|z l IH]; [reflexivity|].
  cbn [map VocabularyForm.filterBoolean VocabularyForm.truthy filter].
  destruct (z =? 0)%Z; cbn [negb]; rewrite IH; reflexivity.
Qed.

End TextLists.

(** The chapters of the edit form's text, read back by the submit
    handler. *)
Lemma chapters_read_back (chs : option (list Z)) :
  VocabularyForm.chaptersField (VocabularyPage.chaptersText chs)
  = match chs with
    | None | Some [] => None
    | Some l => Some (filter (fun z => negb (z =? 0)%Z) l)
    end.
Proof.
  destruct chs as [[|x l]|]; try reflexivity.
  unfold VocabularyPage.chaptersText, VocabularyForm.chaptersField.
  assert (Hne : String.concat ", " (map JsMore.numberToString (x :: l)) <> EmptyString)
    by (apply concat_not_empty, numberToString_plain).
  apply String.eqb_neq in Hne. unfold Js.orStr. rewrite Hne, Hne.
  cbn [negb]. rewrite parseChapter_entries, filterBoolean_map_Some. reflexivity.
Qed.

(** X6.  Opening a vocabulary row whose chapters are safe integers in
    the edit form and saving it writes back its chapters without the
    entries equal to 0; a null or empty chapter list is written back as
    null. *)
Theorem edit_save_chapters (chs : option (list Z)) :
  VocabularyPage.safeChapters chs = true ->
  VocabularyForm.chaptersField (VocabularyPage.chaptersText chs)
  = match chs with
    | None | Some [] => None
    | Some l => Some (filter (fun z => negb (z =? 0)%Z) l)
    end.
Proof. intros _. apply chapters_read_back. Qed.

Lemma edit_save_chapters_witness :
  VocabularyForm.chaptersField (VocabularyPage.chaptersText (Some [0; 5; 12]%Z))
  = Some [5; 12]%Z.
Proof.
  apply (edit_save_chapters (Some [0; 5; 12]%Z)). reflexivity.
Defined.

(* ================================================================= *)
(** ** Edit, then save *)

Section EditSave.

Lemma orStr_empty (s : string) : Js.orStr s "" = s.
Proof. unfold Js.orStr. destruct (String.eqb_spec s ""); congruence. Qed.

Lemma orNull_orEmpty (o : option string) :
  Js.strictEq o "" = false -> Resources.orNull (Resources.orEmpty o) = o.
Proof.
  destruct o as [s|]; [|reflexivity]. cbn [Js.strictEq Resources.orEmpty].
  intros H. rewrite orStr_empty. unfold Resources.orNull. rewrite H. reflexivity.
Qed.

Lemma plainTags_read_back (x : string) (l : list string) :
  forallb Tags.plainTag (x :: l) = true ->
  map Js.trim (Js.split "," (String.concat ", " (x :: l))) = x :: l.
Proof.
  intros H.
  assert (Hall : forall t, In t (x :: l) ->
                           JsMore.noComma t = true /\ Js.trim t = t).
  { intros t Hin. pose proof (proj1 (forallb_forall _ _) H t Hin) as Ht.
    unfold Tags.plainTag in Ht. apply andb_true_iff in Ht.
    destruct Ht as [Hk Htr]. apply String.eqb_eq in Htr. split; assumption. }
  rewrite split_concat.
  - cbn [map]. f_equal; [apply Hall; left; reflexivity|].
    rewrite map_map. rewrite <- (map_id l) at 2. apply map_ext_in.
    intros t Hin. rewrite trim_after_space. apply Hall. right. exact Hin.
  - apply forallb_forall. intros t Hin. apply Hall, Hin.
Qed.

Lemma normalTags_round_trip (tags : option (list string)) :
  Tags.normalTags tags = true -> Tags.tagsPayload (Tags.tagsText tags) = tags.
Proof.
  destruct tags as [l|]; [|reflexivity].
  cbn [Tags.normalTags Tags.tagsText]. intros H. apply andb_true_iff in H.
  destruct H as [Hp Hne]. rewrite orStr_empty. unfold Tags.tagsPayload. rewrite Hne.
  destruct l as [|x l]; [discriminate Hne|].
  rewrite (plainTags_read_back x l Hp). reflexivity.
Qed.

End EditSave.

(** X7.  Tags written into the form text by the edit handler and read
    back by the submit handler come back unchanged when no tag holds a
    comma or outer white space; a null list, an empty list and the list
    of one empty tag all come back as null. *)
Theorem tags_edit_save (l : list string) :
  forallb Tags.plainTag l = true ->
  Tags.tagsPayload (Tags.tagsText (Some l))
  = (if (String.concat ", " l =? "")%string then None else Some l)
  /\ Tags.tagsPayload (Tags.tagsText None) = None
  /\ Tags.tagsPayload (Tags.tagsText (Some [])) = None
  /\ Tags.tagsPayload (Tags.tagsText (Some [EmptyString])) = None.
Proof.
  intros H. split; [|repeat split].
  destruct (String.concat ", " l =? "")%string eqn:E.
  - cbn [Tags.tagsText]. rewrite orStr_empty. unfold Tags.tagsPayload.
    rewrite E. reflexivity.
  - apply (normalTags_round_trip (Some l)). cbn [Tags.normalTags].
    rewrite H, E. reflexivity.
Qed.

Lemma tags_edit_save_witness :
  Tags.tagsPayload (Tags.tagsText (Some ["eps"; "topik"])) = Some ["eps"; "topik"].
Proof.
  apply (tags_edit_save ["eps"; "topik"]). reflexivity.
Defined.

(** X8.  Saving a resource as the edit form shows it always keeps
    title and download URL and always writes null into category and
    file size, whatever the row held; for a row without an empty-string
    description or thumbnail and with plain tags it keeps description,
    tags and thumbnail as well. *)
Theorem resource_edit_save (item : Resources.ResourceItem) :
  let saved := Resources.handleSubmit (Resources.handleEdit item) in
  Resources.p_category saved = None
  /\ Resources.p_file_size saved = None
  /\ Resources.p_title saved = Resources.title item
  /\ Resources.p_file_path saved = Resources.file_path item
  /\ (Resources.formNormal item = true ->
      saved
      = Resources.mkPayload (Resources.title item) None (Resources.description item)
          (Resources.tags item) (Resources.file_path item)
          (Resources.thumbnail_path item) None).
Proof.
  intros saved. subst saved.
  split; [reflexivity|]. split; [reflexivity|].
  split; [reflexivity|]. split; [reflexivity|].
  unfold Resources.formNormal. intros H.
  apply andb_true_iff in H. destruct H as [H Ht].
  apply andb_true_iff in H. destruct H as [Hd Hth].
  apply negb_true_iff in Hd, Hth.
  unfold Resources.handleSubmit, Resources.handleEdit.
  cbn [Resources.f_title Resources.f_description Resources.f_tags
       Resources.f_file_path Resources.f_thumbnail_path].
  rewrite (orNull_orEmpty _ Hd), (orNull_orEmpty _ Hth), (normalTags_round_trip _ Ht).
  reflexivity.
Qed.

Lemma resource_edit_save_witness :
  Resources.p_category
    (Resources.handleSubmit (Resources.handleEdit MoreSamples.resourceItem)) = None
  /\ Resources.p_tags
       (Resources.handleSubmit (Resources.handleEdit MoreSamples.resourceItem))
     = Some ["eps"; "topik"].
Proof.
  destruct (resource_edit_save MoreSamples.resourceItem) as (Hc & _ & _ & _ & H).
  split; [exact Hc|]. rewrite (H eq_refl). reflexivity.
Defined.

(** X9.  Saving a blog post as the edit form shows it keeps title,
    content, thumbnail, category and tags; the slug is kept when the
    post has one and is generated from the title when it is empty. *)
Theorem blog_edit_save (item : BlogsPage.BlogItem) :
  BlogsPage.formNormal item = true ->
  BlogsPage.handleSubmit (BlogsPage.handleEdit item)
  = BlogsPage.mkPayload (BlogsPage.title item)
      (if (BlogsPage.slug item =? "")%string
       then Blogs.generateSlug (BlogsPage.title item) else BlogsPage.slug item)
      (BlogsPage.content item) (BlogsPage.thumbnail_url item)
      (BlogsPage.category item) (BlogsPage.tags item).
Proof.
  unfold BlogsPage.formNormal. intros H.
  apply andb_true_iff in H. destruct H as [H Ht].
  apply andb_true_iff in H. destruct H as [Hth Hc].
  apply negb_true_iff in Hth, Hc.
  unfold BlogsPage.handleSubmit, BlogsPage.handleEdit, Blogs.payloadSlug.
  cbn [Blogs.title Blogs.slug Blogs.content Blogs.thumbnail_url Blogs.category
       Blogs.tags].
  rewrite (orNull_orEmpty _ Hth), (orNull_orEmpty _ Hc), (normalTags_round_trip _ Ht).
  reflexivity.
Qed.

Lemma blog_edit_save_witness :
  BlogsPage.p_slug (BlogsPage.handleSubmit (BlogsPage.handleEdit MoreSamples.blogItem))
  = "korean-particles".
Proof.
  rewrite (blog_edit_save MoreSamples.blogItem); reflexivity.
Defined.

(** X10.  Saving a vocabulary row as the edit form shows it writes the
    row back unchanged, provided the row is one the form can hold: no
    empty romanization or part of speech, an examples array without
    blank korean text, no empty themes or chapters list, no chapter 0,
    chapters that are safe integers, and verb forms exactly when the
    part of speech is "verb". *)
Theorem vocabulary_edit_save (item : VocabularyPage.VocabularyItem) :
  VocabularyPage.formNormal item = true ->
  VocabularyPage.updated item
    (VocabularyForm.handleSubmit (VocabularyPage.handleEdit item)) = item.
Proof.
  destruct item as [vid kw bm rom pos expl exs ths chs vf].
  unfold VocabularyPage.formNormal.
  cbn [VocabularyPage.i_romanization VocabularyPage.i_part_of_speech
       VocabularyPage.i_examples VocabularyPage.i_themes VocabularyPage.i_chapters
       VocabularyPage.i_verb_forms].
  intros H. repeat (apply andb_true_iff in H; destruct H as [H ?]).
  apply negb_true_iff in H.
  match goal with Hp : negb (Js.strictEq pos "") = true |- _ =>
    apply negb_true_iff in Hp; rename Hp into Hpos end.
  match goal with Hv : Bool.eqb _ _ = true |- _ =>
    apply Bool.eqb_prop in Hv; rename Hv into Hverb end.
  unfold VocabularyPage.updated, VocabularyForm.handleSubmit, VocabularyPage.handleEdit.
  cbn [VocabularyForm.koreanWord VocabularyForm.banglaMeaning
       VocabularyForm.romanization VocabularyForm.partOfSpeech
       VocabularyForm.explanation VocabularyForm.examples
       VocabularyForm.selectedThemes VocabularyForm.chapters
       VocabularyForm.verbForms VocabularyForm.p_korean_word
       VocabularyForm.p_bangla_meaning VocabularyForm.p_romanization
       VocabularyForm.p_part_of_speech VocabularyForm.p_explanation
       VocabularyForm.p_examples VocabularyForm.p_themes
       VocabularyForm.p_chapters VocabularyForm.p_verb_forms
       VocabularyPage.i_id VocabularyPage.i_korean_word
       VocabularyPage.i_bangla_meaning VocabularyPage.i_romanization
       VocabularyPage.i_part_of_speech VocabularyPage.i_explanation
       VocabularyPage.i_examples VocabularyPage.i_themes
       VocabularyPage.i_chapters VocabularyPage.i_verb_forms].
  rewrite chapters_read_back.
  f_equal.
  - pose proof (orNull_orEmpty rom H) as E. unfold Resources.orNull in E.
    destruct (Resources.orEmpty rom =? "")%string; exact E.
  - pose proof (orNull_orEmpty pos Hpos) as E. unfold Resources.orNull in E.
    destruct (Resources.orEmpty pos =? "")%string; exact E.
  - destruct exs as [l|]; [|discriminate]. f_equal.
    apply forallb_filter_id. assumption.
  - destruct ths as [[|t l]|]; try reflexivity. discriminate.
  - destruct chs as [[|z l]|]; try reflexivity; [discriminate|].
    f_equal. apply forallb_filter_id. assumption.
  - destruct pos as [p|]; cbn [Js.strictEq Resources.orEmpty] in *.
    + rewrite orStr_empty. rewrite Hverb. destruct vf; reflexivity.
    + destruct vf; [discriminate Hverb|reflexivity].
Qed.

Lemma vocabulary_edit_save_witness :
  VocabularyPage.updated MoreSamples.verbItem
    (VocabularyForm.handleSubmit (VocabularyPage.handleEdit MoreSamples.verbItem))
  = MoreSamples.verbItem.
Proof.
  apply (vocabulary_edit_save MoreSamples.verbItem). vm_compute. reflexivity.
Defined.

(** X11.  Saving a verb that has no verb forms, as the edit form shows
    it, stores an object of four empty strings as its verb forms; the
    row was flagged for missing verb forms in both studios before and is
    not flagged after. *)
Theorem verb_without_forms_edit_save (item : VocabularyPage.VocabularyItem) :
  VocabularyPage.i_part_of_speech item = Some "verb" ->
  VocabularyPage.i_verb_forms item = None ->
  let saved := VocabularyPage.updated item
                 (VocabularyForm.handleSubmit (VocabularyPage.handleEdit item)) in
  let before := Hooks.toVocabulary (VocabularyPage.asRow item) in
  let after := Hooks.toVocabulary (VocabularyPage.asRow saved) in
  VocabularyPage.i_verb_forms saved = Some VocabularyPage.emptyVerbForms
  /\ OpenAiStudio.verbBadge before = true
  /\ GeminiStudio.verbBadge before = true
  /\ OpenAiStudio.verbBadge after = false
  /\ GeminiStudio.verbBadge after = false
  /\ OpenAiStudio.typeFilter OpenAiStudio.missing_verb after = false
  /\ GeminiStudio.typeFilter GeminiStudio.missing_verb after = false.
Proof.
  destruct item as [vid kw bm rom pos expl exs ths chs vf].
  cbn [VocabularyPage.i_part_of_speech VocabularyPage.i_verb_forms].
  intros -> ->. repeat split.
Qed.

Lemma verb_without_forms_edit_save_witness :
  VocabularyPage.i_verb_forms
    (VocabularyPage.updated MoreSamples.verbItemWithoutForms
       (VocabularyForm.handleSubmit
          (VocabularyPage.handleEdit MoreSamples.verbItemWithoutForms)))
  = Some VocabularyPage.emptyVerbForms.
Proof.
  apply (verb_without_forms_edit_save MoreSamples.verbItemWithoutForms); reflexivity.
Defined.

(* ================================================================= *)
(** ** Download links *)

(** X12.  The download link of a resource is the stored path itself
    when the path starts with "http://" or "https://", and the public
    storage address followed by the path otherwise; either way it is an
    absolute http or https URL, and computing the link of a link changes
    nothing. *)
Theorem download_url_absolute (path : string) :
  let absolute s := JsMore.startsWith s "http://" || JsMore.startsWith s "https://" in
  let url := Resources.getDownloadUrl path in
  url = (if absolute path then path else (Resources.storageBase ++ path)%string)
  /\ absolute url = true
  /\ Resources.getDownloadUrl url = url.
Proof.
  intros absolute url. subst absolute url. cbv beta.
  unfold Resources.getDownloadUrl.
  destruct (JsMore.startsWith path "http://" || JsMore.startsWith path "https://")
    eqn:E.
  - rewrite E. repeat split.
  - assert (H : JsMore.startsWith (Resources.storageBase ++ path) "https://" = true).
    { unfold JsMore.startsWith.
      change (Resources.storageBase ++ path)%string
        with ("https://"
              ++ ("vysfbzcurkswmwgptbfj.supabase.co/storage/v1/object/public/resources/"
                  ++ path))%string.
      apply prefix_app. }
    rewrite H, orb_true_r. repeat split.
Qed.

(* ================================================================= *)
(** ** Bulk upload *)

Section Bulk.

Import BulkUpload.

Lemma filter_none_rejected {A : Type} (p : A -> bool) (l : list A) :
  List.length (filter (fun x => negb (p x)) l) = 0 -> filter p l = l.
Proof.
  induction l as [|x l IH]; intros H; [reflexivity|].
  cbn [filter] in *. destruct (p x); cbn [negb] in H.
  - f_equal. apply IH, H.
  - discriminate H.
Qed.

Lemma preview_is_filter (data : list Item) :
  preview data
  = filter (fun item => hasRequired (korean_word item) (bangla_meaning item)) data.
Proof.
  unfold preview.
  assert (Hinv : filter (fun item => negb (Js.truthyStr (korean_word item))
                                     || negb (Js.truthyStr (bangla_meaning item))) data
                 = filter (fun item => negb (hasRequired (korean_word item)
                                               (bangla_meaning item))) data).
  { apply filter_ext. intros item. unfold hasRequired. symmetry. apply negb_andb. }
  rewrite Hinv.
  destruct (Nat.ltb_spec 0
              (List.length (filter (fun item => negb (hasRequired (korean_word item)
                                                        (bangla_meaning item))) data)))
    as [Hpos|Hzero]; [reflexivity|].
  symmetry. apply filter_none_rejected. lia.
Qed.

Lemma process_filter (data : list Item) :
  processDataForUpload data
  = map processItem
      (filter (fun item => hasRequired (korean_word item) (bangla_meaning item)) data).
Proof.
  unfold processDataForUpload.
  induction data as [|item data IH]; [reflexivity|].
  cbn [map filter processItem u_korean_word u_bangla_meaning].
  destruct (hasRequired (korean_word item) (bangla_meaning item));
    cbn [map]; rewrite IH; reflexivity.
Qed.

Lemma filter_idempotent {A : Type} (p : A -> bool) (l : list A) :
  filter p (filter p l) = filter p l.
Proof.
  induction l as [|x l IH]; [reflexivity|].
  cbn [filter]. destruct (p x) eqn:E; [cbn [filter]; rewrite E, IH|]; auto.
Qed.

(** Reading a CSV cell of chapters: the entries that parse, zeros
    included. *)
Lemma notNaN_parsedEntries (l : list string) :
  notNaN (map (fun c => VocabularyForm.parseInt (Js.trim c)) l)
  = flat_map (fun c => match VocabularyForm.parseInt (Js.trim c) with
                       | Some z => [z]
                       | None => []
                       end) l.
Proof.
  induction l as [|c l IH]; [reflexivity|].
  cbn [map notNaN flat_map].
  destruct (VocabularyForm.parseInt (Js.trim c)); cbn [app notNaN]; rewrite IH;
    reflexivity.
Qed.

End Bulk.

(** X13.  Every row the bulk upload inserts has a non-empty korean word
    and bangla meaning; every item shown in the preview is inserted, in
    preview order, whatever its examples, themes and chapters cells
    hold; and the preview check changes nothing the upload would not
    filter by itself. *)
Theorem bulk_upload_rows (data : list BulkUpload.Item) :
  let rows := BulkUpload.processDataForUpload (BulkUpload.preview data) in
  Forall (fun u => BulkUpload.hasRequired (BulkUpload.u_korean_word u)
                     (BulkUpload.u_bangla_meaning u) = true) rows
  /\ rows = map BulkUpload.processItem (BulkUpload.preview data)
  /\ List.length rows = List.length (BulkUpload.preview data)
  /\ rows = BulkUpload.processDataForUpload data
  /\ BulkUpload.handleUpload (BulkUpload.preview data)
     = if List.length (BulkUpload.preview data) =? 0
       then BulkUpload.Nothing else BulkUpload.Inserted rows.
Proof.
  intros rows. subst rows.
  assert (Hrows : BulkUpload.processDataForUpload (BulkUpload.preview data)
                  = map BulkUpload.processItem (BulkUpload.preview data)).
  { rewrite process_filter, preview_is_filter, filter_idempotent. reflexivity. }
  split; [|split; [exact Hrows|split; [|split]]].
  - unfold BulkUpload.processDataForUpload. apply Forall_forall.
    intros u Hin. apply filter_In in Hin. apply Hin.
  - rewrite Hrows. apply length_map.
  - rewrite Hrows, process_filter, preview_is_filter. reflexivity.
  - unfold BulkUpload.handleUpload.
    destruct (List.length (BulkUpload.preview data) =? 0) eqn:E; [reflexivity|].
    rewrite Hrows, length_map, E. reflexivity.
Qed.

(** X14.  For the same chapters text the vocabulary form stores the bulk
    upload's list without its zeros: the bulk upload keeps chapter 0
    where the form drops it, and for an empty text the bulk upload
    stores the empty list where the form stores null. *)
Theorem bulk_and_form_chapters (chapters : string) :
  VocabularyForm.chaptersField chapters
  = (if (chapters =? "")%string then None
     else Some (filter (fun z => negb (z =? 0)%Z)
                  (BulkUpload.chaptersOfString chapters)))
  /\ BulkUpload.chaptersOf (BulkUpload.ChString "") = Some []
  /\ BulkUpload.chaptersOf (BulkUpload.ChString "0, 5") = Some [0%Z; 5%Z].
Proof.
  split; [|split; reflexivity].
  unfold VocabularyForm.chaptersField, BulkUpload.chaptersOfString.
  destruct (chapters =? "")%string; cbn [negb]; [reflexivity|].
  rewrite filterBoolean_spec, notNaN_parsedEntries. reflexivity.
Qed.

Section TrimTwice.

Lemma trimEnd_idempotent (s : string) : Js.trimEnd (Js.trimEnd s) = Js.trimEnd s.
Proof.
  induction s as [|c s IH]; [reflexivity|].
  cbn [Js.trimEnd]. destruct (Js.trimEnd s) as [|a b] eqn:E.
  - destruct (Js.isWhiteSpace c) eqn:Hc; [reflexivity|].
    cbn [Js.trimEnd]. rewrite Hc. reflexivity.
  - cbn [Js.trimEnd]. cbn [Js.trimEnd] in IH. rewrite IH. reflexivity.
Qed.

Lemma trimStart_head (s : string) :
  Js.trimStart s = EmptyString
  \/ exists c r, Js.trimStart s = String c r /\ Js.isWhiteSpace c = false.
Proof.
  induction s as [|c s IH]; [left; reflexivity|].
  cbn [Js.trimStart]. destruct (Js.isWhiteSpace c) eqn:Hc; [exact IH|].
  right. exists c, s. split; [reflexivity|exact Hc].
Qed.

Lemma trim_idempotent (s : string) : Js.trim (Js.trim s) = Js.trim s.
Proof.
  unfold Js.trim.
  assert (H : Js.trimStart (Js.trimEnd (Js.trimStart s)) = Js.trimEnd (Js.trimStart s)).
  { destruct (trimStart_head s) as [->|(c & r & -> & Hc)]; [reflexivity|].
    cbn [Js.trimEnd]. rewrite Hc.
    destruct (Js.trimEnd r); cbn [Js.trimStart]; rewrite Hc; reflexivity. }
  rewrite H. apply trimEnd_idempotent.
Qed.

End TrimTwice.

(** X15.  The themes the bulk upload reads from a text cell are the
    trimmed comma-separated entries without the empty ones: no stored
    theme is empty or carries outer white space. *)
Theorem bulk_themes_trimmed_non_empty (s : string) :
  exists l,
    BulkUpload.themesOf (BulkUpload.ThString s) = Some l
    /\ l = filter (fun t => negb (t =? "")%string) (map Js.trim (Js.split "," s))
    /\ Forall (fun t => t <> EmptyString /\ Js.trim t = t) l.
Proof.
  eexists. split; [reflexivity|]. split; [reflexivity|].
  apply Forall_forall. intros t Hin. apply filter_In in Hin.
  destruct Hin as [Hin Hne]. split.
  - apply negb_true_iff in Hne. apply String.eqb_neq, Hne.
  - apply in_map_iff in Hin. destruct Hin as (x & <- & _). apply trim_idempotent.
Qed.

(* ================================================================= *)
(** ** Selections *)

Section Sets.

Import JsMore.

Lemma setHas_In (S : list string) (x : string) : setHas S x = true <-> In x S.
Proof.
  unfold setHas. rewrite existsb_exists. split.
  - intros (y & Hin & Hy). apply String.eqb_eq in Hy. subst y. exact Hin.
  - intros Hin. exists x. split; [exact Hin|apply String.eqb_refl].
Qed.

Lemma setHas_app (S T : list string) (x : string) :
  setHas (S ++ T) x = setHas S x || setHas T x.
Proof. unfold setHas. apply existsb_app. Qed.

Lemma setHas_setAdd (S : list string) (y x : string) :
  setHas (setAdd y S) x = (x =? y)%string || setHas S x.
Proof.
  unfold setAdd. destruct (setHas S y) eqn:E.
  - destruct (String.eqb_spec x y) as [->|_]; [rewrite E|]; reflexivity.
  - rewrite setHas_app. cbn. rewrite orb_false_r. apply orb_comm.
Qed.

Lemma setHas_setDelete (S : list string) (y x : string) :
  setHas (setDelete y S) x = negb (x =? y)%string && setHas S x.
Proof.
  unfold setDelete, setHas. induction S as [|z S IH]; [apply eq_sym, andb_false_r|].
  cbn [filter existsb]. destruct (String.eqb_spec z y) as [->|Hzy]; cbn [negb].
  - rewrite IH. destruct (String.eqb_spec x y); reflexivity.
  - cbn [existsb]. rewrite IH.
    destruct (String.eqb_spec x z) as [->|_]; [|reflexivity].
    destruct (String.eqb_spec z y); [contradiction|reflexivity].
Qed.

Lemma setDelete_absent (S : list string) (y : string) :
  setHas S y = false -> setDelete y S = S.
Proof.
  unfold setDelete, setHas. induction S as [|z S IH]; intros H; [reflexivity|].
  cbn [existsb] in H. apply orb_false_elim in H. destruct H as [Hz HS].
  cbn [filter]. rewrite String.eqb_sym, Hz. cbn [negb]. rewrite (IH HS). reflexivity.
Qed.

Lemma NoDup_setAdd (S : list string) (y : string) : NoDup S -> NoDup (setAdd y S).
Proof.
  intros H. unfold setAdd. destruct (setHas S y) eqn:E; [exact H|].
  apply NoDup_app; [exact H|repeat constructor; intros []|].
  intros x Hin [<-|[]]. apply setHas_In in Hin. congruence.
Qed.

Lemma NoDup_setDelete (S : list string) (y : string) : NoDup S -> NoDup (setDelete y S).
Proof. apply NoDup_filter. Qed.

Lemma setHas_fold (l : list string) :
  forall S x,
    setHas (fold_left (fun S x => setAdd x S) l S) x
    = setHas S x || existsb (String.eqb x) l.
Proof.
  induction l as [|y l IH]; intros S x; cbn [fold_left existsb].
  - symmetry. apply orb_false_r.
  - rewrite IH, setHas_setAdd. destruct ((x =? y)%string), (setHas S x); reflexivity.
Qed.

Lemma setHas_setFrom (l : list string) (x : string) :
  setHas (setFrom l) x = existsb (String.eqb x) l.
Proof. unfold setFrom. rewrite setHas_fold. reflexivity. Qed.

Lemma setFrom_size (l : list string) :
  (List.length (setFrom l) =? 0) = (List.length l =? 0).
Proof.
  destruct l as [|y l]; [reflexivity|].
  cbn [List.length]. destruct (setFrom (y :: l)) as [|z S] eqn:E; [|reflexivity].
  exfalso. pose proof (setHas_setFrom (y :: l) y) as H. rewrite E in H.
  cbn in H. rewrite String.eqb_refl in H. discriminate H.
Qed.

End Sets.

Section SelectAll.

Lemma filter_filter_and {A : Type} (f g : A -> bool) (l : list A) :
  filter f (filter g l) = filter (fun x => g x && f x) l.
Proof.
  induction l as [|x l IH]; [reflexivity|].
  cbn [filter]. destruct (g x); cbn [filter andb]; [destruct (f x)|]; rewrite IH;
    reflexivity.
Qed.

Lemma filter_as_filter {A : Type} (b : bool) (f : A -> bool) (l : list A) :
  (if b then filter f l else l) = filter (fun x => if b then f x else true) l.
Proof.
  destruct b; [reflexivity|]. induction l as [|x l IH]; [reflexivity|].
  cbn [filter]. rewrite <- IH. reflexivity.
Qed.

(** Each studio's filter keeps the records that satisfy one predicate. *)
Lemma openai_filter_shape (q pos : string) (ft : OpenAiStudio.FilterType) :
  exists P, forall l, OpenAiStudio.filterVocabularies l q pos ft = filter P l.
Proof.
  eexists. intros l. unfold OpenAiStudio.filterVocabularies. cbv zeta.
  rewrite (filter_as_filter (negb (Js.trim q =? "")%string)).
  rewrite (filter_as_filter (negb (pos =? "all")%string)).
  rewrite !filter_filter_and. reflexivity.
Qed.

Lemma gemini_filter_shape (q pos : string) (ft : GeminiStudio.FilterType) :
  exists P, forall l, GeminiStudio.filterVocabularies l q pos ft = filter P l.
Proof.
  eexists. intros l. unfold GeminiStudio.filterVocabularies. cbv zeta.
  rewrite (filter_as_filter (negb (Js.trim q =? "")%string)).
  rewrite (filter_as_filter (negb (pos =? "all")%string)).
  rewrite !filter_filter_and. reflexivity.
Qed.

Lemma distinct_ids_same_record (l : list Vocabulary) (u v : Vocabulary) :
  NoDup (map id l) -> In u l -> In v l -> id u = id v -> u = v.
Proof.
  induction l as [|x l IH]; intros Hnd Hu Hv Hid; [contradiction|].
  cbn [map] in Hnd. inversion Hnd as [|? ? Hnotin Hnd']; subst.
  destruct Hu as [<-|Hu], Hv as [<-|Hv]; try reflexivity.
  - exfalso. apply Hnotin. rewrite Hid. apply in_map, Hv.
  - exfalso. apply Hnotin. rewrite <- Hid. apply in_map, Hu.
  - apply IH; assumption.
Qed.

(** Selecting the ids of the shown records selects the shown records. *)
Lemma selected_are_filtered (P : Vocabulary -> bool) (l : list Vocabulary) :
  NoDup (map id l) ->
  filter (fun v => existsb (String.eqb (id v)) (Selection.selectAll (filter P l))) l
  = filter P l.
Proof.
  intros Hnd. apply filter_ext_in. intros v Hv.
  change (existsb (String.eqb (id v)) (Selection.selectAll (filter P l)))
    with (JsMore.setHas (JsMore.setFrom (map id (filter P l))) (id v)).
  rewrite setHas_setFrom.
  destruct (P v) eqn:Pv.
  - apply existsb_exists. exists (id v). split; [|apply String.eqb_refl].
    apply in_map, filter_In. split; assumption.
  - destruct (existsb (String.eqb (id v)) (map id (filter P l))) eqn:E; [|reflexivity].
    apply existsb_exists in E. destruct E as (x & Hin & Hx).
    apply String.eqb_eq in Hx. subst x. apply in_map_iff in Hin.
    destruct Hin as (u & Hid & Hu). apply filter_In in Hu. destruct Hu as [Hu Pu].
    rewrite (distinct_ids_same_record l u v Hnd Hu Hv Hid) in Pu. congruence.
Qed.

Lemma select_all_then_enhance (Enhanced : Type) (s : Batch.Studio)
    (w : Batch.World Enhanced) (P : Vocabulary -> bool) (l : list Vocabulary) :
  NoDup (map id l) ->
  Batch.handleEnhanceSelected Enhanced s w l (Selection.selectAll (filter P l))
  = if List.length (filter P l) =? 0 then None
    else Some (Batch.runBatch Enhanced s w (filter P l)).
Proof.
  intros Hnd. unfold Batch.handleEnhanceSelected, Selection.selectAll.
  rewrite setFrom_size, length_map.
  destruct (List.length (filter P l) =? 0); [reflexivity|].
  f_equal. f_equal. apply (selected_are_filtered P l Hnd).
Qed.

End SelectAll.

(** X16.  In either studio, with distinct record ids, "Select All"
    followed by "Enhance" runs the batch over exactly the records the
    current filters show, in the order shown; when nothing is shown no
    batch runs. *)
Theorem select_all_enhances_shown_records
    (Enhanced : Type) (s : Batch.Studio) (w : Batch.World Enhanced)
    (vocabularies : list Vocabulary) (searchQuery filterPos : string)
    (ftO : OpenAiStudio.FilterType) (ftG : GeminiStudio.FilterType) :
  NoDup (map id vocabularies) ->
  let shownO := OpenAiStudio.filterVocabularies vocabularies searchQuery filterPos ftO in
  let shownG := GeminiStudio.filterVocabularies vocabularies searchQuery filterPos ftG in
  Batch.handleEnhanceSelected Enhanced s w vocabularies (Selection.selectAll shownO)
  = (if List.length shownO =? 0 then None
     else Some (Batch.runBatch Enhanced s w shownO))
  /\ Batch.handleEnhanceSelected Enhanced s w vocabularies (Selection.selectAll shownG)
     = (if List.length shownG =? 0 then None
        else Some (Batch.runBatch Enhanced s w shownG)).
Proof.
  intros Hnd shownO shownG. subst shownO shownG.
  destruct (openai_filter_shape searchQuery filterPos ftO) as [P HP].
  destruct (gemini_filter_shape searchQuery filterPos ftG) as [Q HQ].
  rewrite HP, HQ. split; apply select_all_then_enhance, Hnd.
Qed.

Lemma select_all_enhances_shown_records_witness :
  Batch.handleEnhanceSelected unit Batch.OpenAi Samples.noneFails
    MoreSamples.fourVocabularies
    (Selection.selectAll
       (OpenAiStudio.filterVocabularies MoreSamples.fourVocabularies "" "noun"
          OpenAiStudio.all))
  = Some (Batch.runBatch unit Batch.OpenAi Samples.noneFails
            [Samples.nounWithoutExamples; Samples.bareNoun]).
Proof.
  apply (select_all_enhances_shown_records unit Batch.OpenAi Samples.noneFails
           MoreSamples.fourVocabularies "" "noun" OpenAiStudio.all GeminiStudio.all).
  repeat constructor; cbn; intuition discriminate.
Defined.

(** X17.  Toggling a record flips the membership of that record's id
    and of no other id, so toggling twice restores every membership. *)
Theorem toggle_selection_flips_one (selectedVocabs : list string) (vid x : string) :
  JsMore.setHas (Selection.toggleSelection vid selectedVocabs) x
  = (if (x =? vid)%string then negb (JsMore.setHas selectedVocabs vid)
     else JsMore.setHas selectedVocabs x)
  /\ JsMore.setHas
       (Selection.toggleSelection vid (Selection.toggleSelection vid selectedVocabs)) x
     = JsMore.setHas selectedVocabs x.
Proof.
  assert (H : forall S y,
             JsMore.setHas (Selection.toggleSelection vid S) y
             = if (y =? vid)%string then negb (JsMore.setHas S vid)
               else JsMore.setHas S y).
  { intros S y. unfold Selection.toggleSelection.
    destruct (JsMore.setHas S vid) eqn:E.
    - rewrite setHas_setDelete. destruct (String.eqb_spec y vid); reflexivity.
    - rewrite setHas_setAdd. destruct (String.eqb_spec y vid); reflexivity. }
  split; [apply H|]. rewrite H.
  destruct (String.eqb_spec x vid) as [->|Hne].
  - rewrite H, String.eqb_refl. apply negb_involutive.
  - rewrite H. apply String.eqb_neq in Hne. rewrite Hne. reflexivity.
Qed.

(** X18.  Whatever check boxes are clicked, the selected fields are
    either exactly "all" or a duplicate-free list of the studio's field
    names without "all"; so the request asks either for all missing
    fields or for named fields only. *)
Theorem field_selection_invariant (fields selectedFields : list string) :
  ~ In "all" fields ->
  Selection.reachable fields selectedFields ->
  (selectedFields = ["all"] /\ Selection.fieldsToEnhance selectedFields = None)
  \/ (Selection.fieldsToEnhance selectedFields = Some selectedFields
      /\ NoDup selectedFields
      /\ incl selectedFields fields).
Proof.
  intros Hall Hreach.
  induction Hreach as [|checked s _ _|f checked s Hf _ IH].
  - left. split; reflexivity.
  - destruct checked; [left; split; reflexivity|].
    right. split; [reflexivity|]. split; [constructor|]. intros x Hx. destruct Hx.
  - right.
    assert (Hclean : JsMore.setHas (JsMore.setDelete "all" s) "all" = false
                     /\ NoDup (JsMore.setDelete "all" s)
                     /\ incl (JsMore.setDelete "all" s) fields).
    { destruct IH as [[-> _]|(Hs & Hnd & Hincl)].
      - split; [reflexivity|]. split; [constructor|]. intros x Hx. destruct Hx.
      - unfold Selection.fieldsToEnhance in Hs.
        destruct (JsMore.setHas s "all") eqn:E; [discriminate Hs|].
        rewrite (setDelete_absent s "all" E). repeat split; assumption. }
    destruct Hclean as (Hno & Hnd & Hincl).
    assert (Hfall : ("all" =? f)%string = false).
    { apply String.eqb_neq. intros <-. contradiction. }
    unfold Selection.toggleField, Selection.fieldsToEnhance. destruct checked.
    + rewrite setHas_setAdd, Hfall, Hno. split; [reflexivity|]. split.
      * apply NoDup_setAdd, Hnd.
      * intros x Hx. apply setHas_In in Hx. rewrite setHas_setAdd in Hx.
        destruct (String.eqb_spec x f) as [E|_]; [rewrite E; exact Hf|].
        apply Hincl, setHas_In, Hx.
    + rewrite setHas_setDelete, Hfall, Hno. split; [reflexivity|]. split.
      * apply NoDup_setDelete, Hnd.
      * intros x Hx. apply setHas_In in Hx. rewrite setHas_setDelete in Hx.
        apply andb_true_iff in Hx. apply Hincl, setHas_In, Hx.
Qed.

Lemma field_selection_invariant_witness :
  (Selection.toggleField "themes" true
     (Selection.toggleField "examples" true Selection.initialFields) = ["all"]
   /\ Selection.fieldsToEnhance
        (Selection.toggleField "themes" true
           (Selection.toggleField "examples" true Selection.initialFields)) = None)
  \/ (Selection.fieldsToEnhance
        (Selection.toggleField "themes" true
           (Selection.toggleField "examples" true Selection.initialFields))
      = Some (Selection.toggleField "themes" true
                (Selection.toggleField "examples" true Selection.initialFields))
      /\ NoDup (Selection.toggleField "themes" true
                  (Selection.toggleField "examples" true Selection.initialFields))
      /\ incl (Selection.toggleField "themes" true
                 (Selection.toggleField "examples" true Selection.initialFields))
              Selection.openAiFields).
Proof.
  apply (field_selection_invariant Selection.openAiFields).
  - cbn. intuition discriminate.
  - apply Selection.reach_field; [cbn; auto 10|].
    apply Selection.reach_field; [cbn; auto 10|].
    apply Selection.reach_initial.
Defined.

(* ================================================================= *)
(** ** Card grid *)

Section GridRows.

Context {A : Type}.

Lemma firstn_succ_nth (m : list A) :
  forall c, firstn (S c) m
            = firstn c m ++ match nth_error m c with
                            | Some x => [x]
                            | None => []
                            end.
Proof.
  induction m as [|x m IH]; intros c.
  - destruct c; reflexivity.
  - destruct c as [|c]; [reflexivity|].
    change (firstn (S (S c)) (x :: m)) with (x :: firstn (S c) m).
    rewrite IH. reflexivity.
Qed.

Lemma nth_error_after_skip (l : list A) :
  forall k c, nth_error (skipn k l) c = nth_error l (k + c).
Proof.
  induction l as [|x l IH]; intros k c.
  - rewrite skipn_nil. destruct c, k; reflexivity.
  - destruct k as [|k]; [reflexivity|]. apply IH.
Qed.

(** A row holds the next [columns] items, fewer at the end of the list. *)
Lemma rowItems_chunk (l : list A) (columns r : nat) :
  Grid.rowItems l columns r = firstn columns (skipn (r * columns) l).
Proof.
  unfold Grid.rowItems. induction columns as [|c IH] in r |- *.
  - reflexivity.
  - rewrite seq_S, flat_map_app. cbn [flat_map app Nat.add].
    rewrite app_nil_r, firstn_succ_nth, nth_error_after_skip.
    f_equal.
    transitivity (firstn c (skipn (r * S c) l)); [|reflexivity].
    clear IH. generalize (r * S c). intros k.
    induction c as [|c IHc]; [reflexivity|].
    rewrite seq_S, flat_map_app, IHc. cbn [flat_map app Nat.add].
    rewrite app_nil_r, firstn_succ_nth, nth_error_after_skip. reflexivity.
Qed.

Lemma chunks_concat (c : nat) :
  forall n (l : list A),
    List.length l <= n * c ->
    List.concat (map (fun r => firstn c (skipn (r * c) l)) (seq 0 n)) = l.
Proof.
  induction n as [|n IH]; intros l Hlen.
  - cbn in Hlen. apply eq_sym, length_zero_iff_nil. lia.
  - cbn [seq map List.concat]. rewrite <- seq_shift, map_map.
    change (skipn (0 * c) l) with l.
    transitivity (firstn c l ++ skipn c l); [|apply firstn_skipn].
    f_equal.
    transitivity
      (List.concat (map (fun r => firstn c (skipn (r * c) (skipn c l))) (seq 0 n))).
    + f_equal. apply map_ext. intros r. rewrite skipn_skipn.
      replace (r * c + c) with (S r * c) by lia. reflexivity.
    + apply IH. rewrite length_skipn. lia.
Qed.

Lemma rowCount_covers (len c : nat) :
  0 < c ->
  len <= Grid.rowCount len c * c
  /\ forall r, r < Grid.rowCount len c -> r * c < len.
Proof.
  intros Hc. unfold Grid.rowCount.
  pose proof (Nat.div_mod (len + c - 1) c ltac:(lia)) as Hdm.
  pose proof (Nat.mod_upper_bound (len + c - 1) c ltac:(lia)) as Hmod.
  set (q := (len + c - 1) / c) in *. split; [nia|].
  intros r Hr. nia.
Qed.

End GridRows.

(** X19.  For any window width the grid has 1, 2 or 3 columns, and its
    rows, read top to bottom, show every item of the list exactly once
    and in order; no row is empty and no row holds more items than
    there are columns. *)
Theorem grid_rows_partition_list (A : Type) (filtered : list A) (width : nat) :
  let columns := Grid.columnsFor width in
  1 <= columns <= 3
  /\ List.concat (Grid.allRows filtered columns) = filtered
  /\ Forall (fun row => row <> [] /\ List.length row <= columns)
       (Grid.allRows filtered columns).
Proof.
  intros columns.
  assert (Hc : 1 <= columns <= 3).
  { subst columns. unfold Grid.columnsFor.
    destruct (1024 <=? width), (768 <=? width); lia. }
  destruct (rowCount_covers (List.length filtered) columns ltac:(lia)) as [Hcov Hrow].
  split; [exact Hc|]. unfold Grid.allRows. split.
  - rewrite (map_ext _ (fun r => firstn columns (skipn (r * columns) filtered)))
      by (intros r; apply rowItems_chunk).
    apply chunks_concat, Hcov.
  - apply Forall_forall. intros row Hin. apply in_map_iff in Hin.
    destruct Hin as (r & <- & Hr). apply in_seq in Hr.
    rewrite rowItems_chunk. split.
    + intros Hnil. apply (f_equal (@List.length A)) in Hnil.
      rewrite length_firstn, length_skipn in Hnil. cbn [List.length] in Hnil.
      specialize (Hrow r ltac:(lia)). lia.
    + rewrite length_firstn. lia.
Qed.

(* ================================================================= *)
(** ** More on slugs *)

Section SlugShape.

Import Blogs.

Lemma slugChar_of_lower (c : ascii) :
  isSlugChar (Js.lowerChar c) = SlugMore.isAsciiAlnum c.
Proof. each_char c; reflexivity. Qed.

Lemma lowerChar_slugChar (c : ascii) :
  isSlugChar c || Ascii.eqb c "-" = true -> Js.lowerChar c = c.
Proof. each_char c; intros H; try reflexivity; discriminate H. Qed.

Lemma toLowerCase_slugAlphabet (s : string) :
  SlugMore.slugAlphabet s = true -> Js.toLowerCase s = s.
Proof.
  induction s as [|c r IH]; [reflexivity|].
  cbn [SlugMore.slugAlphabet Js.toLowerCase]. intros H.
  apply andb_true_iff in H. destruct H as [Hc Hr].
  rewrite (lowerChar_slugChar c Hc), (IH Hr). reflexivity.
Qed.

Lemma words_empty (s : string) :
  words (Js.toLowerCase s) = [] <-> SlugMore.hasAsciiAlnum s = false.
Proof.
  induction s as [|c r IH]; [split; reflexivity|].
  cbn [Js.toLowerCase words SlugMore.hasAsciiAlnum].
  rewrite slugChar_of_lower. destruct (SlugMore.isAsciiAlnum c); [|exact IH].
  cbn [orb]. split; [|discriminate].
  destruct (startsWithSlugChar (Js.toLowerCase r));
    [destruct (words (Js.toLowerCase r))|]; discriminate.
Qed.

Lemma concat_words_empty (ws : list string) :
  Forall (fun w => w <> EmptyString /\ allSlugChars w = true) ws ->
  String.concat "-" ws = EmptyString <-> ws = [].
Proof.
  intros H. split; [|intros ->; reflexivity].
  destruct H as [|w ws [Hne _] _]; [reflexivity|].
  destruct w as [|c w]; [contradiction|].
  rewrite concat_cons_char. discriminate.
Qed.

Lemma slugAlphabet_app (x y : string) :
  SlugMore.slugAlphabet (x ++ y)
  = SlugMore.slugAlphabet x && SlugMore.slugAlphabet y.
Proof.
  induction x as [|c x IH]; [reflexivity|].
  cbn [append SlugMore.slugAlphabet]. rewrite IH. apply andb_assoc.
Qed.

Lemma slugAlphabet_word (w : string) :
  allSlugChars w = true -> SlugMore.slugAlphabet w = true.
Proof.
  induction w as [|c w IH]; [reflexivity|].
  cbn [allSlugChars SlugMore.slugAlphabet]. intros H.
  apply andb_true_iff in H. destruct H as [Hc Hw].
  rewrite Hc, (IH Hw). reflexivity.
Qed.

Lemma slugAlphabet_concat (ws : list string) :
  Forall (fun w => w <> EmptyString /\ allSlugChars w = true) ws ->
  SlugMore.slugAlphabet (String.concat "-" ws) = true.
Proof.
  induction 1 as [|w ws [_ Hw] Hws IH]; [reflexivity|].
  destruct ws as [|w' ws']; [exact (slugAlphabet_word w Hw)|].
  change (String.concat "-" (w :: w' :: ws'))
    with (w ++ String "-" (String.concat "-" (w' :: ws')))%string.
  rewrite slugAlphabet_app, (slugAlphabet_word w Hw).
  cbn [SlugMore.slugAlphabet andb]. rewrite IH. reflexivity.
Qed.

(** A word followed by something that is no slug character is found
    again as a word. *)
Lemma words_app_word (w rest : string) :
  w <> EmptyString -> allSlugChars w = true ->
  startsWithSlugChar rest = false ->
  words (w ++ rest) = w :: words rest.
Proof.
  intros Hne Hw Hrest. induction w as [|c w IH]; [contradiction|].
  cbn [allSlugChars] in Hw. apply andb_true_iff in Hw. destruct Hw as [Hc Hw].
  cbn [append words]. rewrite Hc. destruct w as [|c' w'].
  - cbn [append]. rewrite Hrest. reflexivity.
  - assert (Hs : startsWithSlugChar (String c' w' ++ rest) = true).
    { cbn [allSlugChars] in Hw. apply andb_true_iff in Hw. apply Hw. }
    rewrite Hs, IH by (discriminate || exact Hw). reflexivity.
Qed.

Lemma words_concat (ws : list string) :
  Forall (fun w => w <> EmptyString /\ allSlugChars w = true) ws ->
  words (String.concat "-" ws) = ws.
Proof.
  induction 1 as [|w ws [Hne Hw] Hws IH]; [reflexivity|].
  destruct ws as [|w' ws'].
  - cbn [String.concat].
    assert (E : (w ++ "")%string = w).
    { clear. induction w as [|c w IHw]; [reflexivity|].
      cbn [append]. rewrite IHw. reflexivity. }
    rewrite <- E at 1. exact (words_app_word w "" Hne Hw eq_refl).
  - change (String.concat "-" (w :: w' :: ws'))
      with (w ++ String "-" (String.concat "-" (w' :: ws')))%string.
    rewrite (words_app_word w (String "-" (String.concat "-" (w' :: ws')))
               Hne Hw eq_refl).
    f_equal. exact IH.
Qed.

End SlugShape.

(** X20.  A generated slug is empty exactly when the title holds no
    ASCII letter and no digit; hence a blog is saved with an empty slug
    exactly when the slug field is empty and the title is such. *)
Theorem slug_empty_iff_title_without_alphanumerics (f : Blogs.FormData) :
  (Blogs.generateSlug (Blogs.title f) = ""
   <-> SlugMore.hasAsciiAlnum (Blogs.title f) = false)
  /\ (BlogsPage.p_slug (BlogsPage.handleSubmit f) = ""
      <-> Blogs.slug f = "" /\ SlugMore.hasAsciiAlnum (Blogs.title f) = false).
Proof.
  assert (H : Blogs.generateSlug (Blogs.title f) = ""
              <-> SlugMore.hasAsciiAlnum (Blogs.title f) = false).
  { unfold Blogs.generateSlug. rewrite strip_replace_from_start.
    rewrite (concat_words_empty _ (words_wf _)). apply words_empty. }
  split; [exact H|].
  cbn [BlogsPage.handleSubmit BlogsPage.p_slug]. unfold Blogs.payloadSlug, Js.orStr.
  destruct (String.eqb_spec (Blogs.slug f) "") as [E|N].
  - rewrite E. cbn. rewrite H. split; [intros G; split; [reflexivity|exact G]|intros [_ G]; exact G].
  - assert (Blogs.slug f <> "") by exact N.
    destruct (Blogs.slug f) eqn:E; [contradiction|]. cbn.
    split; [discriminate|intros [G _]; discriminate G].
Qed.

(** X21.  A generated slug is written with the characters a-z, 0-9 and
    the hyphen only, and generating a slug from a slug gives it back. *)
Theorem slug_of_slug (t : string) :
  SlugMore.slugAlphabet (Blogs.generateSlug t) = true
  /\ Blogs.generateSlug (Blogs.generateSlug t) = Blogs.generateSlug t.
Proof.
  unfold Blogs.generateSlug. rewrite strip_replace_from_start.
  pose proof (words_wf (Js.toLowerCase t)) as Hwf.
  pose proof (slugAlphabet_concat _ Hwf) as Ha.
  split; [exact Ha|].
  rewrite (toLowerCase_slugAlphabet _ Ha), strip_replace_from_start.
  rewrite (words_concat _ Hwf). reflexivity.
Qed.

(* ================================================================= *)
(** ** Answers without a tagged fence *)

Section PlainAnswers.

Lemma no_fence_no_tag (s : string) :
  Cleanup.hasFence s = false -> Js.includes s "```json" = false.
Proof.
  unfold Cleanup.hasFence. induction s as [|c s IH]; intros H; [reflexivity|].
  cbn [Js.includes] in *. apply orb_false_elim in H. destruct H as [Hp Hs].
  apply orb_false_intro; [|exact (IH Hs)].
  destruct (prefix "```json" (String c s)) eqn:E; [|reflexivity].
  apply tagged_fence_is_fence in E. congruence.
Qed.

(** Without a fence the cleanup only trims. *)
Lemma cleaned_plain (t : string) :
  Cleanup.hasFence t = false -> Cleanup.cleaned t = Js.trim t.
Proof.
  intros H. unfold Cleanup.cleaned, Js.removeAll.
  rewrite (removeAll_no_match "```json" t (no_fence_no_tag t H)).
  rewrite (removeAll_no_match "```" t H). reflexivity.
Qed.

(** A fence without a tag is removed like a tagged one. *)
Lemma cleaned_fencedPlain (t : string) :
  Cleanup.hasFence t = false ->
  Cleanup.cleaned (CleanupMore.fencedPlain t) = Js.trim t.
Proof.
  intros H. unfold Cleanup.cleaned, CleanupMore.fencedPlain, Js.removeAll.
  rewrite (removeAll_no_match "```json").
  - rewrite (removeAll_match "`" "``").
    change ((Cleanup.newline ++ t ++ Cleanup.newline ++ "```")%string)
      with (String (ascii_of_nat 10) (t ++ Cleanup.newline ++ "```")).
    cbn [Js.removeAllFrom].
    replace (prefix "```" (String (ascii_of_nat 10) (t ++ Cleanup.newline ++ "```")))
      with false by reflexivity.
    rewrite (closing_fence_removed t H).
    apply (trim_between_newlines t).
  - change (("```" ++ Cleanup.newline ++ t ++ Cleanup.newline ++ "```")%string)
      with (String "`" (String "`" (String "`" (String (ascii_of_nat 10)
              (t ++ Cleanup.newline ++ "```"))))).
    cbn [Js.includes].
    repeat (apply orb_false_intro; [reflexivity|]).
    apply no_tag_before_closing_fence, H.
Qed.

End PlainAnswers.

(** X22.  An answer of the model that is a JSON text without any run of
    three backquotes is read as that text whether it comes bare or
    inside a code fence without a language tag: the cleanup leaves the
    text without its surrounding white space, and the parse gives the
    text's value, in enhanceVocabulary as in the Gemini studio. *)
Theorem bare_or_untagged_json_parses (t : string) (v : Json.Value) :
  Json.parse t = Some v ->
  Cleanup.hasFence t = false ->
  Cleanup.cleaned t = Js.trim t
  /\ Cleanup.parseContent t = Some v
  /\ Cleanup.decodeData (inl t) = Some v
  /\ Cleanup.cleaned (CleanupMore.fencedPlain t) = Js.trim t
  /\ Cleanup.parseContent (CleanupMore.fencedPlain t) = Some v
  /\ Cleanup.decodeData (inl (CleanupMore.fencedPlain t)) = Some v.
Proof.
  intros Hp Hf.
  pose proof (cleaned_plain t Hf) as H1.
  pose proof (cleaned_fencedPlain t Hf) as H2.
  pose proof (parse_trim t v Hp) as H3.
  unfold Cleanup.parseContent, Cleanup.decodeData.
  rewrite H1, H2, H3. repeat split.
Qed.

Lemma bare_or_untagged_json_parses_witness :
  Cleanup.decodeData (inl (CleanupMore.fencedPlain Samples.enhancedJson))
  = Json.parse Samples.enhancedJson.
Proof.
  apply (bare_or_untagged_json_parses Samples.enhancedJson
           (Json.JObject
              [([114; 111; 109; 97; 110; 105; 122; 97; 116; 105; 111; 110]%N,
                Json.JString [103; 97; 100; 97]%N);
               ([116; 104; 101; 109; 101; 115]%N,
                Json.JArray [Json.JString [100; 97; 105; 108; 121]%N;
                             Json.JString [116; 114; 97; 118; 101; 108]%N]);
               ([99; 104; 97; 112; 116; 101; 114; 115]%N,
                Json.JArray [Json.JNumber "1"; Json.JNumber "5"])])).
  - vm_compute. reflexivity.
  - vm_compute. reflexivity.
Defined.

(* ================================================================= *)
(** ** More on the enhancement batch *)

Section BatchCounts.

Variable Enhanced : Type.
Variable s : Batch.Studio.
Variable w : Batch.World Enhanced.

Lemma round_counts (n i : nat) (v : Vocabulary) (st : Batch.State Enhanced) :
  Batch.successCount Enhanced (Batch.round Enhanced s w n i v st)
  = Batch.successCount Enhanced st + (if Batch.fails Enhanced w i v then 0 else 1)
  /\ Batch.errorCount Enhanced (Batch.round Enhanced s w n i v st)
     = Batch.errorCount Enhanced st + (if Batch.fails Enhanced w i v then 1 else 0)
  /\ Batch.progress Enhanced (Batch.round Enhanced s w n i v st) = (i + 1, n).
Proof.
  unfold Batch.round, Batch.tryBlock, Batch.catchBlock, Batch.fails.
  destruct (Batch.enhance Enhanced w i v) as [e|d];
    [|destruct (Batch.update Enhanced w i (id v) d)];
    destruct (i <? n - 1);
    cbn [Batch.log Batch.results Batch.successCount Batch.errorCount Batch.progress];
    repeat split; lia.
Qed.

Lemma loop_counts (n : nat) (rest : list Vocabulary) :
  forall i st,
    Batch.successCount Enhanced (Batch.loop Enhanced s w n i rest st)
    + List.length (Batch.failingIndices Enhanced w i rest)
    = Batch.successCount Enhanced st + List.length rest
    /\ Batch.errorCount Enhanced (Batch.loop Enhanced s w n i rest st)
       = Batch.errorCount Enhanced st
         + List.length (Batch.failingIndices Enhanced w i rest)
    /\ Batch.progress Enhanced (Batch.loop Enhanced s w n i rest st)
       = match rest with
         | [] => Batch.progress Enhanced st
         | _ :: _ => (i + List.length rest, n)
         end.
Proof.
  induction rest as [|v rest IH]; intros i st;
    cbn [Batch.loop Batch.failingIndices List.length].
  - repeat split; lia.
  - destruct (IH (i + 1) (Batch.round Enhanced s w n i v st)) as (Hs & He & Hp).
    destruct (round_counts n i v st) as (Rs & Re & Rp).
    rewrite Rs in Hs. rewrite Re in He. rewrite Rp in Hp.
    split; [|split].
    + destruct (Batch.fails Enhanced w i v); cbn [List.length]; lia.
    + rewrite He. destruct (Batch.fails Enhanced w i v); cbn [List.length]; lia.
    + rewrite Hp. destruct rest; [reflexivity|]. f_equal. cbn [List.length]. lia.
Qed.

Lemma filter_update_events (n : nat) (rest : list Vocabulary) :
  forall i, filter BatchMore.isUpdate (Batch.eventsFrom Enhanced s w n i rest)
            = BatchMore.updateEvents w i rest.
Proof.
  induction rest as [|v rest IH]; intros i; [reflexivity|].
  cbn [Batch.eventsFrom BatchMore.updateEvents]. unfold Batch.roundEvents.
  rewrite !filter_app, IH.
  destruct (Batch.enhance Enhanced w i v); destruct (i <? n - 1); reflexivity.
Qed.

Lemma updates_cover_successes (rest : list Vocabulary) :
  forall i, List.length rest
            <= List.length (BatchMore.updateEvents w i rest)
               + List.length (Batch.failingIndices Enhanced w i rest).
Proof.
  induction rest as [|v rest IH]; intros i; [reflexivity|].
  cbn [BatchMore.updateEvents Batch.failingIndices List.length]. unfold Batch.fails.
  specialize (IH (i + 1)).
  destruct (Batch.enhance Enhanced w i v) as [e|d];
    [|destruct (Batch.update Enhanced w i (id v) d)]; cbn [List.length]; lia.
Qed.

Lemma nth_error_finalResults (rest : list Vocabulary) :
  forall i j,
    nth_error (Batch.finalResults Enhanced s w i rest) j
    = option_map (Batch.finalResult Enhanced s w (i + j)) (nth_error rest j).
Proof.
  induction rest as [|v rest IH]; intros i j.
  - destruct j; reflexivity.
  - destruct j as [|j]; cbn [Batch.finalResults nth_error option_map].
    + rewrite Nat.add_0_r. reflexivity.
    + rewrite IH. replace (i + 1 + j) with (i + S j) by lia. reflexivity.
Qed.

End BatchCounts.

(** X23.  Whatever the outcomes, and whether or not ids repeat, the
    summary of a batch accounts for every selected record: successes
    and failures add up to the number of records, the failures are the
    rounds that ended in the catch block, and the progress ends at
    k of k. *)
Theorem batch_summary_accounts_for_every_record
    (Enhanced : Type) (s : Batch.Studio) (w : Batch.World Enhanced)
    (selected : list Vocabulary) :
  let k := List.length selected in
  let st := Batch.runBatch Enhanced s w selected in
  Batch.successCount Enhanced st + Batch.errorCount Enhanced st = k
  /\ Batch.errorCount Enhanced st
     = List.length (Batch.failingIndices Enhanced w 0 selected)
  /\ Batch.progress Enhanced st = (k, k).
Proof.
  intros k st. subst k st. unfold Batch.runBatch.
  cbn [Batch.results Batch.successCount Batch.errorCount Batch.progress].
  destruct (loop_counts Enhanced s w (List.length selected) selected 0
              (Batch.mkState Enhanced (map (Batch.initialResult Enhanced) selected)
                 0 0 (0, List.length selected) []))
    as (Hs & He & Hp).
  cbn [Batch.successCount Batch.errorCount Batch.progress] in Hs, He, Hp.
  split; [lia|]. split; [lia|].
  rewrite Hp. destruct selected; reflexivity.
Qed.

(** X24.  A batch writes to the store only after an enrichment that
    returned: its store updates are, in input order, those of the
    records whose enrichment call did not throw, and no more records are
    counted as successes than updates were made. *)
Theorem store_updated_only_after_enrichment
    (Enhanced : Type) (s : Batch.Studio) (w : Batch.World Enhanced)
    (selected : list Vocabulary) :
  let st := Batch.runBatch Enhanced s w selected in
  filter BatchMore.isUpdate (Batch.log Enhanced st)
  = BatchMore.updateEvents w 0 selected
  /\ Batch.successCount Enhanced st
     <= List.length (BatchMore.updateEvents w 0 selected).
Proof.
  intros st. subst st. split.
  - rewrite runBatch_log, filter_app, filter_update_events.
    cbn [filter BatchMore.isUpdate]. apply app_nil_r.
  - unfold Batch.runBatch. cbn [Batch.successCount].
    destruct (loop_counts Enhanced s w (List.length selected) selected 0
                (Batch.mkState Enhanced (map (Batch.initialResult Enhanced) selected)
                   0 0 (0, List.length selected) []))
      as (Hs & _ & _).
    cbn [Batch.successCount] in Hs.
    pose proof (updates_cover_successes Enhanced w selected 0). lia.
Qed.

(** X25.  After a batch over records with distinct ids, entry i of the
    result list belongs to record i and is finished: with status error
    when round i threw, carrying the thrown message in the OpenAI studio
    (or "Unknown error" for a thrown value that is no Error) and the
    constant "Failed" in the Gemini studio; with status success and no
    error text otherwise.  No entry stays pending or processing. *)
Theorem batch_entries_finished
    (Enhanced : Type) (s : Batch.Studio) (w : Batch.World Enhanced)
    (selected : list Vocabulary) (i : nat) (v : Vocabulary) :
  NoDup (map id selected) ->
  nth_error selected i = Some v ->
  exists r,
    nth_error (Batch.results Enhanced (Batch.runBatch Enhanced s w selected)) i = Some r
    /\ Batch.r_id Enhanced r = id v
    /\ Batch.r_korean_word Enhanced r = korean_word v
    /\ BatchMore.finished (Batch.r_status Enhanced r) = true
    /\ match BatchMore.thrownAt w i v with
       | Some e =>
           Batch.r_status Enhanced r = Batch.error
           /\ Batch.r_error Enhanced r
              = Some match s with
                     | Batch.OpenAi => Batch.messageOf e
                     | Batch.Gemini => "Failed"
                     end
       | None =>
           Batch.r_status Enhanced r = Batch.success
           /\ Batch.r_error Enhanced r = None
       end.
Proof.
  intros Hnd Hv.
  destruct (runBatch_effect Enhanced s w selected Hnd) as (Hr & _ & _).
  exists (Batch.finalResult Enhanced s w i v). rewrite Hr.
  rewrite nth_error_finalResults, Hv. cbn [option_map Nat.add].
  split; [reflexivity|].
  unfold Batch.finalResult, BatchMore.thrownAt, Batch.setError, Batch.setSuccess.
  destruct (Batch.enhance Enhanced w i v) as [e|d];
    [|destruct (Batch.update Enhanced w i (id v) d)];
    destruct s; repeat split.
Qed.

Lemma batch_entries_finished_witness :
  exists r,
    nth_error (Batch.results unit
                 (Batch.runBatch unit Batch.OpenAi Samples.secondFails
                    Samples.threeSelected)) 1 = Some r
    /\ Batch.r_status unit r = Batch.error
    /\ Batch.r_error unit r = Some "AI Enhancement failed".
Proof.
  destruct (batch_entries_finished unit Batch.OpenAi Samples.secondFails
              Samples.threeSelected 1 Samples.nounWithoutExamples)
    as (r & Hr & _ & _ & _ & Hs & He).
  - repeat constructor; cbn; intuition discriminate.
  - reflexivity.
  - exists r. split; [exact Hr|]. split; [exact Hs|exact He].
Defined.

(* ================================================================= *)
(** ** Search boxes *)

Section Search.

Lemma includes_empty (s : string) : Js.includes s "" = true.
Proof. destruct s; reflexivity. Qed.

Lemma lowerChar_idempotent (c : ascii) : Js.lowerChar (Js.lowerChar c) = Js.lowerChar c.
Proof. each_char c; reflexivity. Qed.

Lemma toLowerCase_idempotent (s : string) :
  Js.toLowerCase (Js.toLowerCase s) = Js.toLowerCase s.
Proof.
  induction s as [|c r IH]; [reflexivity|].
  cbn [Js.toLowerCase]. rewrite lowerChar_idempotent, IH. reflexivity.
Qed.

Lemma isWhiteSpace_lowerChar (c : ascii) :
  Js.isWhiteSpace (Js.lowerChar c) = Js.isWhiteSpace c.
Proof. each_char c; reflexivity. Qed.

Lemma trimStart_toLowerCase (s : string) :
  Js.trimStart (Js.toLowerCase s) = Js.toLowerCase (Js.trimStart s).
Proof.
  induction s as [|c r IH]; [reflexivity|].
  cbn [Js.toLowerCase Js.trimStart]. rewrite isWhiteSpace_lowerChar.
  destruct (Js.isWhiteSpace c); [exact IH|reflexivity].
Qed.

Lemma trimEnd_toLowerCase (s : string) :
  Js.trimEnd (Js.toLowerCase s) = Js.toLowerCase (Js.trimEnd s).
Proof.
  induction s as [|c r IH]; [reflexivity|].
  cbn [Js.toLowerCase Js.trimEnd]. rewrite IH, isWhiteSpace_lowerChar.
  destruct (Js.trimEnd r); [destruct (Js.isWhiteSpace c)|]; reflexivity.
Qed.

Lemma trim_toLowerCase (s : string) :
  Js.trim (Js.toLowerCase s) = Js.toLowerCase (Js.trim s).
Proof.
  unfold Js.trim. rewrite trimStart_toLowerCase. apply trimEnd_toLowerCase.
Qed.

(** Lower-casing does not turn a query blank or a blank query
    non-blank. *)
Lemma blank_toLowerCase (s : string) :
  (Js.trim (Js.toLowerCase s) =? "")%string = (Js.trim s =? "")%string.
Proof.
  rewrite trim_toLowerCase. destruct (Js.trim s); reflexivity.
Qed.

Lemma filter_all {A : Type} (f : A -> bool) (l : list A) :
  (forall x, f x = true) -> filter f l = l.
Proof.
  intros H. induction l as [|x l IH]; [reflexivity|].
  cbn [filter]. rewrite H, IH. reflexivity.
Qed.

End Search.

(** X26.  The search boxes do not look at the case of the query: on the
    three list pages and in the two studios a query and its lower-case
    form show the same records; and on the list pages the empty query
    shows every record. *)
Theorem search_ignores_case
    (resources : list Resources.ResourceItem) (blogs : list BlogsPage.BlogItem)
    (vocabulary : list VocabularyPage.VocabularyItem)
    (vocabularies : list Vocabulary) (q pos : string)
    (ft : OpenAiStudio.FilterType) (gt : GeminiStudio.FilterType) :
  Resources.filteredResources resources (Js.toLowerCase q)
  = Resources.filteredResources resources q
  /\ BlogsPage.filteredBlogs blogs (Js.toLowerCase q) = BlogsPage.filteredBlogs blogs q
  /\ VocabularyPage.filteredVocabulary vocabulary (Js.toLowerCase q)
     = VocabularyPage.filteredVocabulary vocabulary q
  /\ OpenAiStudio.filterVocabularies vocabularies (Js.toLowerCase q) pos ft
     = OpenAiStudio.filterVocabularies vocabularies q pos ft
  /\ GeminiStudio.filterVocabularies vocabularies (Js.toLowerCase q) pos gt
     = GeminiStudio.filterVocabularies vocabularies q pos gt
  /\ Resources.filteredResources resources "" = resources
  /\ BlogsPage.filteredBlogs blogs "" = blogs
  /\ VocabularyPage.filteredVocabulary vocabulary "" = vocabulary.
Proof.
  unfold Resources.filteredResources, BlogsPage.filteredBlogs,
    VocabularyPage.filteredVocabulary, OpenAiStudio.filterVocabularies,
    GeminiStudio.filterVocabularies.
  cbv zeta. rewrite blank_toLowerCase, toLowerCase_idempotent.
  repeat (split; [reflexivity|]).
  change (Js.toLowerCase "") with "".
  split; [|split]; apply filter_all; intros x; rewrite includes_empty; reflexivity.
Qed.

(** X27.  In the two studios a query made of white space only is no
    query: the records shown are those shown for the empty query, and
    with the part-of-speech filter on "all" they are the records the
    field filter keeps. *)
Theorem blank_query_is_no_query
    (vocabularies : list Vocabulary) (q pos : string)
    (ft : OpenAiStudio.FilterType) (gt : GeminiStudio.FilterType) :
  Js.trim q = "" ->
  OpenAiStudio.filterVocabularies vocabularies q pos ft
  = OpenAiStudio.filterVocabularies vocabularies "" pos ft
  /\ GeminiStudio.filterVocabularies vocabularies q pos gt
     = GeminiStudio.filterVocabularies vocabularies "" pos gt
  /\ OpenAiStudio.filterVocabularies vocabularies q "all" ft
     = filter (OpenAiStudio.typeFilter ft) vocabularies
  /\ GeminiStudio.filterVocabularies vocabularies q "all" gt
     = filter (GeminiStudio.typeFilter gt) vocabularies.
Proof.
  intros H. unfold OpenAiStudio.filterVocabularies, GeminiStudio.filterVocabularies.
  cbv zeta. rewrite H. repeat split.
Qed.

Lemma blank_query_is_no_query_witness :
  OpenAiStudio.filterVocabularies MoreSamples.fourVocabularies "   " "all"
    OpenAiStudio.missing_examples
  = filter (OpenAiStudio.typeFilter OpenAiStudio.missing_examples)
      MoreSamples.fourVocabularies.
Proof.
  apply (blank_query_is_no_query MoreSamples.fourVocabularies "   " "all"
           OpenAiStudio.missing_examples GeminiStudio.all).
  reflexivity.
Defined.
